(** * The agent orchestration loop of the AI chat panel

    A shallow embedding of
    [front_end/panels/ai_chat/agent_framework/AgentRunner.ts]
    ([AgentRunner.run], [AgentRunner.executeHandoff],
    [AgentRunner.convertToLLMMessages]) and of
    [front_end/panels/ai_chat/core/UnifiedLLMClient.ts]
    (the static methods of [UnifiedLLMClient]), together with the tool
    [ThinkingTool] and the two [sanitizeToolResultForText] helpers of the
    JavaScript test scripts.

    Conventions.
    - A JavaScript string is a sequence of UTF-16 code units; the model
      covers the code units below 256, one [ascii] each.
    - A JavaScript value of type [any] is a [JSValue]: JSON data plus
      [undefined].  Numbers are the integer-valued ones of the safe range.
      The budget [maxIterations] is any JavaScript number, a [JSNumber].
    - A value thrown is a [Thrown]: [null], [undefined], or a value with
      the [message] and the string form that the handlers read.  A run is
      a promise: it returns a result or rejects with a thrown value.
    - The language model, the tools, [crypto.randomUUID] and the page
      context are external: they are operations on an abstract world [W],
      threaded through the run.
    - Tracing and logging calls are left out: every tracing call of the
      runner sits in a [try]/[catch] of its own and feeds nothing back. *)

From Stdlib Require Import ZArith Lia Bool List Ascii String QArith Qround.
From stdpp Require Import base option list strings pretty gmap.

Set Warnings "-register-all".

Local Open Scope string_scope.
Local Open Scope list_scope.
Local Open Scope nat_scope.

(** ** JavaScript values *)

Inductive JSValue : Type :=
| JUndefined
| JNull
| JBool (b : bool)
| JNumber (n : Z)
| JString (s : string)
| JArray (items : list JSValue)
| JObject (props : list (string * JSValue)).

(** [!!v], the condition of [if (v)], the left operand of [v || w]. *)
Definition truthy (v : JSValue) : bool :=
  match v with
  | JUndefined | JNull => false
  | JBool b => b
  | JNumber n => negb (n =? 0)%Z
  | JString s => negb (String.eqb s "")
  | JArray _ | JObject _ => true
  end.

(** [v || w] *)
Definition js_or (v w : JSValue) : JSValue := if truthy v then v else w.

(** [v === s] for a string [s] *)
Definition strict_eq_string (v : JSValue) (s : string) : bool :=
  match v with
  | JString s' => String.eqb s' s
  | _ => false
  end.

(** [typeof v === 'object' && v !== null] *)
Definition is_object (v : JSValue) : bool :=
  match v with
  | JArray _ | JObject _ => true
  | _ => false
  end.

Fixpoint assoc_get (props : list (string * JSValue)) (k : string) : option JSValue :=
  match props with
  | [] => None
  | (k', v) :: rest => if String.eqb k' k then Some v else assoc_get rest k
  end.

(** Whether [k] is an own property of [v], for a property name [k] that
    is neither an array index nor ['length']: the answer of
    [Object.prototype.hasOwnProperty], and of [k in v] for a name that no
    built-in prototype defines. *)
Definition has_own_property (v : JSValue) (k : string) : bool :=
  match v with
  | JObject props => bool_decide (is_Some (assoc_get props k))
  | _ => false
  end.

(** [v.hasOwnProperty(k)], a method call on a value other than [null]
    and [undefined]; [None] is the [TypeError] of calling what is not a
    function: an own property [hasOwnProperty] of [v] hides the method of
    [Object.prototype], and no [JSValue] is a function. *)
Definition hasOwnProperty (v : JSValue) (k : string) : option bool :=
  if has_own_property v "hasOwnProperty" then None else Some (has_own_property v k).

(** [v.k] on a value other than [null] and [undefined], for a property
    name [k] that no built-in prototype defines (the code reads [error],
    [success], [message], [action], [toolName], [toolArgs]). *)
Definition member (v : JSValue) (k : string) : JSValue :=
  match v with
  | JObject props => default JUndefined (assoc_get props k)
  | _ => JUndefined
  end.

(** [v.k]; [None] is the [TypeError] of reading a property of [null] or
    [undefined]. *)
Definition getProp (v : JSValue) (k : string) : option JSValue :=
  match v with
  | JUndefined | JNull => None
  | _ => Some (member v k)
  end.

(** [delete o[k]] on a copy of the own properties. *)
Fixpoint assoc_delete (props : list (string * JSValue)) (k : string)
  : list (string * JSValue) :=
  match props with
  | [] => []
  | (k', v) :: rest =>
      if String.eqb k' k then assoc_delete rest k else (k', v) :: assoc_delete rest k
  end.

(** [o[k] = v]: an existing property keeps its place. *)
Fixpoint assoc_set (props : list (string * JSValue)) (k : string) (v : JSValue)
  : list (string * JSValue) :=
  match props with
  | [] => [(k, v)]
  | (k', v') :: rest =>
      if String.eqb k' k then (k', v) :: rest else (k', v') :: assoc_set rest k v
  end.

(** [options?.k] *)
Definition optional_member (v : JSValue) (k : string) : JSValue :=
  match v with
  | JUndefined | JNull => JUndefined
  | _ => member v k
  end.

(** The own enumerable properties that [{...v}] copies. *)
Definition spread (v : JSValue) : list (string * JSValue) :=
  match v with
  | JObject props => props
  | JArray items => imap (fun i x => (pretty i, x)) items
  | JString s => imap (fun i c => (pretty i, JString (String c ""))) (list_ascii_of_string s)
  | _ => []
  end.

(** ** Strings *)

(** White space of [String.prototype.trim] among the code units below
    256: TAB, LF, VT, FF, CR, SP, NBSP. *)
Definition is_js_space (c : ascii) : bool :=
  let n := nat_of_ascii c in
  ((9 <=? n) && (n <=? 13)) || (n =? 32) || (n =? 160).

Fixpoint trimStart (s : string) : string :=
  match s with
  | String c rest => if is_js_space c then trimStart rest else s
  | EmptyString => EmptyString
  end.

Definition string_rev (s : string) : string :=
  string_of_list_ascii (rev (list_ascii_of_string s)).

(** [s.trim()] *)
Definition trim (s : string) : string :=
  string_rev (trimStart (string_rev (trimStart s))).

(** [s.startsWith(p)] *)
Definition startsWith (s p : string) : bool := String.prefix p s.

(** [s.includes(sub)] *)
Fixpoint includes (s sub : string) : bool :=
  if String.prefix sub s then true
  else match s with
       | String _ rest => includes rest sub
       | EmptyString => false
       end.

(** [parts.join(sep)] *)
Fixpoint join (sep : string) (parts : list string) : string :=
  match parts with
  | [] => ""
  | [p] => p
  | p :: rest => p +:+ sep +:+ join sep rest
  end.

Definition nl : string := String (ascii_of_nat 10) EmptyString.
Definition dquote : string := String (ascii_of_nat 34) EmptyString.
Definition backslash : string := String (ascii_of_nat 92) EmptyString.

(** ** [JSON.stringify] *)

Definition hex_digit (n : nat) : ascii :=
  if n <? 10 then ascii_of_nat (48 + n) else ascii_of_nat (87 + n).

(** One code unit inside a JSON string literal. *)
Definition quote_char (c : ascii) : string :=
  let n := nat_of_ascii c in
  if n =? 34 then backslash +:+ dquote
  else if n =? 92 then backslash +:+ backslash
  else if n =? 8 then backslash +:+ "b"
  else if n =? 12 then backslash +:+ "f"
  else if n =? 10 then backslash +:+ "n"
  else if n =? 13 then backslash +:+ "r"
  else if n =? 9 then backslash +:+ "t"
  else if n <? 32 then
    backslash +:+ "u00" +:+ String (hex_digit (n / 16)) (String (hex_digit (n mod 16)) "")
  else String c "".

Fixpoint quote_body (s : string) : string :=
  match s with
  | String c rest => quote_char c +:+ quote_body rest
  | EmptyString => ""
  end.

Definition quote (s : string) : string := dquote +:+ quote_body s +:+ dquote.

(** [JSON.stringify(v, null, gap)] at the indentation [indent]; [None] is
    the result [undefined].  With the empty [gap] no line breaks are
    written. *)
Fixpoint stringify_at (gap indent : string) (v : JSValue) : option string :=
  let stepback := indent in
  let indent := indent +:+ gap in
  let wrap (o c : string) (parts : list string) : string :=
    match parts with
    | [] => o +:+ c
    | _ =>
        if String.eqb gap "" then o +:+ join "," parts +:+ c
        else o +:+ nl +:+ indent +:+ join ("," +:+ nl +:+ indent) parts
               +:+ nl +:+ stepback +:+ c
    end in
  match v with
  | JUndefined => None
  | JNull => Some "null"
  | JBool true => Some "true"
  | JBool false => Some "false"
  | JNumber n => Some (pretty n)
  | JString s => Some (quote s)
  | JArray items =>
      Some (wrap "[" "]"
              (List.map (fun x => default "null" (stringify_at gap indent x)) items))
  | JObject props =>
      let member (kv : string * JSValue) : list string :=
        match stringify_at gap indent (snd kv) with
        | Some s =>
            [quote (fst kv) +:+ (if String.eqb gap "" then ":" else ": ") +:+ s]
        | None => []
        end in
      Some (wrap "{" "}" (List.flat_map member props))
  end.

(** [JSON.stringify(v)] *)
Definition JSON_stringify (v : JSValue) : option string := stringify_at "" "" v.

(** [JSON.stringify(v, null, 2)] *)
Definition JSON_stringify2 (v : JSValue) : option string := stringify_at "  " "" v.

(** ** [JSON.parse]

    The JSON grammar of ECMA-404 on the modelled value domain: a number
    literal with a fraction or an exponent, and a [\u] escape of a code
    unit above 255, denote values outside [JSValue] and are not accepted.
    [None] is the [SyntaxError] that [JSON.parse] throws. *)

Definition is_json_ws (c : ascii) : bool :=
  let n := nat_of_ascii c in
  (n =? 32) || (n =? 9) || (n =? 10) || (n =? 13).

Fixpoint skip_ws (s : string) : string :=
  match s with
  | String c rest => if is_json_ws c then skip_ws rest else s
  | EmptyString => EmptyString
  end.

Definition hex_value (c : ascii) : option nat :=
  let n := nat_of_ascii c in
  if (48 <=? n) && (n <=? 57) then Some (n - 48)
  else if (97 <=? n) && (n <=? 102) then Some (n - 87)
  else if (65 <=? n) && (n <=? 70) then Some (n - 55)
  else None.

Definition is_digit (c : ascii) : bool :=
  let n := nat_of_ascii c in (48 <=? n) && (n <=? 57).

(** The characters of a string literal after its opening quote. *)
Fixpoint parse_string_body (s : string) : option (string * string) :=
  let cons (c : ascii) (r : option (string * string)) :=
    match r with
    | Some (body, rest) => Some (String c body, rest)
    | None => None
    end in
  match s with
  | EmptyString => None
  | String c rest =>
      let n := nat_of_ascii c in
      if n =? 34 then Some ("", rest)
      else if n =? 92 then
        match rest with
        | String e rest2 =>
            let m := nat_of_ascii e in
            if (m =? 34) || (m =? 92) || (m =? 47) then cons e (parse_string_body rest2)
            else if m =? 98 then cons (ascii_of_nat 8) (parse_string_body rest2)
            else if m =? 102 then cons (ascii_of_nat 12) (parse_string_body rest2)
            else if m =? 110 then cons (ascii_of_nat 10) (parse_string_body rest2)
            else if m =? 114 then cons (ascii_of_nat 13) (parse_string_body rest2)
            else if m =? 116 then cons (ascii_of_nat 9) (parse_string_body rest2)
            else if m =? 117 then
              match rest2 with
              | String h1 (String h2 (String h3 (String h4 rest3))) =>
                  match hex_value h1, hex_value h2, hex_value h3, hex_value h4 with
                  | Some 0, Some 0, Some a, Some b =>
                      cons (ascii_of_nat (16 * a + b)) (parse_string_body rest3)
                  | _, _, _, _ => None
                  end
              | _ => None
              end
            else None
        | EmptyString => None
        end
      else if n <? 32 then None
      else cons c (parse_string_body rest)
  end.

Fixpoint parse_digits (s : string) (acc : Z) : Z * string :=
  match s with
  | String c rest =>
      if is_digit c then parse_digits rest (10 * acc + Z.of_nat (nat_of_ascii c - 48))%Z
      else (acc, s)
  | EmptyString => (acc, s)
  end.

(** A number literal; [s] starts with ['-'] or a digit. *)
Definition parse_number (s : string) : option (JSValue * string) :=
  let '(negative, s) :=
    match s with
    | String c rest => if nat_of_ascii c =? 45 then (true, rest) else (false, s)
    | EmptyString => (false, s)
    end in
  match s with
  | String c rest =>
      if is_digit c then
        let '(n, rest') :=
          if nat_of_ascii c =? 48 then (0%Z, rest) else parse_digits s 0%Z in
        let ok :=
          match rest' with
          | String d _ =>
              let m := nat_of_ascii d in
              negb (is_digit d || (m =? 46) || (m =? 101) || (m =? 69))
          | EmptyString => true
          end in
        if ok then Some (JNumber (if negative then (- n)%Z else n), rest') else None
      else None
  | EmptyString => None
  end.

Definition expect (lit : string) (v : JSValue) (s : string) : option (JSValue * string) :=
  if String.prefix lit s
  then Some (v, String.substring (String.length lit) (String.length s - String.length lit) s)
  else None.

Fixpoint parse_value (fuel : nat) (s : string) : option (JSValue * string) :=
  match fuel with
  | 0 => None
  | S fuel =>
      match skip_ws s with
      | EmptyString => None
      | String c rest as s' =>
          let n := nat_of_ascii c in
          if n =? 123 then
            match skip_ws rest with
            | String c' rest' =>
                if nat_of_ascii c' =? 125 then Some (JObject [], rest')
                else parse_members fuel (skip_ws rest) []
            | EmptyString => None
            end
          else if n =? 91 then
            match skip_ws rest with
            | String c' rest' =>
                if nat_of_ascii c' =? 93 then Some (JArray [], rest')
                else parse_elements fuel rest []
            | EmptyString => None
            end
          else if n =? 34 then
            match parse_string_body rest with
            | Some (str, rest') => Some (JString str, rest')
            | None => None
            end
          else if n =? 116 then expect "true" (JBool true) s'
          else if n =? 102 then expect "false" (JBool false) s'
          else if n =? 110 then expect "null" JNull s'
          else parse_number s'
      end
  end
(** The members of an object from a key on; [acc] holds those read. *)
with parse_members (fuel : nat) (s : string) (acc : list (string * JSValue))
  : option (JSValue * string) :=
  match fuel with
  | 0 => None
  | S fuel =>
      match s with
      | String c rest =>
          if nat_of_ascii c =? 34 then
            match parse_string_body rest with
            | Some (key, rest1) =>
                match skip_ws rest1 with
                | String c1 rest2 =>
                    if nat_of_ascii c1 =? 58 then
                      match parse_value fuel rest2 with
                      | Some (v, rest3) =>
                          let acc := assoc_set acc key v in
                          match skip_ws rest3 with
                          | String c3 rest4 =>
                              if nat_of_ascii c3 =? 44
                              then parse_members fuel (skip_ws rest4) acc
                              else if nat_of_ascii c3 =? 125
                              then Some (JObject acc, rest4)
                              else None
                          | EmptyString => None
                          end
                      | None => None
                      end
                    else None
                | EmptyString => None
                end
            | None => None
            end
          else None
      | EmptyString => None
      end
  end
(** The elements of an array from a value on; [acc] holds those read,
    last first. *)
with parse_elements (fuel : nat) (s : string) (acc : list JSValue)
  : option (JSValue * string) :=
  match fuel with
  | 0 => None
  | S fuel =>
      match parse_value fuel s with
      | Some (v, rest) =>
          match skip_ws rest with
          | String c rest' =>
              if nat_of_ascii c =? 44 then parse_elements fuel rest' (v :: acc)
              else if nat_of_ascii c =? 93 then Some (JArray (rev (v :: acc)), rest')
              else None
          | EmptyString => None
          end
      | None => None
      end
  end.

(** [JSON.parse(text)].  Every recursive call is made after at least one
    more character was read, so the length of the text bounds the depth. *)
Definition JSON_parse (text : string) : option JSValue :=
  match parse_value (S (S (String.length text))) text with
  | Some (v, rest) =>
      match skip_ws rest with
      | EmptyString => Some v
      | String _ _ => None
      end
  | None => None
  end.

(** A JSON text written with apostrophes where the text has double
    quotes. *)
Fixpoint dq (s : string) : string :=
  match s with
  | String c rest => String (if nat_of_ascii c =? 39 then ascii_of_nat 34 else c) (dq rest)
  | EmptyString => EmptyString
  end.

(** ** [UnifiedLLMClient.parseResponse] *)

Record FunctionCall := {
  fc_name : string;
  fc_arguments : JSValue;
}.

Record Reasoning := {
  summary : option (list string);
  effort : option string;
}.

Record UnifiedLLMResponse := {
  text : option string;
  functionCall : option FunctionCall;
  reasoning : option Reasoning;
}.

(** [ParsedLLMAction].  The name of a tool call read from a JSON envelope
    is whatever value its [toolName] holds, hence a [JSValue]. *)
Inductive ParsedLLMAction :=
| tool_call (name : JSValue) (args : JSValue)
| final_answer (answer : string)
| action_error (error : string).

(** The literal ['"action":"tool"'] that [includes] looks for. *)
Definition tool_envelope_marker : string :=
  dquote +:+ "action" +:+ dquote +:+ ":" +:+ dquote +:+ "tool" +:+ dquote.

Section ParseResponse.

(** The [JSON.parse] in use; [None] when it throws. *)
Variable parse : string -> option JSValue.

(** The body of the [try] block; [None] when it throws, which the
    [catch] turns into a final answer. *)
Definition parse_envelope (rawContent : string) : option ParsedLLMAction :=
  contentJson ← parse rawContent;
  action ← getProp contentJson "action";
  if strict_eq_string action "tool" then
    toolName ← getProp contentJson "toolName";
    if truthy toolName then
      toolArgs ← getProp contentJson "toolArgs";
      Some (tool_call toolName (js_or toolArgs (JObject [])))
    else Some (final_answer rawContent)
  else Some (final_answer rawContent).

Definition parseResponse (response : UnifiedLLMResponse) : ParsedLLMAction :=
  match functionCall response with
  | Some fc => tool_call (JString (fc_name fc)) (fc_arguments fc)
  | None =>
      match text response with
      | Some rawContent =>
          if String.eqb rawContent "" then action_error "No valid response from LLM"
          else if startsWith (trim rawContent) "{"
                    && includes rawContent tool_envelope_marker
          then
            match parse_envelope rawContent with
            | Some action => action
            | None => final_answer rawContent
            end
          else final_answer rawContent
      | None => action_error "No valid response from LLM"
      end
  end.

End ParseResponse.

Definition text_response (s : string) : UnifiedLLMResponse :=
  {| text := Some s; functionCall := None; reasoning := None |}.

(** ** The helper of the sanitization test scripts

    [sanitizeToolResultForText] of [test_sanitization.js]: a shallow copy
    without the [imageData] field; a value that is not an object is
    returned as it is.  [None] is the [TypeError] of the call
    [sanitized.hasOwnProperty('imageData')]. *)
Definition sanitizeToolResultForText (toolResultData : JSValue) : option JSValue :=
  if is_object toolResultData then
    let sanitized := spread toolResultData in
    hasImageData ← hasOwnProperty (JObject sanitized) "imageData";
    Some (JObject (if hasImageData : bool then assoc_delete sanitized "imageData"
                   else sanitized))
  else Some toolResultData.

(** ** Chat messages ([ChatView.ts]) *)

Inductive ModelAction := ActionTool | ActionFinal.

Record ModelChatMessage := {
  action : ModelAction;
  toolName : JSValue;
  toolArgs : JSValue;
  toolCallId : option string;
  answer : option string;
  isFinalAnswer : bool;
  m_reasoning : option (list string);
}.

Record ToolResultMessage := {
  tr_toolName : string;
  resultText : JSValue;
  isError : bool;
  tr_toolCallId : option string;
  tr_error : option JSValue;
  resultData : option JSValue;
}.

(** The three values of [entity]: [USER], [MODEL], [TOOL_RESULT]. *)
Inductive ChatMessage :=
| UserMessage (text : string)
| ModelMessage (m : ModelChatMessage)
| ToolResult (r : ToolResultMessage).

Definition nonempty (s : string) : bool := negb (String.eqb s "").

(** [names.includes(s)] *)
Definition array_includes (names : list string) (s : string) : bool :=
  existsb (String.eqb s) names.

(** [names.includes(v)] for a value [v]: only a string is found. *)
Definition array_includes_value (names : list string) (v : JSValue) : bool :=
  match v with
  | JString s => array_includes names s
  | _ => false
  end.

(** ** Numbers of the configuration

    A JavaScript number: a finite one, as the rational that it is, or
    one of [NaN], [Infinity], [-Infinity].  An iteration counter stays
    below 2^53, where counting is exact. *)
Inductive JSNumber :=
| Finite (q : Q)
| NaN
| PosInfinity
| NegInfinity.

(** The number of a natural number. *)
Definition integer (n : nat) : JSNumber := Finite (inject_Z (Z.of_nat n)).

(** [i < n] for a counter [i] *)
Definition below (i : nat) (n : JSNumber) : bool :=
  match n with
  | Finite q => negb (Qle_bool q (inject_Z (Z.of_nat i)))
  | PosInfinity => true
  | NaN | NegInfinity => false
  end.

(** The condition of [n || default]. *)
Definition number_truthy (n : JSNumber) : bool :=
  match n with
  | Finite q => negb (Qeq_bool q 0)
  | NaN => false
  | PosInfinity | NegInfinity => true
  end.

(** The number of counters [i = 0, 1, ...] with [i < n]: none for a
    number that is not positive or not a number, [None] for [Infinity]. *)
Definition iteration_bound (n : JSNumber) : option nat :=
  match n with
  | Finite q => Some (Z.to_nat (Qceiling q))
  | NaN | NegInfinity => Some 0
  | PosInfinity => None
  end.

(** ** Agent configuration ([ConfigurableAgentTool.ts]) *)

Inductive HandoffTrigger := llm_tool_call | max_iterations.

Record HandoffConfig := {
  targetAgentName : string;
  trigger : option HandoffTrigger;
  includeToolResults : option (list string);
}.

Inductive AgentRunTerminationReason :=
| reason_final_answer | reason_max_iterations | reason_error | reason_handed_off.

Record ConfigurableAgentResult := {
  success : bool;
  output : option string;
  error : option string;
  intermediateSteps : option (list ChatMessage);
  terminationReason : option AgentRunTerminationReason;
}.

(** [(output | error, intermediateSteps, reason) => result] *)
Definition ResultHook : Type :=
  string -> list ChatMessage -> AgentRunTerminationReason -> ConfigurableAgentResult.

Inductive ModelNameOption :=
| ModelNameFunction (f : unit -> string)
| ModelNameString (s : string).

(** The fields of an agent's [config] that the runner reads.  A result
    hook of the configuration takes the configuration as its fourth
    argument; the field holds the hook applied to its own
    configuration. *)
Record AgentToolConfig := {
  cfg_systemPrompt : string;
  cfg_modelName : option ModelNameOption;
  cfg_tools : list string;
  cfg_maxIterations : option JSNumber;
  cfg_temperature : option Q;
  handoffs : option (list HandoffConfig);
  includeIntermediateStepsOnReturn : option bool;
  cfg_createSuccessResult : option ResultHook;
  cfg_createErrorResult : option ResultHook;
}.

(** The messages that [executeHandoff] hands to the target agent
    (the [filter] callback and the branch around it). *)
Definition keepForHandoff (allowed : list string) (message : ChatMessage) : bool :=
  match message with
  | UserMessage _ => true
  | ModelMessage modelMsg =>
      match action modelMsg with
      | ActionFinal => true
      | ActionTool =>
          if truthy (toolName modelMsg)
          then array_includes_value allowed (toolName modelMsg)
          else false
      end
  | ToolResult toolResult =>
      negb (isError toolResult) && nonempty (tr_toolName toolResult)
        && array_includes allowed (tr_toolName toolResult)
  end.

Definition handoffMessages (handoffConfig : HandoffConfig)
    (currentMessages : list ChatMessage) : list ChatMessage :=
  match includeToolResults handoffConfig with
  | Some ((_ :: _) as allowed) => List.filter (keepForHandoff allowed) currentMessages
  | _ => currentMessages
  end.

(** ** Values thrown, requests to the model *)

(** A thrown value, as the [catch] handlers read it.  [null] and
    [undefined] have no properties.  Of any other value, an object or a
    primitive, the handlers read the [message] property (empty when
    absent or falsy) and the [String(...)] form.  A value of which one
    of these readings itself throws (an object without prototype, an
    object with a throwing getter) is left out. *)
Inductive Thrown :=
| thrown_null
| thrown_undefined
| thrown_value (message as_string : string).

(** [String(error)] *)
Definition as_string (e : Thrown) : string :=
  match e with
  | thrown_null => "null"
  | thrown_undefined => "undefined"
  | thrown_value _ as_string => as_string
  end.

(** [error.message || String(error)]; [None] is the [TypeError] of
    reading [message] of [null] or [undefined]. *)
Definition thrown_text (e : Thrown) : option string :=
  match e with
  | thrown_null | thrown_undefined => None
  | thrown_value message as_string =>
      Some (if nonempty message then message else as_string)
  end.

(** [new Error(msg)] *)
Definition new_Error (msg : string) : Thrown :=
  thrown_value msg (if nonempty msg then "Error: " +:+ msg else "Error").

(** The [TypeError]s that the runner provokes by itself: reading
    [message] of a thrown [null] or [undefined], and calling
    [hasOwnProperty] on an object whose own property of that name is not
    a function. *)
Inductive Fault :=
| reading_message (e : Thrown)
| hasOwnProperty_not_a_function (v : JSValue).

Inductive Completion (A : Type) :=
| Normal (a : A)
| Throw (e : Thrown).
Arguments Normal {A} a.
Arguments Throw {A} e.

(** [String(v)], the conversion of a template literal. *)
Fixpoint js_String (v : JSValue) : string :=
  match v with
  | JUndefined => "undefined"
  | JNull => "null"
  | JBool true => "true"
  | JBool false => "false"
  | JNumber n => pretty n
  | JString s => s
  | JArray items =>
      join "," (List.map (fun x => match x with
                                   | JUndefined | JNull => ""
                                   | _ => js_String x
                                   end) items)
  | JObject _ => "[object Object]"
  end.

Record ToolSchema := {
  fn_name : string;
  fn_description : string;
  parameters : JSValue;
}.

Inductive Role := role_user | role_assistant | role_tool.

Record ToolCallEntry := {
  call_id : string;
  call_name : JSValue;
  arguments : option string;
}.

Record LLMMessage := {
  role : Role;
  content : JSValue;
  tool_calls : list ToolCallEntry;
  tool_call_id : option string;
}.

Record LLMCallRequest := {
  provider : string;
  model : string;
  messages : list LLMMessage;
  req_systemPrompt : string;
  req_tools : list ToolSchema;
  req_temperature : Q;
}.

(** [AgentRunner.convertToLLMMessages] *)
Definition convertToLLMMessages (messages : list ChatMessage) : list LLMMessage :=
  List.flat_map
    (fun msg =>
       match msg with
       | UserMessage text =>
           [{| role := role_user; content := JString text;
               tool_calls := []; tool_call_id := None |}]
       | ModelMessage modelMsg =>
           match action modelMsg, answer modelMsg, toolCallId modelMsg with
           | ActionFinal, Some a, _ =>
               if nonempty a
               then [{| role := role_assistant; content := JString a;
                        tool_calls := []; tool_call_id := None |}]
               else []
           | ActionTool, _, Some callId =>
               if nonempty callId
               then [{| role := role_assistant; content := JUndefined;
                        tool_calls :=
                          [{| call_id := callId;
                              call_name := js_or (toolName modelMsg) (JString "");
                              arguments :=
                                JSON_stringify (js_or (toolArgs modelMsg) (JObject [])) |}];
                        tool_call_id := None |}]
               else []
           | _, _, _ => []
           end
       | ToolResult toolResult =>
           match tr_toolCallId toolResult with
           | Some callId =>
               if nonempty callId && truthy (resultText toolResult)
               then [{| role := role_tool; content := resultText toolResult;
                        tool_calls := []; tool_call_id := Some callId |}]
               else []
           | None => []
           end
       end)
    messages.

(** ** Tools and the world around a run *)

Section Tools.

Variable W : Type.

(** The members of the interface [Tool]. *)
Record Tool := {
  name : string;
  description : string;
  schema : JSValue;
  execute : JSValue -> W -> Completion JSValue * W;
}.

Record ConfigurableAgentTool := {
  agent_tool : Tool;
  config : AgentToolConfig;
}.

(** A value of type [Tool]: an instance of [ConfigurableAgentTool] or
    of another class. *)
Inductive RegisteredTool :=
| PlainTool (t : Tool)
| AgentTool (a : ConfigurableAgentTool).

Definition tool_of (t : RegisteredTool) : Tool :=
  match t with
  | PlainTool t => t
  | AgentTool a => agent_tool a
  end.

Record AgentRunnerConfig := {
  apiKey : string;
  modelName : string;
  systemPrompt : string;
  tools : list RegisteredTool;
  maxIterations : JSNumber;
  temperature : option Q;
}.

Record AgentRunnerHooks := {
  prepareInitialMessages : option (list ChatMessage -> list ChatMessage);
  createSuccessResult : ResultHook;
  createErrorResult : ResultHook;
}.

End Tools.

Arguments name {W} _.
Arguments description {W} _.
Arguments schema {W} _.
Arguments execute {W} _ _ _.
Arguments agent_tool {W} _.
Arguments config {W} _.
Arguments PlainTool {W} t.
Arguments AgentTool {W} a.
Arguments tool_of {W} t.
Arguments apiKey {W} _.
Arguments modelName {W} _.
Arguments systemPrompt {W} _.
Arguments tools {W} _.
Arguments maxIterations {W} _.
Arguments temperature {W} _.
Arguments Build_AgentRunnerConfig {W}.
Arguments Build_Tool {W}.
Arguments Build_ConfigurableAgentTool {W}.

(** The collaborators of a run.  [llm_call] stands for the first [try]
    block of an iteration, the call of the model with its bookkeeping:
    it yields the response or throws.  [llm_parseResponse] is the
    [parseResponse] of the client in use, of which
    [UnifiedLLMClient.parseResponse] is one.  The page context and
    [randomUUID] always return.  The engine gives the message of a
    [TypeError] that the runner provokes, and the text [String(q)] of a
    number [q] that is not an integer below 10^21 in absolute value. *)
Class World := {
  W : Type;
  llm_call : LLMCallRequest -> W -> Completion UnifiedLLMResponse * W;
  llm_parseResponse : UnifiedLLMResponse -> ParsedLLMAction;
  enhancePromptWithPageContext : string -> W -> string * W;
  randomUUID : W -> string * W;
  getProviderForModel : string -> string;
  getRegisteredTool : string -> option (RegisteredTool W);
  fault_message : Fault -> string;
  number_text : Q -> string;
}.

(** The [TypeError] of a fault, as a thrown value. *)
Definition type_error `{World} (f : Fault) : Thrown :=
  thrown_value (fault_message f)
    (if nonempty (fault_message f) then "TypeError: " +:+ fault_message f
     else "TypeError").

(** [String(n)], the conversion of a template literal. *)
Definition number_String `{World} (n : JSNumber) : string :=
  match n with
  | Finite q =>
      let r := Qred q in
      if (Z.pos (Qden r) =? 1)%Z && (Z.abs (Qnum r) <? 10 ^ 21)%Z
      then pretty (Qnum r)
      else number_text q
  | NaN => "NaN"
  | PosInfinity => "Infinity"
  | NegInfinity => "-Infinity"
  end.

(** ** The run: state passing over the world

    A computation reads and changes the world, and returns or throws;
    [None] means that the bound on the depth of handoffs (and, for the
    budget [Infinity], on the number of iterations) was reached before
    the computation ended. *)

Definition M `{World} (A : Type) : Type := W -> option (Completion A * W).

Definition ret `{World} {A : Type} (a : A) : M A := fun w => Some (Normal a, w).

(** [throw e], and the rejection of the promise of an [async] function. *)
Definition reject `{World} {A : Type} (e : Thrown) : M A := fun w => Some (Throw e, w).

Definition bind `{World} {A B : Type} (m : M A) (k : A -> M B) : M B :=
  fun w => match m w with
           | Some (Normal a, w') => k a w'
           | Some (Throw e, w') => Some (Throw e, w')
           | None => None
           end.

(** An operation of the world, which always returns. *)
Definition call `{World} {A : Type} (f : W -> A * W) : M A :=
  fun w => let '(a, w') := f w in Some (Normal a, w').

(** [m] inside a [try] block: what it throws is handed to the handler. *)
Definition attempt `{World} {A : Type} (m : M A) : M (Completion A) :=
  fun w => match m w with
           | Some (outcome, w') => Some (Normal outcome, w')
           | None => None
           end.

Definition out_of_depth `{World} {A : Type} : M A := fun _ => None.

Notation "'let*' x ':=' m 'in' k" := (bind m (fun x => k))
  (at level 10, x pattern, m at level 100, k at level 200).

(** How a run ended (a ghost value; the code has no such field). *)
Inductive Ending :=
| EndFinalAnswer
| EndGatewayError
| EndLoopError
| EndToolHandoff
| EndMaxIterationsHandoff
| EndMaxIterations.

(** The result of a run, with what the loop did: the number of
    iterations entered and the [messages] array at the [return]. *)
Record RunTrace := {
  result : ConfigurableAgentResult;
  iterations : nat;
  messageLog : list ChatMessage;
  ending : Ending;
}.

(** What the second [try] block of an iteration does. *)
Inductive ActionOutcome :=
| Thrown_in_action (e : Thrown) (messages : list ChatMessage)
| Returned (r : ConfigurableAgentResult) (messages : list ChatMessage) (e : Ending)
| Completed (messages : list ChatMessage).

Inductive IterationOutcome :=
| Return (r : ConfigurableAgentResult) (messages : list ChatMessage) (e : Ending)
| Continue (messages : list ChatMessage).

Definition systemErrorMessage (errorMsg : string) : ChatMessage :=
  ToolResult {| tr_toolName := "system_error";
                resultText := JString errorMsg;
                isError := true;
                tr_toolCallId := None;
                tr_error := Some (JString errorMsg);
                resultData := None |}.

(** [typeof toolResultData === 'string' ? toolResultData :
    JSON.stringify(toolResultData, null, 2)] *)
Definition stringifiedResult (toolResultData : JSValue) : JSValue :=
  match toolResultData with
  | JString s => JString s
  | _ => match JSON_stringify2 toolResultData with
         | Some s => JString s
         | None => JUndefined
         end
  end.

(** [toolResultText] and [toolIsError] of a value that the tool
    returned; [None] is the [TypeError] of a call of
    [toolResultData.hasOwnProperty]. *)
Definition readToolResult (toolResultData : JSValue) : option (JSValue * bool) :=
  let toolResultText := stringifiedResult toolResultData in
  if is_object toolResultData then
    hasError ← hasOwnProperty toolResultData "error";
    if hasError && truthy (member toolResultData "error")
    then Some (js_or (member toolResultData "error") toolResultText, true)
    else
      hasSuccess ← hasOwnProperty toolResultData "success";
      if hasSuccess && match member toolResultData "success" with
                       | JBool false => true
                       | _ => false
                       end
      then Some (js_or (member toolResultData "error")
                   (js_or (member toolResultData "message") toolResultText), true)
      else Some (toolResultText, false)
  else Some (toolResultText, false).

(** The [catch] around [toolToExecute.execute] and the reading of its
    result: [(toolResultText, toolIsError, toolResultData)] of the value
    caught, or the [TypeError] that the handler throws. *)
Definition toolExecutionFailure `{World} (err : Thrown)
  : Completion (JSValue * bool * JSValue) :=
  match thrown_text err with
  | Some text =>
      let toolResultText := "Error during tool execution: " +:+ text in
      Normal (JString toolResultText, true, JObject [("error", JString toolResultText)])
  | None => Throw (type_error (reading_message err))
  end.

(** The [try]/[catch] around [toolToExecute.execute], from the outcome of
    the call on: [(toolResultText, toolIsError, toolResultData)], or what
    the [catch] throws. *)
Definition toolExecutionResult `{World} (outcome : Completion JSValue)
  : Completion (JSValue * bool * JSValue) :=
  match outcome with
  | Normal toolResultData =>
      match readToolResult toolResultData with
      | Some (toolResultText, toolIsError) =>
          Normal (toolResultText, toolIsError, toolResultData)
      | None =>
          toolExecutionFailure
            (type_error (hasOwnProperty_not_a_function toolResultData))
      end
  | Throw err => toolExecutionFailure err
  end.

Definition toolResultMessage (toolName : string) (toolCallId : string)
    (toolResultText : JSValue) (toolIsError : bool) (toolResultData : JSValue)
  : ChatMessage :=
  ToolResult {| tr_toolName := toolName;
                resultText := toolResultText;
                isError := toolIsError;
                tr_toolCallId := Some toolCallId;
                tr_error := if toolIsError then Some toolResultText else None;
                resultData := if truthy toolResultData then Some toolResultData else None |}.

(** The tool result message of an executed tool, or what the [catch]
    around the execution throws. *)
Definition executedToolMessage `{World} (toolName toolCallId : string)
    (outcome : Completion JSValue) : Completion ChatMessage :=
  match toolExecutionResult outcome with
  | Normal (toolResultText, toolIsError, toolResultData) =>
      Normal (toolResultMessage toolName toolCallId toolResultText toolIsError
                toolResultData)
  | Throw e => Throw e
  end.

(** [newModelMessage] of a tool call and of a final answer. *)
Definition newToolMessage (llmResponse : UnifiedLLMResponse)
    (toolName toolArgs : JSValue) (toolCallId : string) : ChatMessage :=
  ModelMessage {| action := ActionTool;
                  toolName := toolName;
                  toolArgs := toolArgs;
                  toolCallId := Some toolCallId;
                  answer := None;
                  isFinalAnswer := false;
                  m_reasoning := r ← reasoning llmResponse; summary r |}.

Definition newFinalMessage (llmResponse : UnifiedLLMResponse) (answer : string)
  : ChatMessage :=
  ModelMessage {| action := ActionFinal;
                  toolName := JUndefined;
                  toolArgs := JUndefined;
                  toolCallId := None;
                  answer := Some answer;
                  isFinalAnswer := true;
                  m_reasoning := r ← reasoning llmResponse; summary r |}.

Definition is_llm_trigger (h : HandoffConfig) : bool :=
  match trigger h with
  | None | Some llm_tool_call => true
  | Some max_iterations => false
  end.

Definition is_max_iterations_trigger (h : HandoffConfig) : bool :=
  match trigger h with
  | Some max_iterations => true
  | _ => false
  end.

Definition handoffToolName (targetAgentName : string) : string :=
  "handoff_to_" +:+ targetAgentName.

Definition toolSchemaOf `{World} (tool : RegisteredTool W) : ToolSchema :=
  {| fn_name := name (tool_of tool);
     fn_description := description (tool_of tool);
     parameters := schema (tool_of tool) |}.

(** [new Map(tools.map(tool => [tool.name, tool]))]: of two tools of one
    name the later one stays. *)
Definition initialToolMap `{World} (tools : list (RegisteredTool W))
  : gmap string (RegisteredTool W) :=
  fold_left (fun toolMap tool => <[name (tool_of tool) := tool]> toolMap) tools ∅.

(** The handoff tools of the executing agent's configuration, added to
    the schemas and to the tool map. *)
Definition addHandoffTools `{World} (handoffs : list HandoffConfig)
    (acc : list ToolSchema * gmap string (RegisteredTool W))
  : list ToolSchema * gmap string (RegisteredTool W) :=
  fold_left
    (fun '((toolSchemas, toolMap) : list ToolSchema * gmap string (RegisteredTool W))
         handoffConfig =>
       if is_llm_trigger handoffConfig then
         match getRegisteredTool (targetAgentName handoffConfig) with
         | Some (AgentTool targetTool) =>
             (toolSchemas ++
                [{| fn_name := handoffToolName (targetAgentName handoffConfig);
                    fn_description :=
                      "Handoff the current task to the specialized agent: "
                        +:+ targetAgentName handoffConfig
                        +:+ ". Use this agent when the task requires "
                        +:+ targetAgentName handoffConfig
                        +:+ "'s capabilities. Agent Description: "
                        +:+ description (agent_tool targetTool);
                    parameters := schema (agent_tool targetTool) |}],
              <[handoffToolName (targetAgentName handoffConfig) := AgentTool targetTool]>
                toolMap)
         | _ => (toolSchemas, toolMap)
         end
       else (toolSchemas, toolMap))
    handoffs acc.

(** [executingAgent?.config.handoffs], empty when there is none. *)
Definition agentHandoffs `{World} (executingAgent : option (ConfigurableAgentTool W))
  : list HandoffConfig :=
  match executingAgent with
  | Some agent => default [] (handoffs (config agent))
  | None => []
  end.

(** [tool instanceof ConfigurableAgentTool] *)
Definition asConfigurableAgentTool `{World} (tool : RegisteredTool W)
  : option (ConfigurableAgentTool W) :=
  match tool with
  | AgentTool a => Some a
  | PlainTool _ => None
  end.

(** [toolName.startsWith('handoff_to_') && toolToExecute instanceof
    ConfigurableAgentTool]: the target agent of a handoff tool call. *)
Definition handoffTarget `{World} (toolName : string) (toolToExecute : RegisteredTool W)
  : option (ConfigurableAgentTool W) :=
  if startsWith toolName "handoff_to_" then asConfigurableAgentTool toolToExecute
  else None.

(** The argument of [llm.call]. *)
Definition llmRequest `{World} (config : AgentRunnerConfig W)
    (toolSchemas : list ToolSchema) (currentSystemPrompt : string)
    (messages : list ChatMessage) : LLMCallRequest :=
  {| provider := getProviderForModel (modelName config);
     model := modelName config;
     messages := convertToLLMMessages messages;
     req_systemPrompt := currentSystemPrompt;
     req_tools := toolSchemas;
     req_temperature := default 0%Q (temperature config) |}.

Definition iterationInfo `{World} (iteration : nat) (maxIterations : JSNumber)
  : string :=
  nl +:+ "## Current Progress" +:+ nl
     +:+ "- You are currently on step " +:+ pretty (iteration + 1)
     +:+ " of " +:+ number_String maxIterations +:+ " maximum steps." +:+ nl
     +:+ "- Focus on making meaningful progress with each step.".

(** The type of [AgentRunner.run]. *)
Definition RunFn `{World} : Type :=
  list ChatMessage -> JSValue -> AgentRunnerConfig W -> AgentRunnerHooks ->
  option (ConfigurableAgentTool W) -> M ConfigurableAgentResult.

(** ** [AgentRunner.executeHandoff]

    [run_rec] is [AgentRunner.run], called for the target agent.
    [llmToolArgs] is [JUndefined] when the argument is not passed. *)
Definition executeHandoff `{World} (run_rec : RunFn)
    (currentMessages : list ChatMessage)
    (originalArgs : JSValue)
    (handoffConfig : HandoffConfig)
    (executingAgent : ConfigurableAgentTool W)
    (apiKey defaultModelName : string)
    (defaultMaxIterations : JSNumber)
    (defaultTemperature : Q)
    (defaultCreateSuccessResult defaultCreateErrorResult : ResultHook)
    (llmToolArgs : JSValue)
  : M ConfigurableAgentResult :=
  let targetAgentName := targetAgentName handoffConfig in
  match getRegisteredTool targetAgentName with
  | Some (AgentTool targetAgentTool) =>
      let targetConfig := config targetAgentTool in
      let handoffMessages := handoffMessages handoffConfig currentMessages in
      let* enhancedSystemPrompt :=
        call (enhancePromptWithPageContext (cfg_systemPrompt targetConfig)) in
      let targetRunnerConfig :=
        {| apiKey := apiKey;
           modelName :=
             match cfg_modelName targetConfig with
             | Some (ModelNameFunction f) => f tt
             | Some (ModelNameString s) => if nonempty s then s else defaultModelName
             | None => defaultModelName
             end;
           systemPrompt := enhancedSystemPrompt;
           tools := omap getRegisteredTool (cfg_tools targetConfig);
           maxIterations :=
             match cfg_maxIterations targetConfig with
             | Some n => if number_truthy n then n else defaultMaxIterations
             | None => defaultMaxIterations
             end;
           temperature := Some (default defaultTemperature (cfg_temperature targetConfig)) |} in
      let targetRunnerHooks :=
        {| prepareInitialMessages := None;
           createSuccessResult :=
             default defaultCreateSuccessResult (cfg_createSuccessResult targetConfig);
           createErrorResult :=
             default defaultCreateErrorResult (cfg_createErrorResult targetConfig) |} in
      let targetAgentArgs :=
        match llmToolArgs with
        | JUndefined | JNull => originalArgs
        | _ => llmToolArgs
        end in
      let* handoffResult :=
        run_rec handoffMessages targetAgentArgs targetRunnerConfig targetRunnerHooks
          (Some targetAgentTool) in
      match includeIntermediateStepsOnReturn (config targetAgentTool) with
      | Some true =>
          let combinedIntermediateSteps :=
            currentMessages ++ default [] (intermediateSteps handoffResult) in
          ret {| success := success handoffResult;
                 output := output handoffResult;
                 error := error handoffResult;
                 intermediateSteps := Some combinedIntermediateSteps;
                 terminationReason :=
                   Some (default reason_handed_off (terminationReason handoffResult)) |}
      | _ =>
          ret {| success := success handoffResult;
                 output := output handoffResult;
                 error := error handoffResult;
                 intermediateSteps := None;
                 terminationReason :=
                   Some (default reason_handed_off (terminationReason handoffResult)) |}
      end
  | _ =>
      let errorMsg :=
        "Handoff target '" +:+ targetAgentName
          +:+ "' not found or is not a ConfigurableAgentTool." in
      ret (defaultCreateErrorResult errorMsg currentMessages reason_error)
  end.

(** ** [AgentRunner.run] *)

Section Run.

Context `{World}.

Variable run_rec : RunFn.
Variable args : JSValue.
Variable config : AgentRunnerConfig W.
Variable hooks : AgentRunnerHooks.
Variable executingAgent : option (ConfigurableAgentTool W).
Variable toolSchemas : list ToolSchema.
Variable toolMap : gmap string (RegisteredTool W).

(** Regular tool execution, and the tool result message added. *)
Definition regularTool (toolToExecute : Tool W) (toolName : string)
    (toolArgs : JSValue) (toolCallId : string) (messages : list ChatMessage)
  : M ActionOutcome :=
  let* outcome := call (execute toolToExecute toolArgs) in
  match executedToolMessage toolName toolCallId outcome with
  | Normal toolResult => ret (Completed (messages ++ [toolResult]))
  | Throw error => ret (Thrown_in_action error messages)
  end.

(** The handoff that the model asked for by calling the tool
    [handoff_to_...] of the agent [targetAgentTool]. *)
Definition toolCallHandoff (targetAgentTool : ConfigurableAgentTool W)
    (toolName : string) (toolArgs : JSValue) (messages : list ChatMessage)
  : M ActionOutcome :=
  match
    List.find
      (fun h => String.eqb (targetAgentName h) (name (agent_tool targetAgentTool))
                && is_llm_trigger h)
      (agentHandoffs executingAgent), executingAgent
  with
  | Some handoffConfig, Some agent =>
      let* handoff :=
        attempt
          (executeHandoff run_rec messages toolArgs handoffConfig agent
             (apiKey config) (modelName config) (maxIterations config)
             (default 0%Q (temperature config))
             (createSuccessResult hooks) (createErrorResult hooks)
             toolArgs) in
      match handoff with
      | Normal handoffResult => ret (Returned handoffResult messages EndToolHandoff)
      | Throw error => ret (Thrown_in_action error messages)
      end
  | _, _ =>
      ret (Thrown_in_action
             (new_Error
                ("Internal error: No matching 'llm_tool_call' handoff config found for "
                   +:+ toolName))
             messages)
  end.

(** The second [try] block for a parsed tool call. *)
Definition processToolCall (llmResponse : UnifiedLLMResponse)
    (toolName toolArgs : JSValue) (messages : list ChatMessage) : M ActionOutcome :=
  let* toolCallId := call randomUUID in
  let messages := messages ++ [newToolMessage llmResponse toolName toolArgs toolCallId] in
  match toolName with
  | JString name =>
      match toolMap !! name with
      | None =>
          ret (Thrown_in_action
                 (new_Error ("Agent requested unknown tool: " +:+ name)) messages)
      | Some toolToExecute =>
          match handoffTarget name toolToExecute with
          | Some targetAgentTool => toolCallHandoff targetAgentTool name toolArgs messages
          | None => regularTool (tool_of toolToExecute) name toolArgs toolCallId messages
          end
      end
  | _ =>
      ret (Thrown_in_action
             (new_Error ("Agent requested unknown tool: " +:+ js_String toolName))
             messages)
  end.

(** The second [try] block. *)
Definition processAction (llmResponse : UnifiedLLMResponse)
    (parsedAction : ParsedLLMAction) (messages : list ChatMessage) : M ActionOutcome :=
  match parsedAction with
  | tool_call toolName toolArgs => processToolCall llmResponse toolName toolArgs messages
  | final_answer answer =>
      let messages := messages ++ [newFinalMessage llmResponse answer] in
      ret (Returned (createSuccessResult hooks answer messages reason_final_answer)
             messages EndFinalAnswer)
  | action_error error => ret (Thrown_in_action (new_Error error) messages)
  end.

(** The body of the [for] loop. *)
Definition iterationBody (iteration : nat) (messages : list ChatMessage)
  : M IterationOutcome :=
  let* currentSystemPrompt :=
    call (enhancePromptWithPageContext
            (systemPrompt config +:+ iterationInfo iteration (maxIterations config))) in
  let* llmResponse :=
    call (llm_call (llmRequest config toolSchemas currentSystemPrompt messages)) in
  match llmResponse with
  | Throw error =>
      match thrown_text error with
      | Some text =>
          let errorMsg := "LLM call failed: " +:+ text in
          let messages := messages ++ [systemErrorMessage errorMsg] in
          ret (Return (createErrorResult hooks errorMsg messages reason_error)
                 messages EndGatewayError)
      | None => reject (type_error (reading_message error))
      end
  | Normal llmResponse =>
      let parsedAction := llm_parseResponse llmResponse in
      let* outcome := processAction llmResponse parsedAction messages in
      match outcome with
      | Completed messages => ret (Continue messages)
      | Returned r messages e => ret (Return r messages e)
      | Thrown_in_action error messages =>
          match thrown_text error with
          | Some text =>
              let errorMsg := "Agent loop error: " +:+ text in
              let messages := messages ++ [systemErrorMessage errorMsg] in
              ret (Return (createErrorResult hooks errorMsg messages reason_error)
                     messages EndLoopError)
          | None => reject (type_error (reading_message error))
          end
      end
  end.

(** After the loop, which [iteration] left: the [max_iterations]
    handoff, or the error result. *)
Definition afterLoop (iteration : nat) (messages : list ChatMessage) : M RunTrace :=
  match List.find is_max_iterations_trigger (agentHandoffs executingAgent),
        executingAgent with
  | Some maxIterHandoffConfig, Some agent =>
      let* handoffResult :=
        executeHandoff run_rec messages args maxIterHandoffConfig agent
          (apiKey config) (modelName config) (maxIterations config)
          (default 0%Q (temperature config))
          (createSuccessResult hooks) (createErrorResult hooks)
          JUndefined in
      ret {| result := handoffResult;
             iterations := iteration;
             messageLog := messages;
             ending := EndMaxIterationsHandoff |}
  | _, _ =>
      ret {| result :=
               createErrorResult hooks
                 ("Agent reached maximum iterations ("
                    +:+ number_String (maxIterations config) +:+ ")")
                 messages reason_max_iterations;
             iterations := iteration;
             messageLog := messages;
             ending := EndMaxIterations |}
  end.

(** [for (iteration = 0; iteration < maxIterations; iteration++)], from
    [iteration] on.  [fuel] bounds the iterations still to enter: when
    the test holds and no fuel is left, the loop has not ended within
    the bound. *)
Fixpoint loop (fuel iteration : nat) (messages : list ChatMessage) : M RunTrace :=
  if below iteration (maxIterations config) then
    match fuel with
    | 0 => out_of_depth
    | S fuel =>
        let* outcome := iterationBody iteration messages in
        match outcome with
        | Continue messages => loop fuel (S iteration) messages
        | Return r messages e =>
            ret {| result := r;
                   iterations := S iteration;
                   messageLog := messages;
                   ending := e |}
        end
    end
  else afterLoop iteration messages.

(** [rounds n iteration messages w messages' w']: from [iteration] on,
    in the world [w], each of [n] iterations has the model call a
    registered tool that is not a handoff tool, and the tool returns or
    throws what the [catch] around it records; they leave the log
    [messages'] and the world [w']. *)
Inductive rounds : nat -> nat -> list ChatMessage -> W -> list ChatMessage -> W -> Prop :=
| rounds_done iteration messages w : rounds 0 iteration messages w messages w
| rounds_step n iteration messages w currentSystemPrompt w1 llmResponse w2
    toolName toolArgs toolCallId w3 toolToExecute outcome w4 toolResult messages' w' :
    enhancePromptWithPageContext
      (systemPrompt config +:+ iterationInfo iteration (maxIterations config)) w
    = (currentSystemPrompt, w1) ->
    llm_call (llmRequest config toolSchemas currentSystemPrompt messages) w1
    = (Normal llmResponse, w2) ->
    llm_parseResponse llmResponse = tool_call (JString toolName) toolArgs ->
    randomUUID w2 = (toolCallId, w3) ->
    toolMap !! toolName = Some toolToExecute ->
    handoffTarget toolName toolToExecute = None ->
    execute (tool_of toolToExecute) toolArgs w3 = (outcome, w4) ->
    executedToolMessage toolName toolCallId outcome = Normal toolResult ->
    rounds n (S iteration)
      (messages ++ [newToolMessage llmResponse (JString toolName) toolArgs toolCallId;
                    toolResult])
      w4 messages' w' ->
    rounds (S n) iteration messages w messages' w'.

End Run.

(** [messages] before the loop. *)
Definition preparedMessages (hooks : AgentRunnerHooks)
    (initialMessages : list ChatMessage) : list ChatMessage :=
  match prepareInitialMessages hooks with
  | Some prepare => prepare initialMessages
  | None => initialMessages
  end.

(** [toolSchemas] and [toolMap] before the loop. *)
Definition runSetup `{World} (config : AgentRunnerConfig W)
    (executingAgent : option (ConfigurableAgentTool W))
  : list ToolSchema * gmap string (RegisteredTool W) :=
  addHandoffTools (agentHandoffs executingAgent)
    (List.map toolSchemaOf (tools config), initialToolMap (tools config)).

(** [AgentRunner.run] with the ghost values of its loop.  The loop is
    entered at most [iteration_bound maxIterations] times; when
    [maxIterations] is [Infinity], it is followed for [depth]
    iterations. *)
Definition run_trace `{World} (run_rec : RunFn) (depth : nat)
    (initialMessages : list ChatMessage) (args : JSValue)
    (config : AgentRunnerConfig W) (hooks : AgentRunnerHooks)
    (executingAgent : option (ConfigurableAgentTool W)) : M RunTrace :=
  loop run_rec args config hooks executingAgent
    (fst (runSetup config executingAgent)) (snd (runSetup config executingAgent))
    (default depth (iteration_bound (maxIterations config)))
    0 (preparedMessages hooks initialMessages).

(** [AgentRunner.run], for chains of at most [depth] handoffs. *)
Fixpoint run `{World} (depth : nat) : RunFn :=
  fun initialMessages args config hooks executingAgent =>
    let* trace :=
      run_trace (match depth with
                 | 0 => fun _ _ _ _ _ => out_of_depth
                 | S depth => run depth
                 end)
        depth initialMessages args config hooks executingAgent in
    ret (result trace).

(** The run that a handoff at [depth] calls. *)
Definition run_below `{World} (depth : nat) : RunFn :=
  match depth with
  | 0 => fun _ _ _ _ _ => out_of_depth
  | S depth => run depth
  end.

(** The run with its ghost values. *)
Definition run_traced `{World} (depth : nat) : list ChatMessage -> JSValue ->
    AgentRunnerConfig W -> AgentRunnerHooks -> option (ConfigurableAgentTool W) ->
    M RunTrace :=
  run_trace (run_below depth) depth.

(** A tool outcome that is a failure: a throw, or "an object with a
    truthy [error] field, or an explicit [success:false]". *)
Definition failure_value (v : JSValue) : bool :=
  is_object v
  && (truthy (member v "error")
      || match member v "success" with
         | JBool false => true
         | _ => false
         end).

Definition is_failure (outcome : Completion JSValue) : bool :=
  match outcome with
  | Throw _ => true
  | Normal v => failure_value v
  end.
(** ** A scripted world, for concrete runs

    The model answers with the responses of a script, one for each call
    (and fails when the script is used up); [randomUUID] numbers the
    calls; the page context adds nothing to a prompt. *)

Record Script := {
  responses : list (Completion UnifiedLLMResponse);
  uuids : nat;
}.

Definition script_llm_call (_ : LLMCallRequest) (w : Script)
  : Completion UnifiedLLMResponse * Script :=
  match responses w with
  | r :: rest => (r, {| responses := rest; uuids := uuids w |})
  | [] => (Throw (new_Error "script exhausted"), w)
  end.

Definition script_randomUUID (w : Script) : string * Script :=
  ("call-" +:+ pretty (uuids w), {| responses := responses w; uuids := S (uuids w) |}).

(** The messages of the [TypeError]s in V8, the engine of the panel. *)
Definition v8_fault_message (f : Fault) : string :=
  match f with
  | reading_message e =>
      "Cannot read properties of " +:+ as_string e +:+ " (reading 'message')"
  | hasOwnProperty_not_a_function _ => "toolResultData.hasOwnProperty is not a function"
  end.

(** The decimal expansion of a rational, cut after 20 places: the text
    of a number with a short expansion, such as [2.5]. *)
Fixpoint fraction_digits (places : nat) (r d : Z) : string :=
  match places with
  | 0 => ""
  | S places =>
      if (r =? 0)%Z then ""
      else pretty ((10 * r) / d)%Z +:+ fraction_digits places ((10 * r) mod d)%Z d
  end.

Definition decimal_text (q : Q) : string :=
  let n := Z.abs (Qnum (Qred q)) in
  let d := Z.pos (Qden (Qred q)) in
  (if (Qnum (Qred q) <? 0)%Z then "-" else "")
    +:+ pretty (n / d)%Z
    +:+ (if (n mod d =? 0)%Z then "" else "." +:+ fraction_digits 20 (n mod d)%Z d).

Definition scripted (registry : string -> option (RegisteredTool Script)) : World :=
  {| W := Script;
     llm_call := script_llm_call;
     llm_parseResponse := parseResponse JSON_parse;
     enhancePromptWithPageContext := fun prompt w => (prompt, w);
     randomUUID := script_randomUUID;
     getProviderForModel := fun _ => "openai";
     getRegisteredTool := registry;
     fault_message := v8_fault_message;
     number_text := decimal_text |}.

Definition call_response (toolName : string) (toolArgs : JSValue) : UnifiedLLMResponse :=
  {| text := None;
     functionCall := Some {| fc_name := toolName; fc_arguments := toolArgs |};
     reasoning := None |}.

(** A tool that returns [value], and one that throws [new Error(msg)]. *)
Definition returning (toolName : string) (value : JSValue) : Tool Script :=
  {| name := toolName; description := ""; schema := JObject [];
     execute := fun _ w => (Normal value, w) |}.

Definition throwing (toolName : string) (msg : string) : Tool Script :=
  {| name := toolName; description := ""; schema := JObject [];
     execute := fun _ w => (Throw (new_Error msg), w) |}.

(** A tool whose [execute] rejects with [null] ([Promise.reject(null)],
    [throw null]). *)
Definition rejecting (toolName : string) : Tool Script :=
  {| name := toolName; description := ""; schema := JObject [];
     execute := fun _ w => (Throw thrown_null, w) |}.

(** The hooks of a caller that keeps the steps in its results. *)
Definition successWithSteps : ResultHook :=
  fun out steps reason =>
    {| success := true; output := Some out; error := None;
       intermediateSteps := Some steps; terminationReason := Some reason |}.

Definition errorWithSteps : ResultHook :=
  fun err steps reason =>
    {| success := false; output := None; error := Some err;
       intermediateSteps := Some steps; terminationReason := Some reason |}.

Definition stepHooks : AgentRunnerHooks :=
  {| prepareInitialMessages := None;
     createSuccessResult := successWithSteps;
     createErrorResult := errorWithSteps |}.

Definition numberedConfig (tools : list (RegisteredTool Script))
    (maxIterations : JSNumber) : AgentRunnerConfig Script :=
  {| apiKey := "key"; modelName := "gpt"; systemPrompt := "You are an agent.";
     tools := tools; maxIterations := maxIterations; temperature := None |}.

Definition runnerConfig (tools : list (RegisteredTool Script)) (maxIterations : nat)
  : AgentRunnerConfig Script :=
  numberedConfig tools (integer maxIterations).

Definition agentConfig (handoffs : list HandoffConfig) (includeSteps : option bool)
  : AgentToolConfig :=
  {| cfg_systemPrompt := "You are an agent.";
     cfg_modelName := None;
     cfg_tools := [];
     cfg_maxIterations := None;
     cfg_temperature := None;
     handoffs := Some handoffs;
     includeIntermediateStepsOnReturn := includeSteps;
     cfg_createSuccessResult := Some successWithSteps;
     cfg_createErrorResult := Some errorWithSteps |}.

Definition agent (agentName : string) (handoffs : list HandoffConfig)
    (includeSteps : option bool) : ConfigurableAgentTool Script :=
  {| agent_tool := returning agentName JNull;
     config := agentConfig handoffs includeSteps |}.

Definition handoffTo (target : string) (trigger : option HandoffTrigger) : HandoffConfig :=
  {| targetAgentName := target; trigger := trigger; includeToolResults := None |}.

Definition start (responses : list (Completion UnifiedLLMResponse)) : Script :=
  {| responses := responses; uuids := 0 |}.

(** The tools of the concrete runs. *)
Definition imagePayload : string := "data:image/png;base64,iVBORw0KGgoAAAANSUhEUgAAAAEAAAAB".

Definition screenshotData : JSValue :=
  JObject [("imageData", JString imagePayload); ("xpath", JString "//button")].

Definition calc : Tool Script := returning "calc" (JObject [("result", JNumber 4)]).
Definition failing : Tool Script := returning "failing" (JObject [("error", JString "x")]).
Definition exploding : Tool Script := throwing "exploding" "boom".
Definition perform_action : Tool Script := returning "perform_action" screenshotData.

(** A registry that holds the agent [B] only. *)
Definition registryB (includeSteps : option bool) (toolName : string)
  : option (RegisteredTool Script) :=
  if String.eqb toolName "B" then Some (AgentTool (agent "B" [] includeSteps)) else None.

(** ** The pairing invariant of the message log, as the data model words it

    "Every [Model.Tool] message is followed, before the next [Model]
    message, by exactly one [ToolResult] with the same [toolCallId]", and
    conversely every [ToolResult] has an earlier [Model.Tool] of its
    [toolCallId]. *)

Definition shares_id (a b : option string) : bool :=
  match a, b with
  | Some x, Some y => String.eqb x y
  | _, _ => false
  end.

(** The number of tool results of [callId] before the next model
    message. *)
Fixpoint results_before_next_model (callId : option string) (rest : list ChatMessage)
  : nat :=
  match rest with
  | [] => 0
  | ModelMessage _ :: _ => 0
  | ToolResult r :: rest' =>
      (if shares_id callId (tr_toolCallId r) then 1 else 0)
      + results_before_next_model callId rest'
  | UserMessage _ :: rest' => results_before_next_model callId rest'
  end.

Fixpoint tool_calls_answered (log : list ChatMessage) : bool :=
  match log with
  | [] => true
  | ModelMessage m :: rest =>
      match action m with
      | ActionTool => results_before_next_model (toolCallId m) rest =? 1
      | ActionFinal => true
      end && tool_calls_answered rest
  | _ :: rest => tool_calls_answered rest
  end.

(** [seen] holds the [toolCallId]s of the tool calls read so far. *)
Fixpoint results_have_calls (seen : list (option string)) (log : list ChatMessage)
  : bool :=
  match log with
  | [] => true
  | ModelMessage m :: rest =>
      results_have_calls
        match action m with
        | ActionTool => toolCallId m :: seen
        | ActionFinal => seen
        end rest
  | ToolResult r :: rest =>
      existsb (fun callId => shares_id callId (tr_toolCallId r)) seen
      && results_have_calls seen rest
  | UserMessage _ :: rest => results_have_calls seen rest
  end.

Definition well_paired (log : list ChatMessage) : bool :=
  tool_calls_answered log && results_have_calls [] log.

(** Tool calls each followed at once by the tool result of its
    [toolCallId]: what the iterations that execute a tool add to the
    log. *)
Inductive call_pairs : list ChatMessage -> Prop :=
| no_pairs : call_pairs []
| more_pairs m r callId rest :
    action m = ActionTool ->
    toolCallId m = Some callId ->
    tr_toolCallId r = Some callId ->
    call_pairs rest ->
    call_pairs (ModelMessage m :: ToolResult r :: rest).

(** The last messages of the log of a run, by the way the run ended. *)
Definition ending_tail (e : Ending) (tail : list ChatMessage) : Prop :=
  match e with
  | EndFinalAnswer => exists m, action m = ActionFinal /\ tail = [ModelMessage m]
  | EndMaxIterations | EndMaxIterationsHandoff => tail = []
  | EndGatewayError => exists errorMsg, tail = [systemErrorMessage errorMsg]
  | EndLoopError =>
      exists errorMsg,
        tail = [systemErrorMessage errorMsg]
        \/ exists m, action m = ActionTool
                     /\ tail = [ModelMessage m; systemErrorMessage errorMsg]
  | EndToolHandoff => exists m, action m = ActionTool /\ tail = [ModelMessage m]
  end.

(** ** Concrete inputs *)

(** Texts of model responses. *)
Definition leading_space_envelope : string := dq " {'action':'tool','toolName':'t'}".
Definition spaced_envelope : string := dq "{'action': 'tool', 'toolName': 't'}".
Definition plain_envelope : string :=
  dq "{'action':'tool','toolName':'t','toolArgs':{'q':'x'}}".

(** A handoff that passes on the calls and results of [search] only, and
    a log in which a search failed. *)
Definition searchOnly : HandoffConfig :=
  {| targetAgentName := "B"; trigger := None; includeToolResults := Some ["search"] |}.

Definition toolCallMessage (toolName callId : string) : ChatMessage :=
  newToolMessage (call_response toolName (JObject [])) (JString toolName) (JObject [])
    callId.

Definition failedSearchResult : ChatMessage :=
  toolResultMessage "search" "c1" (JString "timeout") true
    (JObject [("error", JString "timeout")]).

Definition failedSearch : list ChatMessage :=
  [UserMessage "q"; toolCallMessage "search" "c1"; failedSearchResult].

(** Worlds, agents and expected logs. *)
Definition plainWorld : World := scripted (fun _ => None).

Definition worldB (includeSteps : option bool) : World := scripted (registryB includeSteps).

Definition noop : Tool Script := returning "noop" JNull.

Definition agentA (target : string) (trigger : option HandoffTrigger)
  : ConfigurableAgentTool Script :=
  agent "A" [handoffTo target trigger] None.

Definition finalMessage (answer : string) : ChatMessage :=
  newFinalMessage (text_response answer) answer.

Definition missingTargetText (targetAgentName : string) : string :=
  "Handoff target '" +:+ targetAgentName
    +:+ "' not found or is not a ConfigurableAgentTool.".

(** The message of a value that a tool returned and that is no
    failure. *)
Definition returnedMessage (toolName callId : string) (value : JSValue) : ChatMessage :=
  toolResultMessage toolName callId (stringifiedResult value) false value.

Definition calcLog : list ChatMessage :=
  [UserMessage "2+2?";
   toolCallMessage "calc" "call-0";
   returnedMessage "calc" "call-0" (JObject [("result", JNumber 4)]);
   finalMessage "4"].

Definition calcTrace : RunTrace :=
  {| result := successWithSteps "4" calcLog reason_final_answer;
     iterations := 2;
     messageLog := calcLog;
     ending := EndFinalAnswer |}.

Definition gatewayDownLog : list ChatMessage :=
  [UserMessage "hi"; systemErrorMessage "LLM call failed: 503"].

Definition gatewayDownTrace : RunTrace :=
  {| result := errorWithSteps "LLM call failed: 503" gatewayDownLog reason_error;
     iterations := 1;
     messageLog := gatewayDownLog;
     ending := EndGatewayError |}.

Definition handedOffLog : list ChatMessage :=
  [UserMessage "hi"; toolCallMessage "handoff_to_B" "call-0"].

Definition noopRoundsLog : list ChatMessage :=
  [UserMessage "go";
   toolCallMessage "noop" "call-0"; returnedMessage "noop" "call-0" JNull;
   toolCallMessage "noop" "call-1"; returnedMessage "noop" "call-1" JNull;
   toolCallMessage "noop" "call-2"; returnedMessage "noop" "call-2" JNull].

Definition noopCalls : list (Completion UnifiedLLMResponse) :=
  [Normal (call_response "noop" (JObject []));
   Normal (call_response "noop" (JObject []));
   Normal (call_response "noop" (JObject []))].

(** ** Properties of messages, tool maps and values, for the statements *)

(** A message of [convertToLLMMessages] that is well formed. *)
Definition wire_ok (m : LLMMessage) : Prop :=
  match role m with
  | role_user => tool_calls m = [] /\ tool_call_id m = None
  | role_assistant =>
      tool_call_id m = None
      /\ ((tool_calls m = [] /\ truthy (content m) = true)
          \/ (content m = JUndefined
              /\ exists c, tool_calls m = [c] /\ call_id c <> ""))
  | role_tool =>
      tool_calls m = [] /\ truthy (content m) = true
      /\ exists callId, tool_call_id m = Some callId /\ callId <> ""
  end.

(** A tool whose outcomes the [catch] around its execution records: it
    does not throw [null] or [undefined]. *)
Definition outcomes_recorded `{World} (tool : RegisteredTool W) : Prop :=
  forall toolArgs w,
    fst (execute (tool_of tool) toolArgs w) <> Throw thrown_null
    /\ fst (execute (tool_of tool) toolArgs w) <> Throw thrown_undefined.

(** What a run without handoffs rejects with: the [TypeError] of the
    handler that read [message] of a [null] or [undefined] thrown by the
    call of the model. *)
Definition handler_fault `{World} {A : Type} (outcome : Completion A) : Prop :=
  match outcome with
  | Normal _ => True
  | Throw e =>
      exists error,
        (error = thrown_null \/ error = thrown_undefined)
        /\ e = type_error (reading_message error)
  end.

(** Every key of the tool map is the name of a schema, and conversely. *)
Definition names_agree `{World} (acc : list ToolSchema * gmap string (RegisteredTool W)) : Prop :=
  forall toolName,
    is_Some (snd acc !! toolName) <-> exists s, In s (fst acc) /\ fn_name s = toolName.

(** The keys of the copy of an array are its indices. *)
Definition starts_with_digit (s : string) : Prop :=
  match s with
  | String c _ => is_digit c = true
  | EmptyString => False
  end.

(** ** The later helper of the sanitization scripts

    [sanitizeToolResultForText] of [unnamed/part_001] and
    [unnamed/part_010]: the shallow copy loses [imageData], [success] and
    [dataUrl], each after a call of [sanitized.hasOwnProperty]. *)

Module EnhancedSanitization.

Definition fieldsToRemove : list string := ["imageData"; "success"; "dataUrl"].

(** [fieldsToRemove.forEach(field => ...)] on the copy [sanitized];
    [None] is the [TypeError] of [sanitized.hasOwnProperty(field)]. *)
Fixpoint removeFields (fields : list string) (sanitized : list (string * JSValue))
  : option (list (string * JSValue)) :=
  match fields with
  | [] => Some sanitized
  | field :: rest =>
      hasField ← hasOwnProperty (JObject sanitized) field;
      removeFields rest (if hasField : bool then assoc_delete sanitized field
                         else sanitized)
  end.

Definition sanitizeToolResultForText (toolResultData : JSValue) : option JSValue :=
  if is_object toolResultData then
    sanitized ← removeFields fieldsToRemove (spread toolResultData);
    Some (JObject sanitized)
  else Some toolResultData.

End EnhancedSanitization.

(** ** [UnifiedLLMClient]: the calls of the providers

    The other static methods of the class.  An options object
    ([UnifiedLLMOptions], and the options handed to a provider) is a
    [JSValue], [JUndefined] when the argument is not passed.  The calls of
    the logger are left out. *)

(** A value thrown, as the handlers of the client read it:
    [error instanceof Error] with its [message], or another value. *)
Inductive Raised :=
| ErrorInstance (errorMessage : string)
| OtherValue (v : JSValue).

(** [error instanceof Error ? error.message : String(error)] *)
Definition raised_message (e : Raised) : string :=
  match e with
  | ErrorInstance errorMessage => errorMessage
  | OtherValue v => js_String v
  end.

Inductive Outcome (A : Type) :=
| Returns (a : A)
| Raises (e : Raised).
Arguments Returns {A} a.
Arguments Raises {A} e.

Inductive OpenAIRole := system_role | user_role | assistant_role | tool_role.

(** [OpenAIMessage]; an entry of [tool_calls] has the [type]
    ['function'], and [function.name], [function.arguments] as
    [call_name], [arguments]. *)
Record OpenAIMessage := {
  oa_role : OpenAIRole;
  oa_content : JSValue;
  oa_tool_calls : list ToolCallEntry;
  oa_tool_call_id : option string;
  oa_name : option string;
}.

(** What the client calls: the clients of the two providers, which
    return a response or throw, [crypto.randomUUID], [localStorage], and
    the message of the [TypeError] that the engine throws for the use of
    a value. *)
Class Providers := {
  ClientState : Type;
  OpenAIClient_callOpenAIWithMessages :
    string -> string -> list OpenAIMessage -> JSValue -> ClientState ->
    Outcome UnifiedLLMResponse * ClientState;
  LiteLLMClient_callLiteLLMWithMessages :
    string -> string -> list OpenAIMessage -> JSValue -> ClientState ->
    Outcome UnifiedLLMResponse * ClientState;
  crypto_randomUUID : ClientState -> string * ClientState;
  localStorage_getItem : ClientState -> string -> option string;
  TypeError_message : JSValue -> string;
}.

Definition MODEL_OPTIONS_KEY : string := "ai_chat_model_options".
Definition LITELLM_ENDPOINT_KEY : string := "ai_chat_litellm_endpoint".
Definition LITELLM_API_KEY_KEY : string := "ai_chat_litellm_api_key".

(** The body of the loop of [convertToOpenAIMessages]: what one message
    adds to [result]. *)
Definition convertMessage `{Providers} (msg : ChatMessage) (st : ClientState)
  : list OpenAIMessage * ClientState :=
  match msg with
  | UserMessage text =>
      ([{| oa_role := user_role; oa_content := JString text; oa_tool_calls := [];
           oa_tool_call_id := None; oa_name := None |}], st)
  | ModelMessage m =>
      match action m with
      | ActionTool =>
          if truthy (toolName m) then
            let '(callId, st') :=
              match toolCallId m with
              | Some callId => if nonempty callId then (callId, st) else crypto_randomUUID st
              | None => crypto_randomUUID st
              end in
            ([{| oa_role := assistant_role;
                 oa_content :=
                   match m_reasoning m with
                   | Some lines => JString (join nl lines)
                   | None => JNull
                   end;
                 oa_tool_calls :=
                   [{| call_id := callId;
                       call_name := toolName m;
                       arguments := JSON_stringify (js_or (toolArgs m) (JObject [])) |}];
                 oa_tool_call_id := None; oa_name := None |}], st')
          else ([], st)
      | ActionFinal =>
          match answer m with
          | Some a =>
              if nonempty a
              then ([{| oa_role := assistant_role; oa_content := JString a;
                        oa_tool_calls := []; oa_tool_call_id := None; oa_name := None |}],
                    st)
              else ([], st)
          | None => ([], st)
          end
      end
  | ToolResult r =>
      match tr_toolCallId r with
      | Some callId =>
          if nonempty callId
          then ([{| oa_role := tool_role; oa_content := resultText r; oa_tool_calls := [];
                    oa_tool_call_id := Some callId; oa_name := Some (tr_toolName r) |}], st)
          else ([], st)
      | None => ([], st)
      end
  end.

Fixpoint convertMessages `{Providers} (messages : list ChatMessage) (st : ClientState)
  : list OpenAIMessage * ClientState :=
  match messages with
  | [] => ([], st)
  | msg :: rest =>
      let '(converted, st1) := convertMessage msg st in
      let '(others, st2) := convertMessages rest st1 in
      (converted ++ others, st2)
  end.

(** [UnifiedLLMClient.convertToOpenAIMessages] *)
Definition convertToOpenAIMessages `{Providers} (messages : list ChatMessage)
    (systemPrompt : JSValue) (st : ClientState) : list OpenAIMessage * ClientState :=
  let '(converted, st') := convertMessages messages st in
  ({| oa_role := system_role; oa_content := systemPrompt; oa_tool_calls := [];
      oa_tool_call_id := None; oa_name := None |} :: converted, st').

Section StoredModels.

Context `{Providers}.

(** The [JSON.parse] in use; [None] when it throws. *)
Variable parse : string -> option JSValue.

(** [localStorage.getItem(key) || fallback] *)
Definition stored_or (st : ClientState) (key fallback : string) : string :=
  match localStorage_getItem st key with
  | Some s => if nonempty s then s else fallback
  | None => fallback
  end.

(** [modelOptions.find(opt => opt.value === modelName)]; the outer
    [None] is the [TypeError] of [opt.value] on [null]. *)
Fixpoint find_model (modelOptions : list JSValue) (modelName : string)
  : option (option JSValue) :=
  match modelOptions with
  | [] => Some None
  | opt :: rest =>
      match getProp opt "value" with
      | Some v => if strict_eq_string v modelName then Some (Some opt)
                  else find_model rest modelName
      | None => None
      end
  end.

(** [UnifiedLLMClient.getModelType]: every throw inside the [try] is
    answered with ['openai']. *)
Definition getModelType (st : ClientState) (modelName : string) : JSValue :=
  match parse (stored_or st MODEL_OPTIONS_KEY "[]") with
  | Some (JArray modelOptions) =>
      match find_model modelOptions modelName with
      | Some (Some modelOption) => js_or (member modelOption "type") (JString "openai")
      | Some None => JString "openai"
      | None => JString "openai"
      end
  | _ => JString "openai"
  end.

(** [UnifiedLLMClient.getConfiguredModels] *)
Definition getConfiguredModels (st : ClientState) : JSValue :=
  match parse (stored_or st MODEL_OPTIONS_KEY "[]") with
  | Some modelOptions => modelOptions
  | None => JArray []
  end.

End StoredModels.

(** [UnifiedLLMClient.getLiteLLMConfig]: [(endpoint, apiKey)] *)
Definition getLiteLLMConfig `{Providers} (st : ClientState) : Outcome (string * string) :=
  let endpoint := stored_or st LITELLM_ENDPOINT_KEY "" in
  let apiKey := stored_or st LITELLM_API_KEY_KEY "" in
  if nonempty endpoint then Returns (endpoint, apiKey)
  else Raises (ErrorInstance
                 "LiteLLM endpoint not configured. Please configure in AI Chat settings.").

(** [UnifiedLLMClient.convertToOpenAIOptions] *)
Definition convertToOpenAIOptions (options : JSValue) : JSValue :=
  if truthy options then
    JObject [("max_tokens", member options "maxTokens");
             ("temperature", member options "temperature");
             ("top_p", member options "topP");
             ("frequency_penalty", member options "frequencyPenalty");
             ("presence_penalty", member options "presencePenalty");
             ("response_format", member options "responseFormat");
             ("n", member options "n");
             ("stream", member options "stream");
             ("signal", member options "signal");
             ("systemPrompt", member options "systemPrompt");
             ("tools", member options "tools");
             ("tool_choice", member options "tool_choice")]
  else JObject [].

(** The callback of [options.tools.map]; ['function' in tool] throws a
    [TypeError] on a value that is not an object. *)
Definition transformTool `{Providers} (tool : JSValue) : Outcome JSValue :=
  match tool with
  | JObject _ | JArray _ =>
      if has_own_property tool "function" then Returns tool
      else if strict_eq_string (member tool "type") "function" then
        Returns (JObject [("type", JString "function");
                          ("function",
                           JObject [("name", member tool "name");
                                    ("description", member tool "description");
                                    ("parameters", member tool "parameters")])])
      else Returns tool
  | _ => Raises (ErrorInstance (TypeError_message tool))
  end.

(** [tools.map(callback)]: the first throw of the callback ends it. *)
Fixpoint transformTools `{Providers} (tools : list JSValue) : Outcome (list JSValue) :=
  match tools with
  | [] => Returns []
  | tool :: rest =>
      match transformTool tool with
      | Returns t =>
          match transformTools rest with
          | Returns ts => Returns (t :: ts)
          | Raises e => Raises e
          end
      | Raises e => Raises e
      end
  end.

(** [UnifiedLLMClient.convertToLiteLLMOptions]; a truthy [options.tools]
    that is not an array has no [map] to call. *)
Definition convertToLiteLLMOptions `{Providers} (options : JSValue) (endpoint : JSValue)
  : Outcome JSValue :=
  if truthy options then
    let liteLLMOptions (transformedTools : JSValue) : JSValue :=
      JObject [("endpoint", js_or (member options "endpoint") endpoint);
               ("max_tokens", member options "maxTokens");
               ("temperature", member options "temperature");
               ("top_p", member options "topP");
               ("frequency_penalty", member options "frequencyPenalty");
               ("presence_penalty", member options "presencePenalty");
               ("response_format", member options "responseFormat");
               ("n", member options "n");
               ("stream", member options "stream");
               ("signal", member options "signal");
               ("systemPrompt", member options "systemPrompt");
               ("tools", transformedTools);
               ("tool_choice", member options "tool_choice")] in
    if truthy (member options "tools") then
      match member options "tools" with
      | JArray tools =>
          match transformTools tools with
          | Returns transformed => Returns (liteLLMOptions (JArray transformed))
          | Raises e => Raises e
          end
      | other => Raises (ErrorInstance (TypeError_message other))
      end
    else Returns (liteLLMOptions (member options "tools"))
  else Returns (JObject [("endpoint", endpoint)]).

(** [UnifiedLLMClient.callOpenAIWithMessages] *)
Definition callOpenAIWithMessages `{Providers} (apiKey modelName : string)
    (openaiMessages : list OpenAIMessage) (options : JSValue) (st : ClientState)
  : Outcome UnifiedLLMResponse * ClientState :=
  let openAIOptions := convertToOpenAIOptions options in
  match OpenAIClient_callOpenAIWithMessages apiKey modelName openaiMessages
          openAIOptions st with
  | (Returns response, st') => (Returns response, st')
  | (Raises error, st') =>
      (Raises (ErrorInstance ("OpenAI call failed for model " +:+ modelName +:+ ": "
                                +:+ raised_message error)), st')
  end.

(** [UnifiedLLMClient.callLiteLLMWithMessages] *)
Definition callLiteLLMWithMessages `{Providers} (apiKey modelName : string)
    (openaiMessages : list OpenAIMessage) (options : JSValue) (st : ClientState)
  : Outcome UnifiedLLMResponse * ClientState :=
  let failed (error : Raised) : Raised :=
    ErrorInstance ("LiteLLM call failed for model " +:+ modelName +:+ ": "
                     +:+ raised_message error) in
  match getLiteLLMConfig st with
  | Returns (endpoint, liteLLMApiKey) =>
      match convertToLiteLLMOptions options (JString endpoint) with
      | Returns liteLLMOptions =>
          match LiteLLMClient_callLiteLLMWithMessages
                  (if nonempty liteLLMApiKey then liteLLMApiKey else apiKey)
                  modelName openaiMessages liteLLMOptions st with
          | (Returns response, st') => (Returns response, st')
          | (Raises error, st') => (Raises (failed error), st')
          end
      | Raises error => (Raises (failed error), st)
      end
  | Raises error => (Raises (failed error), st)
  end.

Section Calls.

Context `{Providers}.
Variable parse : string -> option JSValue.

(** [UnifiedLLMClient.callLLMWithMessages]; the [catch] rethrows what it
    caught. *)
Definition callLLMWithMessages (apiKey modelName : string) (messages : list ChatMessage)
    (options : JSValue) (st : ClientState) : Outcome UnifiedLLMResponse * ClientState :=
  if truthy (optional_member options "systemPrompt") then
    let modelType := getModelType parse st modelName in
    let '(openaiMessages, st1) :=
      convertToOpenAIMessages messages (member options "systemPrompt") st in
    let '(outcome, st2) :=
      if strict_eq_string modelType "litellm"
      then callLiteLLMWithMessages apiKey modelName openaiMessages options st1
      else callOpenAIWithMessages apiKey modelName openaiMessages options st1 in
    match outcome with
    | Returns response =>
        (Returns {| text := text response;
                    functionCall := functionCall response;
                    reasoning := reasoning response |}, st2)
    | Raises error => (Raises error, st2)
    end
  else (Raises (ErrorInstance "systemPrompt is required when calling LLM with messages"),
        st).

(** [UnifiedLLMClient.callLLM] *)
Definition callLLM (apiKey modelName userPrompt : string) (options : JSValue)
    (st : ClientState) : Outcome string * ClientState :=
  let messages := [UserMessage userPrompt] in
  let systemPrompt :=
    js_or (optional_member options "systemPrompt")
      (JString "You are a helpful AI assistant.") in
  match callLLMWithMessages apiKey modelName messages
          (JObject (assoc_set (spread options) "systemPrompt" systemPrompt)) st with
  | (Returns response, st') => (Returns (default "" (text response)), st')
  | (Raises error, st') => (Raises error, st')
  end.

(** [UnifiedLLMClient.testModel]; [apiKey] is [None] when the argument
    is not passed. *)
Definition testModel (modelName : string) (apiKey : option string) (st : ClientState)
  : JSValue * ClientState :=
  match callLLM (default "" apiKey) modelName
          (dq "Hello, this is a test message. Please respond with 'OK'.")
          (JObject [("maxTokens", JNumber 5)]) st with
  | (Returns _, st') => (JObject [("success", JBool true)], st')
  | (Raises error, st') =>
      (JObject [("success", JBool false);
                ("error",
                 JString match error with
                         | ErrorInstance errorMessage => errorMessage
                         | OtherValue _ => "Unknown error occurred"
                         end)], st')
  end.

End Calls.

(** The failure that a provider call reports names the provider and the
    model. *)
Definition provider_failure (modelName : string) (e : Raised) : Prop :=
  exists reason,
    e = ErrorInstance ("OpenAI call failed for model " +:+ modelName +:+ ": " +:+ reason)
    \/ e = ErrorInstance ("LiteLLM call failed for model " +:+ modelName +:+ ": " +:+ reason).

(** The tool calls of a log that carry no identifier of their own. *)
Definition lacks_callId (msg : ChatMessage) : bool :=
  match msg with
  | ModelMessage m =>
      match action m with
      | ActionTool =>
          truthy (toolName m)
          && match toolCallId m with
             | Some callId => negb (nonempty callId)
             | None => true
             end
      | ActionFinal => false
      end
  | _ => false
  end.

(** A message of [convertToOpenAIMessages], after the system prompt,
    that is well formed. *)
Definition openai_wire_ok (m : OpenAIMessage) : Prop :=
  match oa_role m with
  | system_role => False
  | user_role => oa_tool_calls m = [] /\ oa_tool_call_id m = None
  | assistant_role =>
      oa_tool_call_id m = None
      /\ (oa_tool_calls m = []
          \/ exists call, oa_tool_calls m = [call] /\ truthy (call_name call) = true)
  | tool_role =>
      oa_tool_calls m = [] /\ exists callId, oa_tool_call_id m = Some callId /\ callId <> ""
  end.

(** ** [ThinkingTool]: a tool that the runner executes

    The tool of [ThinkingTool.ts].  A computation of the tool reads and
    changes the world and returns or throws. *)

Definition Thrower `{World} (A : Type) : Type := W -> Completion A * W.

Definition value `{World} {A : Type} (a : A) : Thrower A := fun w => (Normal a, w).

Definition throw `{World} {A : Type} (e : Thrown) : Thrower A := fun w => (Throw e, w).

Definition and_then `{World} {A B : Type} (m : Thrower A) (k : A -> Thrower B)
  : Thrower B :=
  fun w => match m w with
           | (Normal a, w') => k a w'
           | (Throw e, w') => (Throw e, w')
           end.

(** [try { body } catch (error) { return handler(error) }] *)
Definition try_catch `{World} {A : Type} (body : Thrower A) (handler : Thrown -> A)
  : W -> A * W :=
  fun w => match body w with
           | (Normal a, w') => (a, w')
           | (Throw e, w') => (handler e, w')
           end.

Notation "'let!' x ':=' m 'in' k" := (and_then m (fun x => k))
  (at level 10, x pattern, m at level 100, k at level 200).

(** What the tool calls: the screenshot tool, the primary page target
    (given by its [inspectedURL()], [None] when there is no target), the
    evaluation of [document.title], the selected model, the call of the
    model, and the errors that the engine throws for the use of a value
    and for a text that is not JSON. *)
Class Page `{World} := {
  TakeScreenshotTool_execute : JSValue -> Thrower JSValue;
  primaryPageTarget : W -> option string;
  invoke_evaluate : JSValue -> Thrower JSValue;
  getSelectedModel : W -> string;
  LLMClient_call : LLMCallRequest -> Thrower UnifiedLLMResponse;
  TypeError : JSValue -> Thrown;
  SyntaxError : string -> Thrown;
}.

(** A text written with grave accents where it has double quotes. *)
Fixpoint bq (s : string) : string :=
  match s with
  | String c rest => String (if nat_of_ascii c =? 96 then ascii_of_nat 34 else c) (bq rest)
  | EmptyString => EmptyString
  end.

(** [{ error: msg }] *)
Definition error_result (msg : string) : JSValue := JObject [("error", JString msg)].

Section Thinking.

Context `{Page}.

(** The [JSON.parse] in use; [None] when it throws. *)
Variable parse : string -> option JSValue.

(** [k in v]: a [TypeError] on a value that is not an object. *)
Definition has_property (k : string) (v : JSValue) : Thrower bool :=
  match v with
  | JObject _ => value (has_own_property v k)
  | JArray _ => value false
  | _ => throw (TypeError v)
  end.

(** [v.k]: a [TypeError] on [null] and [undefined]. *)
Definition property (v : JSValue) (k : string) : Thrower JSValue :=
  match getProp v k with
  | Some x => value x
  | None => throw (TypeError v)
  end.

(** [ThinkingTool.captureVisualContext] *)
Definition captureVisualContext : W -> JSValue * W :=
  try_catch
    (let! screenshotResult :=
       TakeScreenshotTool_execute (JObject [("fullPage", JBool false)]) in
     let! failed := has_property "error" screenshotResult in
     if failed : bool then
       value (error_result
                ("Screenshot failed: " +:+ js_String (member screenshotResult "error")))
     else
       fun w =>
         match primaryPageTarget w with
         | None => value (error_result "No page target available") w
         | Some url =>
             (let! titleResult :=
                invoke_evaluate (JObject [("expression", JString "document.title");
                                          ("returnByValue", JBool true)]) in
              let! evaluated := property titleResult "result" in
              let title := js_or (optional_member evaluated "value") (JString "Untitled") in
              value (JObject [("screenshot",
                               js_or (member screenshotResult "imageData") (JString ""));
                              ("url", JString url);
                              ("title", title)])) w
         end)
    (fun error =>
       error_result ("Failed to capture visual context: " +:+ as_string error)).

Record ThinkingPrompt := {
  prompt_systemPrompt : string;
  prompt_userPrompt : string;
  prompt_images : list (string * JSValue);
}.

Definition thinkingSystemPrompt : string :=
  "You are a thinking tool that helps with high-level planning and visual analysis. Your job is to look at the current state and think through what needs to be done in a flexible, unstructured way, always staying focused on the user's original request.

APPROACH:
1. Describe what you see in the screenshot in a brief, useful way
2. Create a flexible list of things that might need to be done (not rigid steps) to accomplish the user's request
3. Think about current progress toward the user's goal and what to focus on next
4. Be conversational and adaptive, not overly structured

OUTPUT FORMAT:
" +:+ bq "{
  `visualSummary`: `Brief description of what you see that's relevant to the context`,
  `thingsToDoList`: [`High-level thing 1`, `High-level thing 2`, `Maybe this other thing`, `Check on this`, `Consider doing that`],
  `currentProgress`: `Optional - where things stand right now toward the user's goal`,
  `observations`: `Optional - any interesting observations or notes`
}" +:+ "

Keep it conversational and flexible. Don't make it overly structured or rigid. Always keep the user's request in mind.".

(** [ThinkingTool.buildThinkingPrompt] *)
Definition buildThinkingPrompt (userRequest context visualContext : JSValue)
  : ThinkingPrompt :=
  let contextSection :=
    if truthy context then nl +:+ "ADDITIONAL CONTEXT: " +:+ js_String context else "" in
  {| prompt_systemPrompt := thinkingSystemPrompt;
     prompt_userPrompt :=
       "USER REQUEST: " +:+ js_String userRequest +:+ nl +:+ nl
         +:+ "CONTEXT: " +:+ contextSection +:+ nl +:+ nl
         +:+ "CURRENT PAGE: " +:+ js_String (member visualContext "title") +:+ nl +:+ nl
         +:+ "Look at the screenshot and think through what needs to be done to accomplish the user's request. Create a high-level visual summary and a flexible list of things to consider or work on.";
     prompt_images := [("image_url", member visualContext "screenshot")] |}.

(** [Array.isArray(v)] *)
Definition isArray (v : JSValue) : bool :=
  match v with
  | JArray _ => true
  | _ => false
  end.

(** [ThinkingTool.getThinkingAnalysis] *)
Definition getThinkingAnalysis (prompt : ThinkingPrompt) : W -> JSValue * W :=
  try_catch
    (fun w =>
       let model := getSelectedModel w in
       let provider := getProviderForModel model in
       let messages :=
         [{| role := role_user;
             content :=
               JArray (JObject [("type", JString "text");
                                ("text", JString (prompt_userPrompt prompt))]
                         :: List.map
                              (fun img =>
                                 JObject [("type", JString "image_url");
                                          ("image_url", JObject [("url", snd img)])])
                              (prompt_images prompt));
             tool_calls := [];
             tool_call_id := None |}] in
       (let! response :=
          LLMClient_call {| provider := provider;
                            model := model;
                            messages := messages;
                            req_systemPrompt := prompt_systemPrompt prompt;
                            req_tools := [];
                            req_temperature := (3 # 10)%Q |} in
        match text response with
        | Some responseText =>
            if nonempty responseText then
              fun w' =>
                (Normal
                   (fst (try_catch
                           (match parse responseText with
                            | Some result =>
                                let! visualSummary := property result "visualSummary" in
                                let! thingsToDoList := property result "thingsToDoList" in
                                if negb (truthy visualSummary)
                                   || negb (truthy thingsToDoList)
                                   || negb (isArray thingsToDoList)
                                then value (error_result "Invalid response structure from LLM")
                                else value result
                            | None => throw (SyntaxError responseText)
                            end)
                           (fun parseError =>
                              error_result
                                ("Failed to parse response: " +:+ as_string parseError))
                           w')), w')
            else value (error_result "No response from LLM")
        | None => value (error_result "No response from LLM")
        end) w)
    (fun error => error_result ("LLM analysis failed: " +:+ as_string error)).

(** [ThinkingTool.execute] *)
Definition ThinkingTool_execute (args : JSValue) : W -> JSValue * W :=
  try_catch
    (let! userRequest := property args "userRequest" in
     let! visualContext := fun w => let '(v, w') := captureVisualContext w in (Normal v, w') in
     let! failed := has_property "error" visualContext in
     if failed : bool then
       value (error_result ("Failed to capture visual context: "
                              +:+ js_String (member visualContext "error")))
     else
       let prompt := buildThinkingPrompt userRequest (member args "context") visualContext in
       let! analysis := fun w => let '(v, w') := getThinkingAnalysis prompt w in (Normal v, w') in
       let! failed := has_property "error" analysis in
       if failed : bool then
         value (error_result ("Failed to analyze: " +:+ js_String (member analysis "error")))
       else value analysis)
    (fun error => error_result ("Thinking failed: " +:+ as_string error)).

(** The instance of the class, as a tool of a run. *)
Definition ThinkingTool : Tool W :=
  {| name := "thinking";
     description := "A flexible thinking tool that provides a high-level visual summary and creates an unstructured list of things to do. Useful for getting oriented, planning next steps, or reflecting on current state.";
     schema :=
       JObject [("type", JString "object");
                ("properties",
                 JObject [("userRequest",
                           JObject [("type", JString "string");
                                    ("description",
                                     JString "The original user request or goal to think about")]);
                          ("context",
                           JObject [("type", JString "string");
                                    ("description",
                                     JString "Optional additional context about the current situation")])]);
                ("required", JArray [JString "userRequest"])];
     execute := fun args w => let '(v, w') := ThinkingTool_execute args w in (Normal v, w') |}.

End Thinking.

(** ** Further concrete inputs *)

(** A registry in which the agent registered as [B] names itself
    [Bee]. *)
Definition registryRenamed (toolName : string) : option (RegisteredTool Script) :=
  if String.eqb toolName "B" then Some (AgentTool (agent "Bee" [] None)) else None.

Definition worldRenamed : World := scripted registryRenamed.

Definition handoffCall : UnifiedLLMResponse := call_response "handoff_to_B" (JObject []).

Definition silentResponse : UnifiedLLMResponse :=
  {| text := None; functionCall := None; reasoning := None |}.

(** A world whose model asks for the tool [noop] at every call; the
    world counts the identifiers drawn. *)
Definition tick : Tool nat :=
  {| name := "noop"; description := ""; schema := JObject [];
     execute := fun _ w => (Normal JNull, w) |}.

Definition loopAgent : ConfigurableAgentTool nat :=
  {| agent_tool :=
       {| name := "loop"; description := ""; schema := JObject [];
          execute := fun _ w => (Normal JNull, w) |};
     config :=
       {| cfg_systemPrompt := "You are an agent.";
          cfg_modelName := None;
          cfg_tools := ["noop"];
          cfg_maxIterations := Some (integer 2);
          cfg_temperature := None;
          handoffs := Some [handoffTo "loop" (Some max_iterations)];
          includeIntermediateStepsOnReturn := None;
          cfg_createSuccessResult := None;
          cfg_createErrorResult := None |} |}.

Definition tirelessWorld : World :=
  {| W := nat;
     llm_call := fun _ w => (Normal (call_response "noop" (JObject [])), w);
     llm_parseResponse := parseResponse JSON_parse;
     enhancePromptWithPageContext := fun prompt w => (prompt, w);
     randomUUID := fun w => ("call-" +:+ pretty w, S w);
     getProviderForModel := fun _ => "openai";
     getRegisteredTool :=
       fun toolName =>
         if String.eqb toolName "loop" then Some (AgentTool loopAgent)
         else if String.eqb toolName "noop" then Some (PlainTool tick)
         else None;
     fault_message := v8_fault_message;
     number_text := decimal_text |}.

Definition loopConfig : AgentRunnerConfig nat :=
  {| apiKey := "key"; modelName := "gpt"; systemPrompt := "You are an agent.";
     tools := [PlainTool tick]; maxIterations := integer 2; temperature := None |}.

(** A browser in which [claude] is stored as a LiteLLM model and no
    endpoint is stored, and whose providers cannot be reached. *)
Definition storedModels : string := dq "[{'value':'claude','type':'litellm'}]".

Definition offline : Providers :=
  {| ClientState := unit;
     OpenAIClient_callOpenAIWithMessages :=
       fun _ _ _ _ st => (Raises (OtherValue (JString "offline")), st);
     LiteLLMClient_callLiteLLMWithMessages :=
       fun _ _ _ _ st => (Raises (OtherValue (JString "offline")), st);
     crypto_randomUUID := fun st => ("uuid", st);
     localStorage_getItem :=
       fun _ key => if String.eqb key MODEL_OPTIONS_KEY then Some storedModels else None;
     TypeError_message := fun _ => "not an object" |}.

Definition flatTool : JSValue :=
  JObject [("type", JString "function"); ("name", JString "search");
           ("description", JString "Looks things up"); ("parameters", JObject [])].

Definition wrappedTool : JSValue :=
  JObject [("type", JString "function");
           ("function",
            JObject [("name", JString "search"); ("description", JString "Looks things up");
                     ("parameters", JObject [])])].

(** A page of which no screenshot can be taken. *)
Definition blindPage : Page (H := plainWorld) :=
  {| TakeScreenshotTool_execute := fun _ w => (Throw (new_Error "no page"), w);
     primaryPageTarget := fun _ => None;
     invoke_evaluate := fun _ w => (Normal JUndefined, w);
     getSelectedModel := fun _ => "gpt";
     LLMClient_call := fun _ w => (Throw (new_Error "offline"), w);
     TypeError := fun _ => new_Error "not an object";
     SyntaxError := fun _ => new_Error "not JSON" |}.

Definition thinkingArgs : JSValue := JObject [("userRequest", JString "book a flight")].

(** * Theorems *)

(** ** The response parser *)

Lemma startsWith_nonempty (s p : string) :
  startsWith s p = true -> p <> "" -> String.eqb s "" = false.
Proof.
  destruct s as [|c s]; [|reflexivity].
  destruct p as [|d p]; [congruence|]. cbn. discriminate.
Qed.

(** C10, as amended.  The envelope marker has 15 characters (the
    specification counts 14).  A response without a function call whose
    text begins with an opening brace and does not contain the marker as
    an exact substring is returned as a final answer, the raw text,
    whatever [JSON.parse] would do on it: the result is the same for
    every parser, so it does not depend on any parsing.  An envelope
    written with a space after the colon is such a text, although parsing
    it would give a tool call. *)
Theorem parseResponse_marker_is_exact_substring :
  String.length tool_envelope_marker = 15 /\
  (forall (parse : string -> option JSValue) (response : UnifiedLLMResponse)
          (rawContent : string),
      functionCall response = None ->
      text response = Some rawContent ->
      startsWith rawContent "{" = true ->
      includes rawContent tool_envelope_marker = false ->
      parseResponse parse response = final_answer rawContent) /\
  (exists name args,
      parse_envelope JSON_parse spaced_envelope = Some (tool_call name args)).
Proof.
  split; [reflexivity|]. split.
  - intros parse response rawContent Hfc Htext Hstart Hmarker.
    unfold parseResponse. rewrite Hfc, Htext.
    rewrite (startsWith_nonempty rawContent "{" Hstart) by discriminate.
    rewrite Hmarker, andb_false_r. reflexivity.
  - eexists _, _. vm_compute. reflexivity.
Qed.

Lemma parseResponse_marker_witness :
  parseResponse JSON_parse (text_response spaced_envelope) = final_answer spaced_envelope.
Proof.
  apply (proj1 (proj2 parseResponse_marker_is_exact_substring)); reflexivity.
Defined.

(** The count of the marker's characters. *)
Lemma tool_envelope_marker_is_not_14_long : String.length tool_envelope_marker <> 14.
Proof. vm_compute. discriminate. Qed.

(** A text that begins with a space, not with a brace, and holds an
    envelope: it is read as a tool call, not as a final answer. *)
Lemma parseResponse_leading_space :
  startsWith leading_space_envelope "{" = false /\
  parseResponse JSON_parse (text_response leading_space_envelope)
    = tool_call (JString "t") (JObject []) /\
  parseResponse JSON_parse (text_response leading_space_envelope)
    <> final_answer leading_space_envelope.
Proof. vm_compute. repeat split; discriminate. Qed.

(** C3, as amended.  The parser reads a response in this order: a
    function call, if present, is the tool call; otherwise a non-empty
    text that begins with an opening brace once the white space around it
    is trimmed (the specification does not trim) and that contains the
    envelope marker is parsed as JSON, a parsed envelope with [action]
    ["tool"] and a truthy [toolName] being a tool call, and any other
    parsed value as well as a parse failure giving the raw text as final
    answer; any other non-empty text is the final answer.  So a response
    with a non-empty text is never a parse error. *)
Theorem parseResponse_order (parse : string -> option JSValue)
    (response : UnifiedLLMResponse) :
  (forall fc, functionCall response = Some fc ->
     parseResponse parse response = tool_call (JString (fc_name fc)) (fc_arguments fc)) /\
  (forall rawContent,
     functionCall response = None ->
     text response = Some rawContent ->
     rawContent <> "" ->
     (startsWith (trim rawContent) "{" = true ->
      includes rawContent tool_envelope_marker = true ->
      (forall contentJson toolName,
          parse rawContent = Some contentJson ->
          getProp contentJson "action" = Some (JString "tool") ->
          getProp contentJson "toolName" = Some toolName ->
          truthy toolName = true ->
          parseResponse parse response
          = tool_call toolName (js_or (member contentJson "toolArgs") (JObject []))) /\
      (forall contentJson,
          parse rawContent = Some contentJson ->
          ~ (getProp contentJson "action" = Some (JString "tool")
             /\ exists toolName,
                  getProp contentJson "toolName" = Some toolName
                  /\ truthy toolName = true) ->
          parseResponse parse response = final_answer rawContent) /\
      (parse rawContent = None ->
       parseResponse parse response = final_answer rawContent)) /\
     (startsWith (trim rawContent) "{" && includes rawContent tool_envelope_marker = false ->
      parseResponse parse response = final_answer rawContent) /\
     ((exists toolName toolArgs, parseResponse parse response = tool_call toolName toolArgs)
      \/ parseResponse parse response = final_answer rawContent)).
Proof.
  split.
  - intros fc Hfc. unfold parseResponse. rewrite Hfc. reflexivity.
  - intros rawContent Hfc Htext Hne.
    assert (Hempty : String.eqb rawContent "" = false)
      by (apply String.eqb_neq; exact Hne).
    unfold parseResponse. rewrite Hfc, Htext, Hempty.
    split; [|split].
    + intros Hstart Hmarker. rewrite Hstart, Hmarker. cbn [andb].
      split; [|split].
      * intros contentJson toolName Hparse Haction HtoolName Htruthy.
        unfold parse_envelope. rewrite Hparse. cbn [mbind option_bind].
        rewrite Haction. cbn [mbind option_bind strict_eq_string].
        rewrite HtoolName. cbn [mbind option_bind]. rewrite Htruthy.
        destruct contentJson; try discriminate; reflexivity.
      * intros contentJson Hparse Hshape.
        unfold parse_envelope. rewrite Hparse. cbn [mbind option_bind].
        destruct (getProp contentJson "action") as [action|] eqn:Haction;
          [|reflexivity].
        cbn [mbind option_bind].
        destruct (strict_eq_string action "tool") eqn:Htool; [|reflexivity].
        destruct (getProp contentJson "toolName") as [toolName|] eqn:HtoolName;
          [|reflexivity].
        cbn [mbind option_bind].
        destruct (truthy toolName) eqn:Htruthy; [|reflexivity].
        exfalso. apply Hshape. split; [|eauto].
        destruct action; try discriminate Htool.
        apply String.eqb_eq in Htool. subst. reflexivity.
      * intros Hparse. unfold parse_envelope. rewrite Hparse. reflexivity.
    + intros Hnot. rewrite Hnot. reflexivity.
    + destruct (startsWith (trim rawContent) "{" && includes rawContent tool_envelope_marker);
        [|right; reflexivity].
      unfold parse_envelope.
      destruct (parse rawContent) as [contentJson|]; [|right; reflexivity].
      cbn [mbind option_bind].
      destruct (getProp contentJson "action") as [action|]; [|right; reflexivity].
      cbn [mbind option_bind].
      destruct (strict_eq_string action "tool"); [|right; reflexivity].
      destruct (getProp contentJson "toolName") as [toolName|]; [|right; reflexivity].
      cbn [mbind option_bind].
      destruct (truthy toolName); [|right; reflexivity].
      destruct (getProp contentJson "toolArgs") as [toolArgs|]; [|right; reflexivity].
      left. eexists _, _. reflexivity.
Qed.

Lemma parseResponse_order_witness :
  parseResponse JSON_parse (text_response plain_envelope)
  = tool_call (JString "t") (JObject [("q", JString "x")]).
Proof.
  destruct (parseResponse_order JSON_parse (text_response plain_envelope)) as [_ H].
  destruct (H plain_envelope eq_refl eq_refl ltac:(discriminate)) as [Hcandidate _].
  destruct (Hcandidate eq_refl eq_refl) as [Hok _].
  exact (Hok (JObject [("action", JString "tool"); ("toolName", JString "t");
                       ("toolArgs", JObject [("q", JString "x")])])
           (JString "t") eq_refl eq_refl eq_refl eq_refl).
Defined.

(** ** The messages handed to the target of a handoff *)

Lemma array_includes_In (names : list string) (s : string) :
  array_includes names s = true <-> In s names.
Proof.
  unfold array_includes. rewrite existsb_exists. split.
  - intros (x & Hin & Heq). apply String.eqb_eq in Heq. subst. exact Hin.
  - intros Hin. exists s. split; [exact Hin|apply String.eqb_refl].
Qed.

Lemma nonempty_true (s : string) : nonempty s = true <-> s <> "".
Proof.
  unfold nonempty. rewrite negb_true_iff. apply String.eqb_neq.
Qed.

Lemma filter_sublist {A : Type} (f : A -> bool) (l : list A) :
  sublist (List.filter f l) l.
Proof.
  induction l as [|x l IH]; cbn.
  - constructor.
  - destruct (f x); [apply sublist_skip|apply sublist_cons]; exact IH.
Qed.

Lemma keepForHandoff_tool_call (allowed : list string) (m : ModelChatMessage) :
  action m = ActionTool ->
  keepForHandoff allowed (ModelMessage m) = true
  <-> exists toolName', toolName m = JString toolName' /\ toolName' <> ""
                         /\ In toolName' allowed.
Proof.
  intros Haction. cbn. rewrite Haction.
  split.
  - destruct (toolName m) as [| |b|n|s|items|props]; cbn;
      try (destruct (truthy _)); try discriminate;
      try (destruct b; discriminate); try (destruct (negb _); discriminate).
    destruct (negb (String.eqb s "")) eqn:Hne; [|discriminate].
    intros Hin. exists s. split; [reflexivity|]. split.
    + apply nonempty_true. exact Hne.
    + apply array_includes_In. exact Hin.
  - intros (n & -> & Hne & Hin). cbn.
    apply nonempty_true in Hne. unfold nonempty in Hne. rewrite Hne.
    apply array_includes_In. exact Hin.
Qed.

Lemma keepForHandoff_tool_result (allowed : list string) (r : ToolResultMessage) :
  keepForHandoff allowed (ToolResult r) = true
  <-> isError r = false /\ tr_toolName r <> "" /\ In (tr_toolName r) allowed.
Proof.
  cbn. rewrite !andb_true_iff, negb_true_iff, nonempty_true, array_includes_In.
  tauto.
Qed.

(** C2, as amended.  With a non-empty [includeToolResults] the messages
    handed over are a sublist of the log that keeps every user message
    and every final answer, keeps a tool call exactly when its non-empty
    tool name is in the set, and keeps a tool result exactly when it is
    not an error result and its non-empty tool name is in the set (the
    specification keeps the result of every listed tool).  Without the set, or
    with an empty one, the whole log is handed over.  With the set
    [{"search"}] no tool call and no tool result of another tool is
    handed over. *)
Theorem handoffMessages_keeps (handoffConfig : HandoffConfig)
    (currentMessages : list ChatMessage) :
  let transferred := handoffMessages handoffConfig currentMessages in
  (forall allowed,
      includeToolResults handoffConfig = Some allowed -> allowed <> [] ->
      sublist transferred currentMessages /\
      (forall text, In (UserMessage text) currentMessages ->
                    In (UserMessage text) transferred) /\
      (forall m, action m = ActionFinal ->
                 In (ModelMessage m) currentMessages -> In (ModelMessage m) transferred) /\
      (forall m, action m = ActionTool ->
                 (In (ModelMessage m) transferred
                  <-> In (ModelMessage m) currentMessages
                      /\ exists toolName', toolName m = JString toolName'
                                           /\ toolName' <> "" /\ In toolName' allowed)) /\
      (forall r, In (ToolResult r) transferred
                 <-> In (ToolResult r) currentMessages
                     /\ isError r = false /\ tr_toolName r <> ""
                     /\ In (tr_toolName r) allowed)) /\
  (includeToolResults handoffConfig = None \/ includeToolResults handoffConfig = Some [] ->
   transferred = currentMessages) /\
  (includeToolResults handoffConfig = Some ["search"] ->
   (forall m, action m = ActionTool -> In (ModelMessage m) transferred ->
              toolName m = JString "search") /\
   (forall r, In (ToolResult r) transferred -> tr_toolName r = "search")).
Proof.
  intros transferred.
  assert (Hfilter : forall allowed,
             includeToolResults handoffConfig = Some allowed -> allowed <> [] ->
             transferred = List.filter (keepForHandoff allowed) currentMessages).
  { intros allowed Hsome Hne. unfold transferred, handoffMessages. rewrite Hsome.
    destruct allowed; [congruence|reflexivity]. }
  assert (Hcall : forall allowed m,
             includeToolResults handoffConfig = Some allowed -> allowed <> [] ->
             action m = ActionTool ->
             (In (ModelMessage m) transferred
              <-> In (ModelMessage m) currentMessages
                  /\ exists toolName', toolName m = JString toolName'
                                       /\ toolName' <> "" /\ In toolName' allowed)).
  { intros allowed m Hsome Hne Haction. rewrite (Hfilter allowed Hsome Hne), filter_In.
    rewrite (keepForHandoff_tool_call allowed m Haction). reflexivity. }
  assert (Hresult : forall allowed r,
             includeToolResults handoffConfig = Some allowed -> allowed <> [] ->
             (In (ToolResult r) transferred
              <-> In (ToolResult r) currentMessages
                  /\ isError r = false /\ tr_toolName r <> ""
                  /\ In (tr_toolName r) allowed)).
  { intros allowed r Hsome Hne. rewrite (Hfilter allowed Hsome Hne), filter_In.
    rewrite keepForHandoff_tool_result. reflexivity. }
  split; [|split].
  - intros allowed Hsome Hne. split; [|split; [|split; [|split]]].
    + rewrite (Hfilter allowed Hsome Hne). apply filter_sublist.
    + intros text Hin. rewrite (Hfilter allowed Hsome Hne). apply filter_In. auto.
    + intros m Haction Hin. rewrite (Hfilter allowed Hsome Hne). apply filter_In.
      split; [exact Hin|]. cbn. rewrite Haction. reflexivity.
    + intros m Haction. apply (Hcall allowed m Hsome Hne Haction).
    + intros r. apply (Hresult allowed r Hsome Hne).
  - intros [Hnone|Hempty]; unfold transferred, handoffMessages.
    + rewrite Hnone. reflexivity.
    + rewrite Hempty. reflexivity.
  - intros Hsearch. split.
    + intros m Haction Hin.
      apply (Hcall ["search"] m Hsearch ltac:(discriminate) Haction) in Hin.
      destruct Hin as (_ & n & -> & _ & [<-|[]]). reflexivity.
    + intros r Hin.
      apply (Hresult ["search"] r Hsearch ltac:(discriminate)) in Hin.
      destruct Hin as (_ & _ & _ & [<-|[]]). reflexivity.
Qed.

Lemma handoffMessages_keeps_witness :
  sublist (handoffMessages searchOnly failedSearch) failedSearch.
Proof.
  apply (proj1 (handoffMessages_keeps searchOnly failedSearch) ["search"] eq_refl).
  discriminate.
Defined.

(** The failed search: its call is handed over, its result is not. *)
Lemma handoffMessages_drops_failed_result :
  In "search" ["search"] /\
  In (toolCallMessage "search" "c1") (handoffMessages searchOnly failedSearch) /\
  ~ In failedSearchResult (handoffMessages searchOnly failedSearch).
Proof.
  split; [left; reflexivity|]. split.
  - cbn. right. left. reflexivity.
  - cbn. intros [Heq|[Heq|[]]]; discriminate.
Qed.

(** ** One iteration of the loop *)

(** The state passing, unfolded. *)
Ltac unfold_run := unfold bind, call, ret, attempt, reject.

Lemma thrown_text_readable (e : Thrown) :
  e <> thrown_null -> e <> thrown_undefined -> exists text, thrown_text e = Some text.
Proof. destruct e; [congruence|congruence|]. intros _ _. eexists. reflexivity. Qed.

Lemma thrown_text_unreadable (e : Thrown) :
  e = thrown_null \/ e = thrown_undefined -> thrown_text e = None.
Proof. intros [->| ->]; reflexivity. Qed.

(** The reading of a value that a tool returned: an error exactly for a
    failure value, unless the value hides [hasOwnProperty]. *)
Lemma readToolResult_reading (v : JSValue) :
  match readToolResult v with
  | Some (_, toolIsError) =>
      toolIsError = failure_value v /\ has_own_property v "hasOwnProperty" = false
  | None => is_object v = true /\ has_own_property v "hasOwnProperty" = true
  end.
Proof.
  unfold failure_value, readToolResult, hasOwnProperty.
  destruct v as [| |b|n|s|items|props]; cbn [is_object andb has_own_property];
    try (split; reflexivity).
  destruct (bool_decide (is_Some (assoc_get props "hasOwnProperty")));
    [split; reflexivity|].
  cbn [mbind option_bind]. unfold member.
  destruct (assoc_get props "error") as [e|];
    destruct (assoc_get props "success") as [s|].
  all: rewrite ?bool_decide_true by (eexists; reflexivity).
  all: rewrite ?bool_decide_false by (intros [x Hx]; discriminate).
  all: cbn -[stringifiedResult js_or truthy].
  all: try (destruct (truthy e); cbn [orb andb]; [split; reflexivity|]).
  all: try (destruct s as [| |[]| | | |]; cbn [truthy orb]; split; congruence).
  all: try (split; reflexivity).
Qed.

(** What the [catch] around a tool records of a value thrown of which
    [message] can be read. *)
Lemma toolExecutionFailure_recorded `{World} (err : Thrown) (text : string) :
  thrown_text err = Some text ->
  toolExecutionFailure err
  = Normal (JString ("Error during tool execution: " +:+ text), true,
            JObject [("error", JString ("Error during tool execution: " +:+ text))]).
Proof. unfold toolExecutionFailure. intros ->. reflexivity. Qed.

(** A returned value is always recorded, a failure value as an error. *)
Lemma toolExecutionResult_returned `{World} (v : JSValue) :
  exists toolResultText toolIsError toolResultData,
    toolExecutionResult (Normal v) = Normal (toolResultText, toolIsError, toolResultData)
    /\ (failure_value v = true -> toolIsError = true).
Proof.
  unfold toolExecutionResult. pose proof (readToolResult_reading v) as Hread.
  destruct (readToolResult v) as [[toolResultText toolIsError]|].
  - destruct Hread as [-> _]. eexists _, _, _. split; [reflexivity|auto].
  - eexists _, _, _. split; [reflexivity|auto].
Qed.

(** An outcome other than a thrown [null] or [undefined] is recorded in
    a tool result message of the call, a failure as an error. *)
Lemma executedToolMessage_recorded `{World} (toolName toolCallId : string)
    (outcome : Completion JSValue) :
  outcome <> Throw thrown_null ->
  outcome <> Throw thrown_undefined ->
  exists toolResultText toolIsError toolResultData,
    executedToolMessage toolName toolCallId outcome
    = Normal (toolResultMessage toolName toolCallId toolResultText toolIsError
                toolResultData)
    /\ (is_failure outcome = true -> toolIsError = true).
Proof.
  intros Hnull Hundefined. unfold executedToolMessage.
  destruct outcome as [v|err].
  - destruct (toolExecutionResult_returned v)
      as (toolResultText & toolIsError & toolResultData & -> & Hfailure).
    eexists _, _, _. split; [reflexivity|exact Hfailure].
  - destruct (thrown_text_readable err) as [text Htext]; [congruence|congruence|].
    cbn [toolExecutionResult]. rewrite (toolExecutionFailure_recorded err text Htext).
    eexists _, _, _. split; reflexivity.
Qed.

(** A thrown [null] or [undefined] is not recorded: the [catch] throws. *)
Lemma executedToolMessage_fault `{World} (toolName toolCallId : string) (err : Thrown) :
  err = thrown_null \/ err = thrown_undefined ->
  executedToolMessage toolName toolCallId (Throw err)
  = Throw (type_error (reading_message err)).
Proof. intros [->| ->]; reflexivity. Qed.

Lemma executedToolMessage_callId `{World} (toolName toolCallId : string)
    (outcome : Completion JSValue) (toolResult : ChatMessage) :
  executedToolMessage toolName toolCallId outcome = Normal toolResult ->
  exists r, toolResult = ToolResult r /\ tr_toolCallId r = Some toolCallId.
Proof.
  unfold executedToolMessage.
  destruct (toolExecutionResult outcome)
    as [[[toolResultText toolIsError] toolResultData]|e]; [|discriminate].
  intros [= <-]. eexists. split; reflexivity.
Qed.

(** The number of iterations that the test of the loop admits. *)
Lemma below_iteration_bound (maxIterations : JSNumber) (bound : nat) :
  iteration_bound maxIterations = Some bound ->
  forall i, below i maxIterations = true <-> i < bound.
Proof.
  destruct maxIterations as [q| | |]; cbn [iteration_bound below];
    intros [= <-] i; try (split; [discriminate|lia]).
  rewrite negb_true_iff. split.
  - intros Hnot.
    destruct (Z_lt_le_dec (Z.of_nat i) (Qceiling q)) as [Hlt|Hle]; [lia|].
    exfalso. assert (Hq : Qle_bool q (inject_Z (Z.of_nat i)) = true).
    { apply Qle_bool_iff. eapply Qle_trans; [apply Qle_ceiling|].
      rewrite <- Zle_Qle. exact Hle. }
    congruence.
  - intros Hlt. destruct (Qle_bool q (inject_Z (Z.of_nat i))) eqn:Hq; [|reflexivity].
    exfalso. apply Qle_bool_iff in Hq.
    pose proof (Qceiling_lt q) as Hceiling.
    assert (Hz : (Qceiling q - 1 < Z.of_nat i)%Z).
    { rewrite Zlt_Qlt. eapply Qlt_le_trans; eassumption. }
    lia.
Qed.

Lemma iteration_bound_integer (n : nat) : iteration_bound (integer n) = Some n.
Proof.
  unfold integer, iteration_bound. rewrite Qceiling_Z, Nat2Z.id. reflexivity.
Qed.

Lemma below_integer (i n : nat) : below i (integer n) = (i <? n).
Proof.
  pose proof (below_iteration_bound (integer n) n (iteration_bound_integer n) i) as Hiff.
  destruct (below i (integer n)), (Nat.ltb_spec i n) as [Hlt|Hle]; try reflexivity.
  - exfalso. apply proj1 in Hiff. specialize (Hiff eq_refl). lia.
  - exfalso. apply proj2 in Hiff. specialize (Hiff Hlt). discriminate.
Qed.

Section LoopFacts.

Context `{World}.
Variable run_rec : RunFn.
Variable args : JSValue.
Variable config : AgentRunnerConfig W.
Variable hooks : AgentRunnerHooks.
Variable executingAgent : option (ConfigurableAgentTool W).
Variable toolSchemas : list ToolSchema.
Variable toolMap : gmap string (RegisteredTool W).

Local Abbreviation body :=
  (iterationBody run_rec config hooks executingAgent toolSchemas toolMap).
Local Abbreviation the_loop :=
  (loop run_rec args config hooks executingAgent toolSchemas toolMap).
Local Abbreviation after := (afterLoop run_rec args config hooks executingAgent).
Local Abbreviation tool_rounds := (rounds config toolSchemas toolMap).

Lemma loop_enters (fuel iteration : nat) (messages : list ChatMessage) :
  below iteration (maxIterations config) = true ->
  the_loop (S fuel) iteration messages
  = let* outcome := body iteration messages in
    match outcome with
    | Continue messages => the_loop fuel (S iteration) messages
    | Return r messages e =>
        ret {| result := r;
               iterations := S iteration;
               messageLog := messages;
               ending := e |}
    end.
Proof. intros Hbelow. cbn [loop]. rewrite Hbelow. reflexivity. Qed.

Lemma loop_leaves (fuel iteration : nat) (messages : list ChatMessage) :
  below iteration (maxIterations config) = false ->
  the_loop fuel iteration messages = after iteration messages.
Proof. intros Hbelow. destruct fuel; cbn [loop]; rewrite Hbelow; reflexivity. Qed.

(** An iteration in which the model calls a registered tool that is not
    a handoff tool, up to the outcome of the tool. *)
Lemma ordinary_tool_executed (iteration : nat) (messages : list ChatMessage)
    (w w1 w2 w3 w4 : W)
    (currentSystemPrompt : string) (llmResponse : UnifiedLLMResponse)
    (toolName : string) (toolArgs : JSValue) (toolCallId : string)
    (toolToExecute : RegisteredTool W) (outcome : Completion JSValue) :
  enhancePromptWithPageContext
    (systemPrompt config +:+ iterationInfo iteration (maxIterations config)) w
  = (currentSystemPrompt, w1) ->
  llm_call (llmRequest config toolSchemas currentSystemPrompt messages) w1
  = (Normal llmResponse, w2) ->
  llm_parseResponse llmResponse = tool_call (JString toolName) toolArgs ->
  randomUUID w2 = (toolCallId, w3) ->
  toolMap !! toolName = Some toolToExecute ->
  handoffTarget toolName toolToExecute = None ->
  execute (tool_of toolToExecute) toolArgs w3 = (outcome, w4) ->
  body iteration messages w
  = let log := messages ++ [newToolMessage llmResponse (JString toolName) toolArgs
                              toolCallId] in
    match executedToolMessage toolName toolCallId outcome with
    | Normal toolResult => Some (Normal (Continue (log ++ [toolResult])), w4)
    | Throw error =>
        match thrown_text error with
        | Some text =>
            let errorMsg := "Agent loop error: " +:+ text in
            Some (Normal (Return
                            (createErrorResult hooks errorMsg
                               (log ++ [systemErrorMessage errorMsg]) reason_error)
                            (log ++ [systemErrorMessage errorMsg]) EndLoopError), w4)
        | None => Some (Throw (type_error (reading_message error)), w4)
        end
    end.
Proof.
  intros Hprompt Hcall Hparse Huuid Hlookup Hordinary Hexec.
  unfold iterationBody; unfold_run.
  rewrite Hprompt, Hcall, Hparse. cbn [processAction].
  unfold processToolCall; unfold_run. rewrite Huuid, Hlookup, Hordinary.
  unfold regularTool; unfold_run. rewrite Hexec.
  destruct (executedToolMessage toolName toolCallId outcome) as [toolResult|error];
    [reflexivity|].
  destruct (thrown_text error); reflexivity.
Qed.

(** An iteration in which the model calls a registered tool that is not
    a handoff tool and the outcome of the tool is recorded: the loop
    goes on. *)
Lemma ordinary_tool_continues (iteration : nat) (messages : list ChatMessage)
    (w w1 w2 w3 w4 : W)
    (currentSystemPrompt : string) (llmResponse : UnifiedLLMResponse)
    (toolName : string) (toolArgs : JSValue) (toolCallId : string)
    (toolToExecute : RegisteredTool W) (outcome : Completion JSValue)
    (toolResult : ChatMessage) :
  enhancePromptWithPageContext
    (systemPrompt config +:+ iterationInfo iteration (maxIterations config)) w
  = (currentSystemPrompt, w1) ->
  llm_call (llmRequest config toolSchemas currentSystemPrompt messages) w1
  = (Normal llmResponse, w2) ->
  llm_parseResponse llmResponse = tool_call (JString toolName) toolArgs ->
  randomUUID w2 = (toolCallId, w3) ->
  toolMap !! toolName = Some toolToExecute ->
  handoffTarget toolName toolToExecute = None ->
  execute (tool_of toolToExecute) toolArgs w3 = (outcome, w4) ->
  executedToolMessage toolName toolCallId outcome = Normal toolResult ->
  body iteration messages w
  = Some (Normal
            (Continue
               (messages ++ [newToolMessage llmResponse (JString toolName) toolArgs
                               toolCallId;
                             toolResult])), w4).
Proof.
  intros Hprompt Hcall Hparse Huuid Hlookup Hordinary Hexec Hrecorded.
  rewrite (ordinary_tool_executed _ _ _ _ _ _ _ _ _ _ _ _ _ _
             Hprompt Hcall Hparse Huuid Hlookup Hordinary Hexec).
  cbv zeta. rewrite Hrecorded, <- app_assoc. reflexivity.
Qed.

(** C8.  When the call of the model rejects with [null] or [undefined]
    ([Promise.reject()]), the handler of the failure itself throws, on
    reading [error.message]: nothing is added to the log, no result is
    returned, and the run rejects with that [TypeError]. *)
Theorem gateway_rejecting_null_rejects_run (fuel iteration : nat)
    (messages : list ChatMessage) (w w1 w2 : W)
    (currentSystemPrompt : string) (error : Thrown) :
  below iteration (maxIterations config) = true ->
  enhancePromptWithPageContext
    (systemPrompt config +:+ iterationInfo iteration (maxIterations config)) w
  = (currentSystemPrompt, w1) ->
  llm_call (llmRequest config toolSchemas currentSystemPrompt messages) w1
  = (Throw error, w2) ->
  error = thrown_null \/ error = thrown_undefined ->
  body iteration messages w = Some (Throw (type_error (reading_message error)), w2)
  /\ the_loop (S fuel) iteration messages w
     = Some (Throw (type_error (reading_message error)), w2).
Proof.
  intros Hbelow Hprompt Hcall Herror.
  assert (Hbody : body iteration messages w
                  = Some (Throw (type_error (reading_message error)), w2)).
  { unfold iterationBody; unfold_run.
    rewrite Hprompt, Hcall, (thrown_text_unreadable error Herror). reflexivity. }
  split; [exact Hbody|].
  rewrite (loop_enters _ _ _ Hbelow). unfold bind at 1. rewrite Hbody. reflexivity.
Qed.

(** X24.  When the call of the model throws a value of which [message]
    can be read (any value but [null] and [undefined]), the iteration
    adds one synthetic error tool result to the log,
    named [system_error] and without [toolCallId], and the run returns
    the error result of the hook at once: the world it leaves is the
    world that the failed call left, so nothing is called again, and no
    further iteration is entered. *)
Theorem readable_gateway_failure_ends_run (fuel iteration : nat)
    (messages : list ChatMessage) (w w1 w2 : W)
    (currentSystemPrompt : string) (error : Thrown) :
  below iteration (maxIterations config) = true ->
  enhancePromptWithPageContext
    (systemPrompt config +:+ iterationInfo iteration (maxIterations config)) w
  = (currentSystemPrompt, w1) ->
  llm_call (llmRequest config toolSchemas currentSystemPrompt messages) w1
  = (Throw error, w2) ->
  error <> thrown_null ->
  error <> thrown_undefined ->
  exists message text,
    error = thrown_value message text
    /\ let errorMsg := "LLM call failed: " +:+ (if nonempty message then message else text) in
       let log :=
         messages ++ [ToolResult {| tr_toolName := "system_error";
                                    resultText := JString errorMsg;
                                    isError := true;
                                    tr_toolCallId := None;
                                    tr_error := Some (JString errorMsg);
                                    resultData := None |}] in
       body iteration messages w
       = Some (Normal (Return (createErrorResult hooks errorMsg log reason_error) log
                         EndGatewayError), w2)
       /\ the_loop (S fuel) iteration messages w
          = Some (Normal {| result := createErrorResult hooks errorMsg log reason_error;
                            iterations := S iteration;
                            messageLog := log;
                            ending := EndGatewayError |}, w2).
Proof.
  intros Hbelow Hprompt Hcall Hnull Hundefined.
  destruct error as [| |message text]; [congruence|congruence|].
  exists message, text. split; [reflexivity|]. intros errorMsg log.
  assert (Hbody : body iteration messages w
                  = Some (Normal (Return (createErrorResult hooks errorMsg log reason_error)
                                    log EndGatewayError), w2)).
  { unfold iterationBody; unfold_run.
    rewrite Hprompt, Hcall. reflexivity. }
  split; [exact Hbody|].
  rewrite (loop_enters _ _ _ Hbelow). unfold bind at 1. rewrite Hbody. reflexivity.
Qed.

(** C6.  When the model calls a registered tool that is not a handoff
    tool and the tool throws [null] or [undefined], the [catch] around
    the tool itself throws, on reading [err.message]: the tool call gets
    no tool result, the outer handler adds a [system_error] result, and
    the run returns the error result of the hook after this iteration:
    the tool failure alone ends the run with an error. *)
Theorem tool_throwing_null_ends_run (fuel iteration : nat)
    (messages : list ChatMessage) (w w1 w2 w3 w4 : W)
    (currentSystemPrompt : string) (llmResponse : UnifiedLLMResponse)
    (toolName : string) (toolArgs : JSValue) (toolCallId : string)
    (toolToExecute : RegisteredTool W) (error : Thrown) :
  below iteration (maxIterations config) = true ->
  enhancePromptWithPageContext
    (systemPrompt config +:+ iterationInfo iteration (maxIterations config)) w
  = (currentSystemPrompt, w1) ->
  llm_call (llmRequest config toolSchemas currentSystemPrompt messages) w1
  = (Normal llmResponse, w2) ->
  llm_parseResponse llmResponse = tool_call (JString toolName) toolArgs ->
  randomUUID w2 = (toolCallId, w3) ->
  toolMap !! toolName = Some toolToExecute ->
  handoffTarget toolName toolToExecute = None ->
  execute (tool_of toolToExecute) toolArgs w3 = (Throw error, w4) ->
  error = thrown_null \/ error = thrown_undefined ->
  let fault := fault_message (reading_message error) in
  let errorMsg :=
    "Agent loop error: " +:+ (if nonempty fault then fault else "TypeError") in
  let log :=
    messages ++ [newToolMessage llmResponse (JString toolName) toolArgs toolCallId;
                 ToolResult {| tr_toolName := "system_error";
                               resultText := JString errorMsg;
                               isError := true;
                               tr_toolCallId := None;
                               tr_error := Some (JString errorMsg);
                               resultData := None |}] in
  body iteration messages w
  = Some (Normal (Return (createErrorResult hooks errorMsg log reason_error) log
                    EndLoopError), w4)
  /\ the_loop (S fuel) iteration messages w
     = Some (Normal {| result := createErrorResult hooks errorMsg log reason_error;
                       iterations := S iteration;
                       messageLog := log;
                       ending := EndLoopError |}, w4).
Proof.
  intros Hbelow Hprompt Hcall Hparse Huuid Hlookup Hordinary Hexec Herror
    fault errorMsg log.
  assert (Hbody : body iteration messages w
                  = Some (Normal (Return (createErrorResult hooks errorMsg log reason_error)
                                    log EndLoopError), w4)).
  { rewrite (ordinary_tool_executed _ _ _ _ _ _ _ _ _ _ _ _ _ _
               Hprompt Hcall Hparse Huuid Hlookup Hordinary Hexec).
    cbv zeta. rewrite (executedToolMessage_fault _ _ _ Herror).
    subst log errorMsg fault. unfold type_error, thrown_text.
    destruct (nonempty (fault_message (reading_message error)));
      rewrite <- app_assoc; reflexivity. }
  split; [exact Hbody|].
  rewrite (loop_enters _ _ _ Hbelow). unfold bind at 1. rewrite Hbody. reflexivity.
Qed.

(** X23.  When the model calls a registered tool that is not a handoff
    tool and the tool throws a value other than [null] and [undefined],
    or returns a failure value (an object with a truthy [error] field or
    with [success: false]), the iteration adds the tool call and an
    error tool result of the same [toolCallId] to the log and does not
    return: the loop goes on with the next iteration.  The text of the
    result of a throw is [Error during tool execution: ] followed by the
    message of the value thrown, or by its string form when it has no
    message. *)
Theorem recorded_tool_failure_continues (fuel iteration : nat)
    (messages : list ChatMessage) (w w1 w2 w3 w4 : W)
    (currentSystemPrompt : string) (llmResponse : UnifiedLLMResponse)
    (requested : string) (requestedArgs : JSValue) (callId : string)
    (toolToExecute : RegisteredTool W) (outcome : Completion JSValue) :
  below iteration (maxIterations config) = true ->
  enhancePromptWithPageContext
    (systemPrompt config +:+ iterationInfo iteration (maxIterations config)) w
  = (currentSystemPrompt, w1) ->
  llm_call (llmRequest config toolSchemas currentSystemPrompt messages) w1
  = (Normal llmResponse, w2) ->
  llm_parseResponse llmResponse = tool_call (JString requested) requestedArgs ->
  randomUUID w2 = (callId, w3) ->
  toolMap !! requested = Some toolToExecute ->
  handoffTarget requested toolToExecute = None ->
  execute (tool_of toolToExecute) requestedArgs w3 = (outcome, w4) ->
  is_failure outcome = true ->
  outcome <> Throw thrown_null ->
  outcome <> Throw thrown_undefined ->
  exists m r,
    let log := messages ++ [ModelMessage m; ToolResult r] in
    action m = ActionTool
    /\ toolName m = JString requested
    /\ toolArgs m = requestedArgs
    /\ toolCallId m = Some callId
    /\ tr_toolName r = requested
    /\ tr_toolCallId r = Some callId
    /\ isError r = true
    /\ tr_error r = Some (resultText r)
    /\ (forall message text,
           outcome = Throw (thrown_value message text) ->
           resultText r
           = JString ("Error during tool execution: "
                        +:+ (if nonempty message then message else text)))
    /\ body iteration messages w = Some (Normal (Continue log), w4)
    /\ the_loop (S fuel) iteration messages w = the_loop fuel (S iteration) log w4.
Proof.
  intros Hbelow Hprompt Hcall Hparse Huuid Hlookup Hordinary Hexec Hfail
    Hnull Hundefined.
  destruct (executedToolMessage_recorded requested callId outcome Hnull Hundefined)
    as (toolResultText & toolIsError & toolResultData & Hrecorded & Herror).
  rewrite (Herror Hfail) in Hrecorded.
  pose proof (ordinary_tool_continues _ _ _ _ _ _ _ _ _ _ _ _ _ _ _
                Hprompt Hcall Hparse Huuid Hlookup Hordinary Hexec Hrecorded) as Hbody.
  unfold newToolMessage, toolResultMessage in Hbody.
  match type of Hbody with
  | _ = Some (Normal (Continue (_ ++ [ModelMessage ?m; ToolResult ?r])), _) =>
      exists m, r
  end.
  cbv zeta. cbn [action toolName toolArgs toolCallId tr_toolName tr_toolCallId isError
                   tr_error resultText].
  split; [reflexivity|]. split; [reflexivity|]. split; [reflexivity|].
  split; [reflexivity|]. split; [reflexivity|]. split; [reflexivity|].
  split; [reflexivity|]. split; [reflexivity|]. split; [|split; [exact Hbody|]].
  - intros message text ->. cbn in Hrecorded. injection Hrecorded as <- _.
    reflexivity.
  - rewrite (loop_enters _ _ _ Hbelow). unfold bind at 1. rewrite Hbody. reflexivity.
Qed.

Lemma afterLoop_iterations (iteration : nat) (messages : list ChatMessage)
    (w w' : W) (trace : RunTrace) :
  after iteration messages w = Some (Normal trace, w') ->
  iterations trace = iteration /\ messageLog trace = messages
  /\ (ending trace = EndMaxIterations \/ ending trace = EndMaxIterationsHandoff).
Proof.
  unfold afterLoop, bind, ret.
  destruct (List.find is_max_iterations_trigger (agentHandoffs executingAgent));
    destruct executingAgent; try (intros [= <- <-]; cbn; auto).
  destruct (executeHandoff _ _ _ _ _ _ _ _ _ _ _ _ w) as [[[r|e] w1]|];
    [|discriminate|discriminate].
  intros [= <- <-]. cbn. auto.
Qed.

Lemma loop_iterations_bound (bound : nat) :
  iteration_bound (maxIterations config) = Some bound ->
  forall (fuel iteration : nat) (messages : list ChatMessage) (w w' : W)
         (trace : RunTrace),
    the_loop fuel iteration messages w = Some (Normal trace, w') ->
    iterations trace <= Nat.max iteration bound.
Proof.
  intros Hbound fuel.
  pose proof (below_iteration_bound _ _ Hbound) as Hbelow.
  induction fuel as [|fuel IH]; intros iteration messages w w' trace;
    destruct (below iteration (maxIterations config)) eqn:Htest.
  - cbn [loop]. rewrite Htest. discriminate.
  - rewrite (loop_leaves _ _ _ Htest). intros Hafter.
    apply afterLoop_iterations in Hafter as [-> _]. lia.
  - rewrite (loop_enters _ _ _ Htest). unfold bind at 1.
    apply Hbelow in Htest.
    destruct (body iteration messages w) as [[[[r log e|log]|error] w1]|];
      [| |discriminate|discriminate].
    + unfold ret. intros [= <- <-]. cbn. lia.
    + intros Hloop. apply IH in Hloop. lia.
  - rewrite (loop_leaves _ _ _ Htest). intros Hafter.
    apply afterLoop_iterations in Hafter as [-> _]. lia.
Qed.

(** The loop does not use more fuel than the iterations that its test
    admits. *)
Lemma loop_fuel_enough (bound : nat) :
  iteration_bound (maxIterations config) = Some bound ->
  forall (fuel iteration : nat) (messages : list ChatMessage) (w : W),
    bound <= iteration + fuel ->
    the_loop fuel iteration messages w
    = the_loop (bound - iteration) iteration messages w.
Proof.
  intros Hbound fuel.
  pose proof (below_iteration_bound _ _ Hbound) as Hbelow.
  induction fuel as [|fuel IH]; intros iteration messages w Hfuel;
    destruct (below iteration (maxIterations config)) eqn:Htest;
    try (rewrite !(loop_leaves _ _ _ Htest); reflexivity).
  - apply Hbelow in Htest. lia.
  - pose proof Htest as Hlt. apply Hbelow in Hlt.
    replace (bound - iteration) with (S (bound - S iteration)) by lia.
    rewrite !(loop_enters _ _ _ Htest). unfold bind.
    destruct (body iteration messages w) as [[[[r log e|log]|error] w1]|];
      try reflexivity.
    apply IH. lia.
Qed.

Lemma rounds_loop (n : nat) (iteration : nat) (messages : list ChatMessage) (w : W)
    (log : list ChatMessage) (w' : W) :
  tool_rounds n iteration messages w log w' ->
  (forall i, i < iteration + n -> below i (maxIterations config) = true) ->
  forall fuel,
    the_loop (n + fuel) iteration messages w
    = the_loop fuel (iteration + n) log w'.
Proof.
  induction 1 as [iteration messages w|
                  n iteration messages w prompt w1 resp w2 toolName toolArgs callId w3
                    tool outcome w4 toolResult log w' Hprompt Hcall Hparse Huuid Hlookup
                    Hordinary Hexec Hrecorded Hrounds IH];
    intros Hbelow fuel.
  - rewrite Nat.add_0_r. reflexivity.
  - cbn [Nat.add]. rewrite (loop_enters _ _ _ (Hbelow iteration ltac:(lia))).
    unfold bind at 1.
    rewrite (ordinary_tool_continues _ _ _ _ _ _ _ _ _ _ _ _ _ _ _
               Hprompt Hcall Hparse Huuid Hlookup Hordinary Hexec Hrecorded).
    rewrite IH; [f_equal; lia|].
    intros i Hi. apply Hbelow. lia.
Qed.

Lemma rounds_length (n : nat) (iteration : nat) (messages : list ChatMessage) (w : W)
    (log : list ChatMessage) (w' : W) :
  tool_rounds n iteration messages w log w' ->
  length log = length messages + 2 * n.
Proof.
  induction 1 as [|? ? ? ? ? ? ? ? ? ? ? ? ? ? ? ? ? ? ? ? ? ? ? ? ? ? ? IH].
  - lia.
  - rewrite IH, length_app. cbn. lia.
Qed.

Lemma iterationBody_log (iteration : nat) (messages : list ChatMessage) (w w1 : W)
    (outcome : IterationOutcome) :
  body iteration messages w = Some (Normal outcome, w1) ->
  match outcome with
  | Continue log =>
      exists m r callId,
        action m = ActionTool /\ toolCallId m = Some callId
        /\ tr_toolCallId r = Some callId
        /\ log = messages ++ [ModelMessage m; ToolResult r]
  | Return _ log e => exists tail, log = messages ++ tail /\ ending_tail e tail
  end.
Proof.
  unfold iterationBody; unfold_run.
  destruct (enhancePromptWithPageContext _ w) as [prompt w0].
  destruct (llm_call _ w0) as [[llmResponse|error] w2]; cbn [fst snd].
  2: { destruct (thrown_text error) as [text|]; [|discriminate].
       intros [= <- <-]. eexists. split; [reflexivity|]. cbn. eauto. }
  destruct (llm_parseResponse llmResponse) as [toolName toolArgs|answer|error];
    cbn [processAction].
  - unfold processToolCall; unfold_run.
    destruct (randomUUID w2) as [callId w3].
    assert (Hunknown : forall e (o : IterationOutcome) (w4 w' : W),
               match thrown_text e with
               | Some text =>
                   fun w4 : W =>
                   Some (Normal
                           (Return
                              (createErrorResult hooks ("Agent loop error: " +:+ text)
                                 ((messages
                                     ++ [newToolMessage llmResponse toolName toolArgs callId])
                                    ++ [systemErrorMessage ("Agent loop error: " +:+ text)])
                                 reason_error)
                              ((messages
                                  ++ [newToolMessage llmResponse toolName toolArgs callId])
                                 ++ [systemErrorMessage ("Agent loop error: " +:+ text)])
                              EndLoopError), w4)
               | None => fun w4 : W => Some (Throw (type_error (reading_message e)), w4)
               end w4 = Some (Normal o, w') ->
               match o with
               | Continue log =>
                   exists m r callId,
                   action m = ActionTool /\ toolCallId m = Some callId
                   /\ tr_toolCallId r = Some callId
                   /\ log = messages ++ [ModelMessage m; ToolResult r]
               | Return _ log e => exists tail, log = messages ++ tail /\ ending_tail e tail
               end).
    { intros e o w4 w'. destruct (thrown_text e) as [text|]; [|discriminate].
      intros [= <- <-]. eexists. split; [rewrite <- app_assoc; reflexivity|].
      cbn. eexists. right. eexists. split; [|reflexivity]. reflexivity. }
    destruct toolName as [| |b|n|name|items|props]; try apply Hunknown.
    destruct (toolMap !! name) as [toolToExecute|]; [|apply Hunknown].
    destruct (handoffTarget name toolToExecute) as [targetAgentTool|].
    + unfold toolCallHandoff; unfold_run.
      destruct (List.find _ (agentHandoffs executingAgent)) as [handoffConfig|];
        [|apply Hunknown].
      destruct executingAgent as [agent|]; [|apply Hunknown].
      destruct (executeHandoff _ _ _ _ _ _ _ _ _ _ _ _ w3) as [[[r|e] w4]|];
        [|apply Hunknown|discriminate].
      intros [= <- <-]. eexists. split; [reflexivity|]. cbn. eexists.
      split; [|reflexivity]. reflexivity.
    + unfold regularTool; unfold_run.
      destruct (execute (tool_of toolToExecute) toolArgs w3) as [toolOutcome w4].
      cbn [fst snd].
      destruct (executedToolMessage name callId toolOutcome) as [toolResult|e]
        eqn:Hrecorded; [|apply Hunknown].
      intros [= <- <-].
      destruct (executedToolMessage_callId _ _ _ _ Hrecorded) as (r & -> & Hr).
      eexists _, r, callId. rewrite <- app_assoc. unfold newToolMessage.
      split; [|split; [|split; [exact Hr|reflexivity]]]; reflexivity.
  - unfold ret. intros [= <- <-]. eexists. split; [reflexivity|].
    cbn. eexists. split; [|reflexivity]. reflexivity.
  - unfold ret. cbn [thrown_text new_Error]. intros [= <- <-]. eexists.
    split; [reflexivity|]. cbn. eexists. left. reflexivity.
Qed.

Lemma loop_log (fuel : nat) :
  forall (iteration : nat) (messages : list ChatMessage) (w w' : W) (trace : RunTrace),
    the_loop fuel iteration messages w = Some (Normal trace, w') ->
    exists pairs tail,
      messageLog trace = messages ++ pairs ++ tail
      /\ call_pairs pairs /\ ending_tail (ending trace) tail.
Proof.
  assert (Hafter : forall iteration messages w w' trace,
             after iteration messages w = Some (Normal trace, w') ->
             exists pairs tail,
               messageLog trace = messages ++ pairs ++ tail
               /\ call_pairs pairs /\ ending_tail (ending trace) tail).
  { intros iteration messages w w' trace. unfold afterLoop, bind, ret. intros Hafter.
    exists [], []. rewrite app_nil_r.
    destruct (List.find is_max_iterations_trigger (agentHandoffs executingAgent));
      destruct executingAgent;
      try (injection Hafter as <- <-; cbn; repeat split; constructor).
    destruct (executeHandoff _ _ _ _ _ _ _ _ _ _ _ _ w) as [[[r|e] w1]|];
      [|discriminate|discriminate].
    injection Hafter as <- <-. cbn. repeat split; constructor. }
  induction fuel as [|fuel IH]; intros iteration messages w w' trace;
    destruct (below iteration (maxIterations config)) eqn:Htest.
  - cbn [loop]. rewrite Htest. discriminate.
  - rewrite (loop_leaves _ _ _ Htest). apply Hafter.
  - rewrite (loop_enters _ _ _ Htest). unfold bind at 1.
    destruct (body iteration messages w) as [[[outcome|error] w1]|] eqn:Hbody;
      [|discriminate|discriminate].
    apply iterationBody_log in Hbody.
    destruct outcome as [r log e|log].
    + unfold ret. intros [= <- <-]. cbn.
      destruct Hbody as (tail & -> & Htail).
      exists [], tail. repeat split; [constructor|exact Htail].
    + destruct Hbody as (m & r & callId & Haction & Hcall & Hresult & ->).
      intros Hloop. apply IH in Hloop as (pairs & tail & Hlog & Hpairs & Htail).
      exists (ModelMessage m :: ToolResult r :: pairs), tail.
      split; [|split; [econstructor; eassumption|exact Htail]].
      rewrite Hlog, <- app_assoc. reflexivity.
  - rewrite (loop_leaves _ _ _ Htest). apply Hafter.
Qed.

End LoopFacts.

(** ** The pairing invariant over what the loop adds *)

Lemma results_before_next_model_app (callId : option string) (log : list ChatMessage)
    (m : ModelChatMessage) (rest : list ChatMessage) :
  results_before_next_model callId (log ++ ModelMessage m :: rest)
  = results_before_next_model callId log.
Proof.
  induction log as [|[text|m'|r] log IH]; cbn; congruence.
Qed.

Lemma tool_calls_answered_app (log : list ChatMessage) (m : ModelChatMessage)
    (rest : list ChatMessage) :
  tool_calls_answered (log ++ ModelMessage m :: rest)
  = tool_calls_answered log && tool_calls_answered (ModelMessage m :: rest).
Proof.
  induction log as [|[text|m'|r] log IH]; cbn [app tool_calls_answered andb];
    try exact IH; [reflexivity|].
  rewrite results_before_next_model_app, IH, andb_assoc. reflexivity.
Qed.

Lemma results_have_calls_app (log added : list ChatMessage) :
  (forall seen, results_have_calls seen added = true) ->
  forall seen, results_have_calls seen log = true ->
               results_have_calls seen (log ++ added) = true.
Proof.
  intros Hadded. induction log as [|[text|m|r] log IH]; intros seen; cbn.
  - intros _. apply Hadded.
  - apply IH.
  - apply IH.
  - rewrite !andb_true_iff. intros [Hseen Hlog]. split; [exact Hseen|apply IH, Hlog].
Qed.

Lemma call_pairs_head (pairs tail : list ChatMessage) :
  call_pairs pairs ->
  (tail = [] \/ exists m rest, tail = ModelMessage m :: rest) ->
  pairs ++ tail = [] \/ exists m rest, pairs ++ tail = ModelMessage m :: rest.
Proof.
  intros [|m r callId rest _ _ _ _] Htail; cbn; [exact Htail|].
  right. eauto.
Qed.

Lemma call_pairs_answered (pairs : list ChatMessage) :
  call_pairs pairs ->
  forall tail, (tail = [] \/ exists m, action m = ActionFinal /\ tail = [ModelMessage m]) ->
               tool_calls_answered (pairs ++ tail) = true.
Proof.
  induction 1 as [|m r callId rest Haction Hcall Hresult Hrest IH]; intros tail Htail.
  - destruct Htail as [->|(m & Hfinal & ->)]; cbn; [reflexivity|].
    rewrite Hfinal. reflexivity.
  - cbn [app tool_calls_answered]. rewrite Haction, (IH tail Htail), andb_true_r.
    cbn [results_before_next_model]. rewrite Hcall, Hresult. cbn [shares_id].
    rewrite String.eqb_refl.
    assert (Hhead : rest ++ tail = [] \/ exists m' l, rest ++ tail = ModelMessage m' :: l).
    { apply call_pairs_head; [exact Hrest|].
      destruct Htail as [->|(m' & _ & ->)]; eauto. }
    destruct Hhead as [->|(m' & l & ->)]; reflexivity.
Qed.

Lemma call_pairs_have_calls (pairs : list ChatMessage) :
  call_pairs pairs ->
  forall tail, (tail = [] \/ exists m, action m = ActionFinal /\ tail = [ModelMessage m]) ->
  forall seen, results_have_calls seen (pairs ++ tail) = true.
Proof.
  induction 1 as [|m r callId rest Haction Hcall Hresult Hrest IH]; intros tail Htail seen.
  - destruct Htail as [->|(m & Hfinal & ->)]; reflexivity.
  - cbn [app results_have_calls]. rewrite Haction, Hcall, Hresult.
    cbn [existsb shares_id]. rewrite String.eqb_refl. cbn [orb andb].
    apply IH, Htail.
Qed.

Lemma well_paired_addition (log pairs tail : list ChatMessage) :
  well_paired log = true ->
  call_pairs pairs ->
  (tail = [] \/ exists m, action m = ActionFinal /\ tail = [ModelMessage m]) ->
  well_paired (log ++ pairs ++ tail) = true.
Proof.
  unfold well_paired. rewrite !andb_true_iff. intros [Hanswered Hcalls] Hpairs Htail.
  split.
  - assert (Hhead : pairs ++ tail = []
                    \/ exists m rest, pairs ++ tail = ModelMessage m :: rest).
    { apply call_pairs_head; [exact Hpairs|].
      destruct Htail as [->|(m & _ & ->)]; eauto. }
    pose proof (call_pairs_answered pairs Hpairs tail Htail) as Hadded.
    destruct Hhead as [Hnil|(m & rest & Hcons)].
    + rewrite Hnil, app_nil_r. exact Hanswered.
    + rewrite Hcons in Hadded |- *. rewrite tool_calls_answered_app, Hanswered, Hadded.
      reflexivity.
  - apply results_have_calls_app; [|exact Hcalls].
    apply call_pairs_have_calls; assumption.
Qed.

(** ** The run *)

Lemma run_is_traced `{World} (depth : nat) initialMessages args config hooks executingAgent w :
  run depth initialMessages args config hooks executingAgent w
  = match run_traced depth initialMessages args config hooks executingAgent w with
    | Some (Normal trace, w') => Some (Normal (result trace), w')
    | Some (Throw e, w') => Some (Throw e, w')
    | None => None
    end.
Proof. destruct depth; reflexivity. Qed.

(** C9, as amended.  The test [iteration < maxIterations] of the loop
    admits [bound] iterations, [bound] being the least counter for which
    the test fails: [maxIterations] itself when it is a natural number,
    its ceiling when it is another positive number (the specification
    counts [maxIterations] iterations whatever the number), none when it
    is negative or [NaN].  A run enters the loop body at most [bound] times: the loop
    followed for more iterations is the loop followed for [bound]
    iterations, whether the run returns, rejects or hands off, and the
    trace of a run that returns counts at most [bound].  When in
    each of the [bound] iterations the model calls a registered tool that
    is not a handoff tool, and the tool returns or throws what the
    [catch] around it records, the log grows by two messages an
    iteration and the run ends after exactly [bound] iterations: without
    a [max_iterations] handoff rule with the error result of reason
    [max_iterations], with such a rule with the outcome of
    [executeHandoff] for that rule. *)
Theorem run_bounded_by_maxIterations `{World} (depth : nat)
    (initialMessages : list ChatMessage) (args : JSValue)
    (config : AgentRunnerConfig W) (hooks : AgentRunnerHooks)
    (executingAgent : option (ConfigurableAgentTool W)) (bound : nat) :
  let toolSchemas := fst (runSetup config executingAgent) in
  let toolMap := snd (runSetup config executingAgent) in
  let messages := preparedMessages hooks initialMessages in
  iteration_bound (maxIterations config) = Some bound ->
  (forall i, below i (maxIterations config) = true <-> i < bound) /\
  (forall n, maxIterations config = integer n -> bound = n) /\
  (forall q, maxIterations config = Finite q -> bound = Z.to_nat (Qceiling q)) /\
  (forall more w,
      loop (run_below depth) args config hooks executingAgent toolSchemas toolMap
        (bound + more) 0 messages w
      = loop (run_below depth) args config hooks executingAgent toolSchemas toolMap
          bound 0 messages w) /\
  (forall w trace w',
      run_traced depth initialMessages args config hooks executingAgent w
      = Some (Normal trace, w') ->
      iterations trace <= bound) /\
  (forall w log w',
      rounds config toolSchemas toolMap bound 0 messages w log w' ->
      length log = length messages + 2 * bound /\
      (List.find is_max_iterations_trigger (agentHandoffs executingAgent) = None ->
       run_traced depth initialMessages args config hooks executingAgent w
       = Some (Normal
                 {| result :=
                      createErrorResult hooks
                        ("Agent reached maximum iterations ("
                           +:+ number_String (maxIterations config) +:+ ")")
                        log reason_max_iterations;
                    iterations := bound;
                    messageLog := log;
                    ending := EndMaxIterations |}, w')) /\
      (forall maxIterHandoffConfig agent,
          List.find is_max_iterations_trigger (agentHandoffs executingAgent)
          = Some maxIterHandoffConfig ->
          executingAgent = Some agent ->
          run_traced depth initialMessages args config hooks executingAgent w
          = match
              executeHandoff (run_below depth) log args maxIterHandoffConfig agent
                (apiKey config) (modelName config) (maxIterations config)
                (default 0%Q (temperature config))
                (createSuccessResult hooks) (createErrorResult hooks) JUndefined w'
            with
            | Some (Normal handoffResult, w'') =>
                Some (Normal
                        {| result := handoffResult;
                           iterations := bound;
                           messageLog := log;
                           ending := EndMaxIterationsHandoff |}, w'')
            | Some (Throw error, w'') => Some (Throw error, w'')
            | None => None
            end)).
Proof.
  intros toolSchemas toolMap messages Hbound.
  pose proof (below_iteration_bound _ _ Hbound) as Hbelow.
  assert (Hleaves : below bound (maxIterations config) = false).
  { destruct (below bound (maxIterations config)) eqn:Htest; [|reflexivity].
    apply Hbelow in Htest. lia. }
  split; [exact Hbelow|]. split; [|split; [|split; [|split]]].
  - intros n Hn. rewrite Hn, iteration_bound_integer in Hbound. congruence.
  - intros q Hq. rewrite Hq in Hbound. cbn in Hbound. congruence.
  - intros more w.
    rewrite (loop_fuel_enough _ _ _ _ _ _ _ bound Hbound (bound + more) 0 messages w)
      by lia.
    rewrite Nat.sub_0_r. reflexivity.
  - intros w trace w' Hrun. unfold run_traced, run_trace in Hrun.
    apply (loop_iterations_bound _ _ _ _ _ _ _ bound Hbound) in Hrun. lia.
  - intros w log w' Hrounds. split; [|split].
    + apply (rounds_length _ _ _ _ _ _ _ _ _ Hrounds).
    + intros Hnone. unfold run_traced, run_trace. rewrite Hbound.
      change (default depth (Some bound)) with bound.
      pose proof (rounds_loop (run_below depth) args config hooks executingAgent
                    _ _ _ _ _ _ _ _ Hrounds
                    ltac:(intros i Hi; apply Hbelow; lia) 0) as Hloop.
      rewrite Nat.add_0_r in Hloop. fold toolSchemas toolMap messages.
      rewrite Hloop, (loop_leaves _ _ _ _ _ _ _ _ _ _ Hleaves).
      unfold afterLoop. rewrite Hnone. reflexivity.
    + intros rule agent Hsome ->. unfold run_traced, run_trace.
      rewrite Hbound. change (default depth (Some bound)) with bound.
      pose proof (rounds_loop (run_below depth) args config hooks (Some agent)
                    _ _ _ _ _ _ _ _ Hrounds
                    ltac:(intros i Hi; apply Hbelow; lia) 0) as Hloop.
      rewrite Nat.add_0_r in Hloop. fold toolSchemas toolMap messages.
      rewrite Hloop, (loop_leaves _ _ _ _ _ _ _ _ _ _ Hleaves).
      unfold afterLoop. rewrite Hsome.
      unfold bind, ret. cbn [Nat.add].
      destruct (executeHandoff _ _ _ _ _ _ _ _ _ _ _ _ w') as [[[r|e] w'']|];
        reflexivity.
Qed.

(** C1, as amended.  The log of a run is the prepared initial log, then
    tool calls each followed at once by the tool result of its
    [toolCallId], then an end that depends on how the run ended: a final
    answer; nothing at [maxIterations]; a synthetic [system_error] tool
    result without [toolCallId] after a failure of the model call or of
    the loop (after a tool call left without result when the tool is
    unknown); a [handoff_to_...] tool call left without result at a
    handoff.  So the pairing invariant holds of the final log when it
    holds of the prepared initial log and the run ends with a final
    answer or at [maxIterations] without handoff (the specification states it
    of every terminal run). *)
Theorem run_log_pairs `{World} (depth : nat)
    (initialMessages : list ChatMessage) (args : JSValue)
    (config : AgentRunnerConfig W) (hooks : AgentRunnerHooks)
    (executingAgent : option (ConfigurableAgentTool W))
    (w w' : W) (trace : RunTrace) :
  run_traced depth initialMessages args config hooks executingAgent w
  = Some (Normal trace, w') ->
  (exists pairs tail,
      messageLog trace = preparedMessages hooks initialMessages ++ pairs ++ tail
      /\ call_pairs pairs /\ ending_tail (ending trace) tail) /\
  (well_paired (preparedMessages hooks initialMessages) = true ->
   ending trace = EndFinalAnswer \/ ending trace = EndMaxIterations ->
   well_paired (messageLog trace) = true).
Proof.
  intros Hrun. unfold run_traced, run_trace in Hrun.
  apply loop_log in Hrun as (pairs & tail & Hlog & Hpairs & Htail).
  split; [eauto|].
  intros Hstart Hend. rewrite Hlog. apply well_paired_addition; [exact Hstart|exact Hpairs|].
  destruct Hend as [Hend|Hend]; rewrite Hend in Htail; cbn in Htail; auto.
Qed.

(** ** Handoffs *)

(** C5, as amended.  For a handoff to a registered target agent that
    completes, the steps of the returned result are decided by the
    target's [includeIntermediateStepsOnReturn] alone, whatever the
    delegating agent is: when it is [true] they are the history before
    the handoff followed by the steps of the target's result, and
    otherwise the returned result has no steps at all (the specification
    returns the target's history).  The other fields are those of the target's
    result, the termination reason being [handed_off] when the target set
    none. *)
Theorem handoff_steps_follow_target_flag `{World} (run_rec : RunFn)
    (currentMessages : list ChatMessage) (originalArgs : JSValue)
    (handoffConfig : HandoffConfig)
    (executingAgent otherAgent : ConfigurableAgentTool W)
    (apiKey defaultModelName : string) (defaultMaxIterations : JSNumber)
    (defaultTemperature : Q)
    (defaultCreateSuccessResult defaultCreateErrorResult : ResultHook)
    (llmToolArgs : JSValue) (targetAgentTool : ConfigurableAgentTool W)
    (w w' : W) (finalResult : ConfigurableAgentResult) :
  getRegisteredTool (targetAgentName handoffConfig) = Some (AgentTool targetAgentTool) ->
  executeHandoff run_rec currentMessages originalArgs handoffConfig executingAgent
    apiKey defaultModelName defaultMaxIterations defaultTemperature
    defaultCreateSuccessResult defaultCreateErrorResult llmToolArgs w
  = Some (Normal finalResult, w') ->
  executeHandoff run_rec currentMessages originalArgs handoffConfig otherAgent
    apiKey defaultModelName defaultMaxIterations defaultTemperature
    defaultCreateSuccessResult defaultCreateErrorResult llmToolArgs w
  = Some (Normal finalResult, w')
  /\ exists targetAgentArgs targetRunnerConfig targetRunnerHooks w0 handoffResult,
      run_rec (handoffMessages handoffConfig currentMessages) targetAgentArgs
        targetRunnerConfig targetRunnerHooks (Some targetAgentTool) w0
      = Some (Normal handoffResult, w')
      /\ intermediateSteps finalResult
         = match includeIntermediateStepsOnReturn (config targetAgentTool) with
           | Some true =>
               Some (currentMessages ++ default [] (intermediateSteps handoffResult))
           | Some false | None => None
           end
      /\ success finalResult = success handoffResult
      /\ output finalResult = output handoffResult
      /\ error finalResult = error handoffResult
      /\ terminationReason finalResult
         = Some (default reason_handed_off (terminationReason handoffResult)).
Proof.
  intros Htarget Hrun. split.
  - exact Hrun.
  - revert Hrun. unfold executeHandoff; unfold_run. rewrite Htarget.
    destruct (enhancePromptWithPageContext _ w) as [enhancedSystemPrompt w0].
    cbn [fst snd].
    match goal with
    | |- context [run_rec ?m ?a ?c ?h ?t ?w] =>
        destruct (run_rec m a c h t w) as [[[handoffResult|e] w1]|] eqn:Htargetrun;
        [|discriminate|discriminate];
        intros Hret; exists a, c, h, w0, handoffResult
    end.
    destruct (includeIntermediateStepsOnReturn (config targetAgentTool)) as [[]|];
      injection Hret as <- <-; cbn; auto 10.
Qed.





(** ** Concrete runs *)

(** C4.  A tool returns an object with an [imageData] field.  The tool
    result message that the run adds to the log has the object as
    [resultData], and its [resultText], the text shown to the model, is
    the stringification of the whole object: it contains the image
    payload.  The text that the sanitization scripts expect, the
    stringification of [sanitizeToolResultForText] of the object, has
    neither the field nor the payload. *)
Theorem tool_result_text_keeps_imageData :
  exists trace w' r shownText sanitized sanitizedText,
    run_traced (H := plainWorld) 0 [UserMessage "click"] JNull
      (runnerConfig [PlainTool perform_action] 1) stepHooks None
      (start [Normal (call_response "perform_action" (JObject []))])
    = Some (Normal trace, w')
    /\ messageLog trace !! 2 = Some (ToolResult r)
    /\ resultText r = JString shownText
    /\ includes shownText imagePayload = true
    /\ resultData r = Some screenshotData
    /\ sanitizeToolResultForText screenshotData = Some sanitized
    /\ JSON_stringify2 sanitized = Some sanitizedText
    /\ includes sanitizedText "imageData" = false
    /\ includes sanitizedText imagePayload = false.
Proof.
  eexists _, _, _, _, _, _. vm_compute. repeat split; reflexivity.
Qed.

(** Scenarios of the specification: a single turn, and one tool round
    trip (two iterations, a log of four messages). *)
Example scenario_single_turn :
  run_traced (H := plainWorld) 0 [UserMessage "2+2?"] JNull (runnerConfig [] 3)
    stepHooks None (start [Normal (text_response "4")])
  = Some (Normal
            {| result :=
                 successWithSteps "4" [UserMessage "2+2?"; finalMessage "4"]
                   reason_final_answer;
               iterations := 1;
               messageLog := [UserMessage "2+2?"; finalMessage "4"];
               ending := EndFinalAnswer |}, start []).
Proof. vm_compute. reflexivity. Qed.

Example scenario_tool_round_trip :
  run_traced (H := plainWorld) 0 [UserMessage "2+2?"] JNull
    (runnerConfig [PlainTool calc] 3) stepHooks None
    (start [Normal (call_response "calc" (JObject [])); Normal (text_response "4")])
  = Some (Normal calcTrace, {| responses := []; uuids := 1 |})
  /\ length calcLog = 4.
Proof. vm_compute. split; reflexivity. Qed.

(** The call of the model rejects with [undefined]: the loop, and the
    run, reject with the [TypeError] of the handler. *)
Lemma gateway_rejecting_null_witness :
  loop (H := plainWorld) (run_below 0) JNull (runnerConfig [] 3) stepHooks None [] ∅
    3 0 [UserMessage "hi"] (start [Throw thrown_undefined])
  = Some (Throw
            (thrown_value "Cannot read properties of undefined (reading 'message')"
               "TypeError: Cannot read properties of undefined (reading 'message')"),
          start []).
Proof.
  exact (proj2 (gateway_rejecting_null_rejects_run (H := plainWorld) (run_below 0) JNull
                  (runnerConfig [] 3) stepHooks None [] ∅ 2 0 [UserMessage "hi"]
                  (start [Throw thrown_undefined]) _ _ _ _ eq_refl eq_refl eq_refl
                  (or_intror eq_refl))).
Defined.

Lemma run_rejects_with_the_gateway :
  run (H := plainWorld) 0 [UserMessage "hi"] JNull (runnerConfig [] 3)
    stepHooks None (start [Throw thrown_undefined])
  = Some (Throw
            (thrown_value "Cannot read properties of undefined (reading 'message')"
               "TypeError: Cannot read properties of undefined (reading 'message')"),
          start []).
Proof. vm_compute. reflexivity. Qed.

Lemma readable_gateway_failure_witness :
  loop (H := plainWorld) (run_below 0) JNull (runnerConfig [] 3) stepHooks None [] ∅
    3 0 [UserMessage "hi"] (start [Throw (new_Error "503")])
  = Some (Normal gatewayDownTrace, start []).
Proof.
  destruct (readable_gateway_failure_ends_run (H := plainWorld) (run_below 0) JNull
              (runnerConfig [] 3) stepHooks None [] ∅ 2 0 [UserMessage "hi"]
              (start [Throw (new_Error "503")]) _ _ _ _ eq_refl eq_refl eq_refl
              ltac:(discriminate) ltac:(discriminate))
    as (message & text & Herror & _ & Hloop).
  injection Herror as <- <-. exact Hloop.
Defined.

(** The tool [flaky] rejects with [null]; the model would answer at its
    next call.  The run ends after the first iteration with the error
    result, the tool call left without tool result, and the model is not
    called again. *)
Lemma tool_throwing_null_witness :
  loop (H := plainWorld) (run_below 0) JNull
    (runnerConfig [PlainTool (rejecting "flaky")] 3) stepHooks None []
    (initialToolMap (H := plainWorld) [PlainTool (rejecting "flaky")])
    3 0 [UserMessage "try"]
    (start [Normal (call_response "flaky" (JObject [])); Normal (text_response "done")])
  = Some (Normal
            {| result :=
                 errorWithSteps
                   "Agent loop error: Cannot read properties of null (reading 'message')"
                   [UserMessage "try"; toolCallMessage "flaky" "call-0";
                    systemErrorMessage
                      "Agent loop error: Cannot read properties of null (reading 'message')"]
                   reason_error;
               iterations := 1;
               messageLog :=
                 [UserMessage "try"; toolCallMessage "flaky" "call-0";
                  systemErrorMessage
                    "Agent loop error: Cannot read properties of null (reading 'message')"];
               ending := EndLoopError |},
          {| responses := [Normal (text_response "done")]; uuids := 1 |}).
Proof.
  refine (proj2 (tool_throwing_null_ends_run (H := plainWorld) (run_below 0) JNull
                   (runnerConfig [PlainTool (rejecting "flaky")] 3) stepHooks None []
                   (initialToolMap (H := plainWorld) [PlainTool (rejecting "flaky")])
                   2 0 [UserMessage "try"]
                   (start [Normal (call_response "flaky" (JObject []));
                           Normal (text_response "done")])
                   _ _ _ _ _ (call_response "flaky" (JObject [])) "flaky" (JObject [])
                   "call-0" (PlainTool (rejecting "flaky")) thrown_null
                   eq_refl eq_refl eq_refl eq_refl eq_refl _ eq_refl eq_refl
                   (or_introl eq_refl))).
  vm_compute. reflexivity.
Defined.

Lemma run_ends_when_tool_throws_null :
  exists trace,
    run_traced (H := plainWorld) 0 [UserMessage "try"] JNull
      (runnerConfig [PlainTool (rejecting "flaky")] 3) stepHooks None
      (start [Normal (call_response "flaky" (JObject [])); Normal (text_response "done")])
    = Some (Normal trace, {| responses := [Normal (text_response "done")]; uuids := 1 |})
    /\ success (result trace) = false
    /\ terminationReason (result trace) = Some reason_error
    /\ iterations trace = 1
    /\ messageLog trace
       = [UserMessage "try"; toolCallMessage "flaky" "call-0";
          systemErrorMessage
            "Agent loop error: Cannot read properties of null (reading 'message')"].
Proof. eexists. vm_compute. repeat split; reflexivity. Qed.

Lemma recorded_tool_failure_witness :
  exists m r,
    isError r = true
    /\ tr_toolCallId r = Some "call-0"
    /\ iterationBody (H := plainWorld) (run_below 0)
         (runnerConfig [PlainTool failing] 3) stepHooks None []
         (initialToolMap (H := plainWorld) [PlainTool failing]) 0 [UserMessage "try"]
         (start [Normal (call_response "failing" (JObject []))])
       = Some (Normal (Continue ([UserMessage "try"] ++ [ModelMessage m; ToolResult r])),
               {| responses := []; uuids := 1 |}).
Proof.
  destruct (recorded_tool_failure_continues (H := plainWorld) (run_below 0) JNull
              (runnerConfig [PlainTool failing] 3) stepHooks None []
              (initialToolMap (H := plainWorld) [PlainTool failing]) 2 0 [UserMessage "try"]
              (start [Normal (call_response "failing" (JObject []))])
              (start [Normal (call_response "failing" (JObject []))])
              (start []) {| responses := []; uuids := 1 |}
              {| responses := []; uuids := 1 |}
              _ (call_response "failing" (JObject [])) "failing" (JObject []) "call-0"
              (PlainTool failing) (Normal (JObject [("error", JString "x")]))
              eq_refl eq_refl eq_refl eq_refl eq_refl)
    as (m & r & _ & _ & _ & _ & _ & Hid & Herror & _ & _ & Hbody & _);
    [vm_compute; reflexivity|reflexivity|reflexivity|reflexivity|discriminate
    |discriminate|].
  exists m, r. split; [exact Herror|]. split; [exact Hid|exact Hbody].
Defined.

Lemma run_bounded_witness :
  run_traced (H := plainWorld) 0 [UserMessage "go"] JNull
    (runnerConfig [PlainTool noop] 3) stepHooks None (start noopCalls)
  = Some (Normal
            {| result :=
                 errorWithSteps "Agent reached maximum iterations (3)" noopRoundsLog
                   reason_max_iterations;
               iterations := 3;
               messageLog := noopRoundsLog;
               ending := EndMaxIterations |}, {| responses := []; uuids := 3 |}).
Proof.
  refine (proj1 (proj2 (proj2 (proj2 (proj2 (proj2 (proj2
            (run_bounded_by_maxIterations (H := plainWorld) 0 [UserMessage "go"] JNull
               (runnerConfig [PlainTool noop] 3) stepHooks None 3 eq_refl)))))
            (start noopCalls) noopRoundsLog {| responses := []; uuids := 3 |} _))
            eq_refl).
  do 3 (eapply rounds_step;
        [reflexivity|reflexivity|reflexivity|reflexivity|vm_compute; reflexivity
        |reflexivity|reflexivity|reflexivity|]).
  apply rounds_done.
Defined.

(** With [maxIterations = 2.5] the loop body is entered three times. *)
Lemma run_exceeds_fractional_maxIterations :
  run_traced (H := plainWorld) 0 [UserMessage "go"] JNull
    (numberedConfig [PlainTool noop] (Finite (5 # 2))) stepHooks None (start noopCalls)
  = Some (Normal
            {| result :=
                 errorWithSteps "Agent reached maximum iterations (2.5)" noopRoundsLog
                   reason_max_iterations;
               iterations := 3;
               messageLog := noopRoundsLog;
               ending := EndMaxIterations |}, {| responses := []; uuids := 3 |})
  /\ (5 # 2 < inject_Z 3)%Q.
Proof. split; vm_compute; reflexivity. Qed.

Lemma run_log_pairs_witness : well_paired calcLog = true.
Proof.
  refine (proj2 (run_log_pairs (H := plainWorld) 0 [UserMessage "2+2?"] JNull
                   (runnerConfig [PlainTool calc] 3) stepHooks None
                   (start [Normal (call_response "calc" (JObject []));
                           Normal (text_response "4")])
                   {| responses := []; uuids := 1 |} calcTrace _)
            eq_refl (or_introl eq_refl)).
  vm_compute. reflexivity.
Defined.

(** A run that ends on a failure of the model call leaves a tool result
    that no tool call precedes; a handoff leaves the [handoff_to_B] tool
    call without tool result, in the log at the handoff and in the steps
    of the result. *)
Lemma run_log_unpaired :
  (well_paired [UserMessage "hi"] = true /\
   run_traced (H := plainWorld) 0 [UserMessage "hi"] JNull (runnerConfig [] 3)
     stepHooks None (start [Throw (new_Error "503")])
   = Some (Normal gatewayDownTrace, start []) /\
   results_have_calls [] (messageLog gatewayDownTrace) = false /\
   well_paired (messageLog gatewayDownTrace) = false) /\
  (run (H := worldB (Some true)) 1 [UserMessage "hi"] JNull (runnerConfig [] 3)
     stepHooks (Some (agentA "B" None))
     (start [Normal (call_response "handoff_to_B" (JObject []));
             Normal (text_response "done")])
   = Some (Normal
             {| success := true; output := Some "done"; error := None;
                intermediateSteps :=
                  Some (handedOffLog ++ handedOffLog ++ [finalMessage "done"]);
                terminationReason := Some reason_final_answer |},
           {| responses := []; uuids := 1 |}) /\
   tool_calls_answered handedOffLog = false /\
   tool_calls_answered (handedOffLog ++ handedOffLog ++ [finalMessage "done"]) = false).
Proof. vm_compute. repeat split; reflexivity. Qed.

Lemma handoff_steps_witness :
  exists handoffResult,
    intermediateSteps handoffResult = Some (handedOffLog ++ [finalMessage "done"]) /\
    executeHandoff (H := worldB (Some true)) (run 0) handedOffLog (JObject [])
      (handoffTo "B" None) (agentA "B" None) "key" "gpt" (integer 3) 0%Q
      successWithSteps errorWithSteps (JObject []) (start [Normal (text_response "done")])
    = Some (Normal
              {| success := true; output := Some "done"; error := None;
                 intermediateSteps :=
                   Some (handedOffLog ++ default [] (intermediateSteps handoffResult));
                 terminationReason := Some reason_final_answer |}, start []).
Proof.
  destruct (handoff_steps_follow_target_flag (H := worldB (Some true)) (run 0)
              handedOffLog (JObject []) (handoffTo "B" None) (agentA "B" None)
              (agentA "B" None) "key" "gpt" (integer 3) 0%Q successWithSteps
              errorWithSteps
              (JObject []) (agent "B" [] (Some true))
              (start [Normal (text_response "done")]) (start [])
              {| success := true; output := Some "done"; error := None;
                 intermediateSteps :=
                   Some (handedOffLog ++ handedOffLog ++ [finalMessage "done"]);
                 terminationReason := Some reason_final_answer |}
              eq_refl)
    as (Hsame & _).
  - vm_compute. reflexivity.
  - exists (successWithSteps "done" (handedOffLog ++ [finalMessage "done"])
              reason_final_answer).
    split; [reflexivity|exact Hsame].
Defined.

(** The target agent [B] does not set the flag: its own result carries
    its history, and the result returned by the handoff has no steps. *)
Lemma handoff_without_flag_returns_no_log :
  includeIntermediateStepsOnReturn (config (agent "B" [] None)) = None /\
  run (H := worldB None) 0 handedOffLog (JObject []) (runnerConfig [] 3)
    stepHooks (Some (agent "B" [] None)) (start [Normal (text_response "done")])
  = Some (Normal
            (successWithSteps "done" (handedOffLog ++ [finalMessage "done"])
               reason_final_answer), start []) /\
  executeHandoff (H := worldB None) (run 0) handedOffLog (JObject [])
    (handoffTo "B" None) (agentA "B" None) "key" "gpt" (integer 3) 0%Q
    successWithSteps errorWithSteps (JObject []) (start [Normal (text_response "done")])
  = Some (Normal
            {| success := true; output := Some "done"; error := None;
               intermediateSteps := None;
               terminationReason := Some reason_final_answer |}, start []).
Proof. vm_compute. repeat split; reflexivity. Qed.

(** ** The messages sent to the model *)

Lemma convertToLLMMessages_app (a b : list ChatMessage) :
  convertToLLMMessages (a ++ b) = convertToLLMMessages a ++ convertToLLMMessages b.
Proof. unfold convertToLLMMessages. apply flat_map_app. Qed.

Lemma nonempty_truthy (s : string) : truthy (JString s) = nonempty s.
Proof. reflexivity. Qed.

(** X1.  [convertToLLMMessages] sends at most one message for each
    message of the log, and every message it sends is well formed: a user
    message carries no tool call; an assistant message is a text that is
    not empty, or one tool call with an identifier that is not empty and
    no content; a tool message answers an identifier that is not empty
    with a content that is truthy. *)
Theorem convertToLLMMessages_wire (messages : list ChatMessage) :
  length (convertToLLMMessages messages) <= length messages
  /\ forall m, In m (convertToLLMMessages messages) -> wire_ok m.
Proof.
  induction messages as [|msg messages [IHlen IHin]]; [split; [cbn; lia|intros m []]|].
  change (msg :: messages) with ([msg] ++ messages).
  rewrite convertToLLMMessages_app, length_app.
  assert (Hone : length (convertToLLMMessages [msg]) <= 1
                 /\ forall m, In m (convertToLLMMessages [msg]) -> wire_ok m).
  { unfold convertToLLMMessages. cbn [flat_map]. rewrite app_nil_r.
    destruct msg as [text|modelMsg|toolResult].
    - split; [cbn; lia|]. intros m [<-|[]]. cbn. auto.
    - destruct (action modelMsg) eqn:Haction, (answer modelMsg) as [a|] eqn:Hanswer,
        (toolCallId modelMsg) as [callId|] eqn:Hcall;
        try (split; [cbn; lia|intros m []]).
      + destruct (nonempty callId) eqn:Hid; [|split; [cbn; lia|intros m []]].
        split; [cbn; lia|]. intros m [<-|[]]. cbn.
        split; [reflexivity|]. right. split; [reflexivity|].
        eexists. split; [reflexivity|]. cbn. apply nonempty_true. exact Hid.
      + destruct (nonempty callId) eqn:Hid; [|split; [cbn; lia|intros m []]].
        split; [cbn; lia|]. intros m [<-|[]]. cbn.
        split; [reflexivity|]. right. split; [reflexivity|].
        eexists. split; [reflexivity|]. cbn. apply nonempty_true. exact Hid.
      + destruct (nonempty a) eqn:Ha; [|split; [cbn; lia|intros m []]].
        split; [cbn; lia|]. intros m [<-|[]]. cbn -[truthy].
        split; [reflexivity|]. left. split; [reflexivity|exact Ha].
      + destruct (nonempty a) eqn:Ha; [|split; [cbn; lia|intros m []]].
        split; [cbn; lia|]. intros m [<-|[]]. cbn -[truthy].
        split; [reflexivity|]. left. split; [reflexivity|exact Ha].
    - destruct (tr_toolCallId toolResult) as [callId|];
        [|split; [cbn; lia|intros m []]].
      destruct (nonempty callId && truthy (resultText toolResult)) eqn:Hkeep;
        [|split; [cbn; lia|intros m []]].
      apply andb_true_iff in Hkeep as [Hid Htext].
      split; [cbn; lia|]. intros m [<-|[]]. cbn -[truthy].
      split; [reflexivity|]. split; [exact Htext|].
      eexists. split; [reflexivity|]. apply nonempty_true. exact Hid. }
  destruct Hone as [Hlen Hin]. split; [cbn [length app]; lia|].
  intros m Hm. apply in_app_or in Hm as [Hm|Hm]; auto.
Qed.

(** X2.  The synthetic [system_error] tool result that the two [catch]
    blocks of the loop push carries no [toolCallId], so
    [convertToLLMMessages] drops it: the model is sent the same messages
    with it as without it.  The same holds of every tool result without
    [toolCallId]. *)
Theorem system_errors_not_sent (log : list ChatMessage) (errorMsg : string)
    (r : ToolResultMessage) :
  convertToLLMMessages (log ++ [systemErrorMessage errorMsg]) = convertToLLMMessages log
  /\ (tr_toolCallId r = None ->
      convertToLLMMessages (log ++ [ToolResult r]) = convertToLLMMessages log).
Proof.
  split.
  - rewrite convertToLLMMessages_app. cbn. apply app_nil_r.
  - intros Hnone. rewrite convertToLLMMessages_app. cbn. rewrite Hnone. apply app_nil_r.
Qed.

(** *** The text of a tool result is empty for two results only *)

Lemma pretty_N_go_length (x : N) :
  forall s, String.length s <= String.length (pretty_N_go x s).
Proof.
  induction (N.lt_wf_0 x) as [x _ IH]; intros s.
  destruct (decide (x = 0)%N) as [->|Hpos].
  - rewrite pretty_N_go_0. lia.
  - rewrite pretty_N_go_step by lia.
    etransitivity; [|apply IH; apply N.div_lt; lia]. cbn. lia.
Qed.

Lemma pretty_N_nonempty (x : N) : pretty x <> "".
Proof.
  unfold pretty, pretty_N. destruct (decide (x = 0)%N) as [->|Hpos]; [discriminate|].
  rewrite pretty_N_go_step by lia. intros Hempty.
  pose proof (pretty_N_go_length (x `div` 10)
                (String (pretty_N_char (x `mod` 10)) "")) as Hlen.
  rewrite Hempty in Hlen. cbn in Hlen. lia.
Qed.

Lemma pretty_Z_nonempty (n : Z) : pretty n <> "".
Proof.
  destruct n as [|p|p].
  - discriminate.
  - apply (pretty_N_nonempty (N.pos p)).
  - discriminate.
Qed.

Lemma stringify_at_nonempty (gap indent : string) (v : JSValue) :
  v <> JUndefined ->
  exists s, stringify_at gap indent v = Some s /\ s <> "".
Proof.
  intros Hdef.
  destruct v as [| |[]|n|s|items|props]; try congruence; cbn [stringify_at].
  1-3: eexists; split; [reflexivity|discriminate].
  - eexists. split; [reflexivity|apply pretty_Z_nonempty].
  - eexists. split; [reflexivity|]. unfold quote. cbn. discriminate.
  - eexists. split; [reflexivity|].
    destruct (List.map _ items); [discriminate|].
    destruct (String.eqb gap ""); cbn; discriminate.
  - eexists. split; [reflexivity|].
    destruct (flat_map _ props); [discriminate|].
    destruct (String.eqb gap ""); cbn; discriminate.
Qed.

Lemma js_or_truthy_l (a b : JSValue) : truthy a = true -> truthy (js_or a b) = true.
Proof. unfold js_or. intros Ha. rewrite Ha. exact Ha. Qed.

Lemma js_or_truthy_r (a b : JSValue) : truthy b = true -> truthy (js_or a b) = true.
Proof. unfold js_or. destruct (truthy a) eqn:Ha; auto. Qed.

Lemma readToolResult_text_falsy (v : JSValue) (toolResultText : JSValue)
    (toolIsError : bool) :
  readToolResult v = Some (toolResultText, toolIsError) ->
  truthy toolResultText = false ->
  v = JString "" \/ v = JUndefined.
Proof.
  intros Hread Hfalsy.
  assert (Hjson : v <> JUndefined ->
                  exists s, JSON_stringify2 v = Some s /\ truthy (JString s) = true).
  { intros Hdef. destruct (stringify_at_nonempty "  " "" v Hdef) as (s & Hs & Hne).
    exists s. split; [exact Hs|]. cbn. apply nonempty_true in Hne. exact Hne. }
  unfold readToolResult, stringifiedResult, hasOwnProperty in Hread.
  destruct v as [| |b|n|s|items|props].
  - auto.
  - destruct (Hjson ltac:(discriminate)) as (s & Hs & Htruthy).
    cbn [is_object] in Hread. rewrite Hs in Hread. injection Hread as <- <-.
    congruence.
  - destruct (Hjson ltac:(discriminate)) as (s & Hs & Htruthy).
    cbn [is_object] in Hread. rewrite Hs in Hread. injection Hread as <- <-.
    congruence.
  - destruct (Hjson ltac:(discriminate)) as (s & Hs & Htruthy).
    cbn [is_object] in Hread. rewrite Hs in Hread. injection Hread as <- <-.
    congruence.
  - cbn in Hread. injection Hread as <- <-. cbn in Hfalsy.
    left. apply negb_false_iff, String.eqb_eq in Hfalsy. congruence.
  - destruct (Hjson ltac:(discriminate)) as (s & Hs & Htruthy).
    cbn [is_object has_own_property andb mbind option_bind] in Hread.
    rewrite Hs in Hread. injection Hread as <- <-. congruence.
  - destruct (Hjson ltac:(discriminate)) as (s & Hs & Htruthy).
    cbn [is_object] in Hread. rewrite Hs in Hread.
    destruct (has_own_property (JObject props) "hasOwnProperty"); [discriminate|].
    cbn [mbind option_bind] in Hread.
    assert (Htext : truthy toolResultText = true).
    { destruct (has_own_property _ "error" && truthy (member _ "error")) eqn:Herr.
      - injection Hread as <- <-. apply andb_true_iff in Herr as [_ Herr].
        apply js_or_truthy_l, Herr.
      - destruct (has_own_property _ "success" && _); injection Hread as <- <-;
          [|exact Htruthy].
        apply js_or_truthy_r, js_or_truthy_r, Htruthy. }
    congruence.
Qed.

Lemma toolExecutionFailure_text `{World} (err : Thrown) (toolResultText : JSValue)
    (toolIsError : bool) (toolResultData : JSValue) :
  toolExecutionFailure err = Normal (toolResultText, toolIsError, toolResultData) ->
  truthy toolResultText = true.
Proof.
  unfold toolExecutionFailure. destruct (thrown_text err); [|discriminate].
  intros [= <- _ _]. reflexivity.
Qed.

Lemma toolExecutionResult_text_falsy `{World} (outcome : Completion JSValue)
    (toolResultText : JSValue) (toolIsError : bool) (toolResultData : JSValue) :
  toolExecutionResult outcome = Normal (toolResultText, toolIsError, toolResultData) ->
  truthy toolResultText = false
  <-> outcome = Normal (JString "") \/ outcome = Normal JUndefined.
Proof.
  unfold toolExecutionResult. destruct outcome as [v|err].
  - destruct (readToolResult v) as [[text isErr]|] eqn:Hread.
    + intros [= <- <- <-]. split.
      * intros Hfalsy.
        destruct (readToolResult_text_falsy v text isErr Hread Hfalsy) as [->| ->]; auto.
      * intros [[= ->]|[= ->]]; cbn in Hread; injection Hread as <- _; reflexivity.
    + intros Hfailure. apply toolExecutionFailure_text in Hfailure.
      split; [congruence|].
      intros [[= ->]|[= ->]]; discriminate Hread.
  - intros Hfailure. apply toolExecutionFailure_text in Hfailure.
    split; [congruence|intros [|]; discriminate].
Qed.

Lemma toolExecutionResult_fault `{World} (outcome : Completion JSValue) (error : Thrown) :
  toolExecutionResult outcome = Throw error ->
  outcome = Throw thrown_null \/ outcome = Throw thrown_undefined.
Proof.
  unfold toolExecutionResult, toolExecutionFailure. destruct outcome as [v|err].
  - destruct (readToolResult v) as [[text isErr]|]; discriminate.
  - destruct err; cbn; auto. discriminate.
Qed.

(** X3.  What an executed tool call is to the model at its next call.
    The two messages that the iteration added, when the outcome of the
    tool was recorded, are sent as the assistant's tool call followed by
    the tool message with the text of the outcome, both under the
    identifier of the call; but when the tool returned the empty string
    or [undefined] the text is empty or absent, and the tool call is
    sent without any answer.  The outcome is not recorded only when the
    tool threw [null] or [undefined]. *)
Theorem tool_round_on_the_wire `{World} (llmResponse : UnifiedLLMResponse)
    (toolName : string) (toolArgs : JSValue) (toolCallId : string)
    (outcome : Completion JSValue) :
  toolCallId <> "" ->
  match toolExecutionResult outcome with
  | Normal (toolResultText, toolIsError, toolResultData) =>
      executedToolMessage toolName toolCallId outcome
      = Normal (toolResultMessage toolName toolCallId toolResultText toolIsError
                  toolResultData)
      /\ convertToLLMMessages
           [newToolMessage llmResponse (JString toolName) toolArgs toolCallId;
            toolResultMessage toolName toolCallId toolResultText toolIsError
              toolResultData]
         = {| role := role_assistant; content := JUndefined;
              tool_calls :=
                [{| call_id := toolCallId;
                    call_name := js_or (JString toolName) (JString "");
                    arguments := JSON_stringify (js_or toolArgs (JObject [])) |}];
              tool_call_id := None |}
           :: match outcome with
              | Normal (JString "") | Normal JUndefined => []
              | _ => [{| role := role_tool; content := toolResultText;
                         tool_calls := []; tool_call_id := Some toolCallId |}]
              end
  | Throw error =>
      executedToolMessage toolName toolCallId outcome = Throw error
      /\ (outcome = Throw thrown_null \/ outcome = Throw thrown_undefined)
  end.
Proof.
  intros Hid. apply nonempty_true in Hid.
  destruct (toolExecutionResult outcome)
    as [[[toolResultText toolIsError] toolResultData]|error] eqn:Hresult.
  - pose proof (toolExecutionResult_text_falsy _ _ _ _ Hresult) as Hfalsy.
    split; [unfold executedToolMessage; rewrite Hresult; reflexivity|].
    unfold convertToLLMMessages, newToolMessage, toolResultMessage.
    cbn -[truthy js_or JSON_stringify]. rewrite Hid. cbn [andb app].
    f_equal.
    destruct (truthy toolResultText) eqn:Htext.
    + destruct outcome as [[| | | |[|c s]| |]|]; try reflexivity;
        exfalso; destruct Hfalsy as [_ Hfalsy];
        (discriminate Hfalsy; auto).
    + destruct Hfalsy as [Hfalsy _]. destruct (Hfalsy eq_refl) as [->| ->]; reflexivity.
  - split; [unfold executedToolMessage; rewrite Hresult; reflexivity|].
    exact (toolExecutionResult_fault _ _ Hresult).
Qed.

(** ** The tools offered to the model and the tool map *)

Section Setup.

Context `{World}.

Lemma names_agree_insert (toolSchemas : list ToolSchema)
    (toolMap : gmap string (RegisteredTool W)) (s : ToolSchema) (tool : RegisteredTool W) :
  names_agree (toolSchemas, toolMap) ->
  names_agree (toolSchemas ++ [s], <[fn_name s := tool]> toolMap).
Proof.
  intros Hagree toolName. cbn [fst snd]. rewrite lookup_insert_is_Some.
  specialize (Hagree toolName). cbn [fst snd] in Hagree. split.
  - intros [<-|[_ Hin]].
    + exists s. split; [apply in_or_app; right; left; reflexivity|reflexivity].
    + apply Hagree in Hin as (s' & Hin & Hname). exists s'.
      split; [apply in_or_app; left; exact Hin|exact Hname].
  - intros (s' & Hin & Hname). apply in_app_or in Hin as [Hin|[<-|[]]].
    + destruct (decide (fn_name s = toolName)) as [|Hne]; [left; assumption|].
      right. split; [exact Hne|]. apply Hagree. eauto.
    + left. exact Hname.
Qed.

Lemma names_agree_tools (tools : list (RegisteredTool W)) :
  forall toolSchemas toolMap,
    names_agree (toolSchemas, toolMap) ->
    names_agree
      (toolSchemas ++ List.map toolSchemaOf tools,
       fold_left (fun toolMap tool => <[name (tool_of tool) := tool]> toolMap)
         tools toolMap).
Proof.
  induction tools as [|tool tools IH]; intros toolSchemas toolMap Hagree; cbn.
  - rewrite app_nil_r. exact Hagree.
  - change (toolSchemas ++ toolSchemaOf tool :: List.map toolSchemaOf tools)
      with (toolSchemas ++ [toolSchemaOf tool] ++ List.map toolSchemaOf tools).
    rewrite app_assoc. apply IH.
    apply (names_agree_insert toolSchemas toolMap (toolSchemaOf tool) tool Hagree).
Qed.

Lemma names_agree_handoffs (handoffs : list HandoffConfig) :
  forall acc, names_agree acc -> names_agree (addHandoffTools handoffs acc).
Proof.
  unfold addHandoffTools.
  induction handoffs as [|handoffConfig handoffs IH]; intros [toolSchemas toolMap] Hagree;
    cbn [fold_left]; [exact Hagree|].
  apply IH.
  destruct (is_llm_trigger handoffConfig); [|exact Hagree].
  destruct (getRegisteredTool (targetAgentName handoffConfig)) as [[tool|targetTool]|];
    try exact Hagree.
  match goal with
  | |- names_agree (_ ++ [?s], _) =>
      apply (names_agree_insert toolSchemas toolMap s (AgentTool targetTool) Hagree)
  end.
Qed.

Lemma runSetup_names_agree (config : AgentRunnerConfig W)
    (executingAgent : option (ConfigurableAgentTool W)) :
  names_agree (runSetup config executingAgent).
Proof.
  unfold runSetup. apply names_agree_handoffs.
  apply (names_agree_tools (tools config) [] ∅).
  intros toolName. cbn. rewrite lookup_empty. split.
  - intros [x Hx]. discriminate.
  - intros (s & [] & _).
Qed.

(** X4.  After the set-up of a run, a name resolves in the tool map
    exactly when a schema of that name is offered to the model. *)
Theorem offered_tools_resolve (config : AgentRunnerConfig W)
    (executingAgent : option (ConfigurableAgentTool W)) (toolName : string) :
  is_Some (snd (runSetup config executingAgent) !! toolName)
  <-> exists s, In s (fst (runSetup config executingAgent)) /\ fn_name s = toolName.
Proof. apply runSetup_names_agree. Qed.

(** The handoff tool of a rule stays in the tool map. *)
Lemma handoffToolName_inj (a b : string) :
  handoffToolName a = handoffToolName b -> a = b.
Proof. unfold handoffToolName. cbn. intros [= Heq]. exact Heq. Qed.

Lemma addHandoffTools_keeps (handoffs : list HandoffConfig) (target : string)
    (targetTool : ConfigurableAgentTool W) :
  getRegisteredTool target = Some (AgentTool targetTool) ->
  forall acc,
    snd acc !! handoffToolName target = Some (AgentTool targetTool) ->
    snd (addHandoffTools handoffs acc) !! handoffToolName target
    = Some (AgentTool targetTool).
Proof.
  intros Htarget. unfold addHandoffTools.
  induction handoffs as [|handoffConfig handoffs IH]; intros [toolSchemas toolMap] Hacc;
    cbn [fold_left]; [exact Hacc|].
  apply IH.
  destruct (is_llm_trigger handoffConfig); [|exact Hacc].
  destruct (getRegisteredTool (targetAgentName handoffConfig)) as [[tool|other]|] eqn:Hother;
    try exact Hacc.
  cbn [snd] in *.
  destruct (decide (targetAgentName handoffConfig = target)) as [Heq|Hne].
  - rewrite Heq in *. rewrite lookup_insert_eq. congruence.
  - rewrite lookup_insert_ne; [exact Hacc|].
    intros Hname. apply handoffToolName_inj in Hname. contradiction.
Qed.

Lemma addHandoffTools_adds (handoffs : list HandoffConfig) (handoffConfig : HandoffConfig)
    (targetTool : ConfigurableAgentTool W) :
  In handoffConfig handoffs ->
  is_llm_trigger handoffConfig = true ->
  getRegisteredTool (targetAgentName handoffConfig) = Some (AgentTool targetTool) ->
  forall acc,
    snd (addHandoffTools handoffs acc) !! handoffToolName (targetAgentName handoffConfig)
    = Some (AgentTool targetTool).
Proof.
  intros Hin Htrigger Htarget.
  induction handoffs as [|first handoffs IH]; intros [toolSchemas toolMap]; [destruct Hin|].
  destruct Hin as [->|Hin].
  - unfold addHandoffTools. cbn [fold_left]. rewrite Htrigger, Htarget.
    apply (addHandoffTools_keeps handoffs _ _ Htarget). cbn. apply lookup_insert_eq.
  - unfold addHandoffTools. cbn [fold_left]. apply (IH Hin).
Qed.

End Setup.

(** ** Ends of an iteration *)

Lemma executeHandoff_not_agent `{World} (handoffConfig : HandoffConfig) :
  (forall a, getRegisteredTool (targetAgentName handoffConfig) <> Some (AgentTool a)) ->
  forall run_rec currentMessages originalArgs executingAgent apiKey defaultModelName
         defaultMaxIterations defaultTemperature defaultCreateSuccessResult
         defaultCreateErrorResult llmToolArgs w,
    executeHandoff run_rec currentMessages originalArgs handoffConfig executingAgent
      apiKey defaultModelName defaultMaxIterations defaultTemperature
      defaultCreateSuccessResult defaultCreateErrorResult llmToolArgs w
    = Some (Normal
              (defaultCreateErrorResult
                 (missingTargetText (targetAgentName handoffConfig))
                 currentMessages reason_error), w).
Proof.
  intros Hmissing **. unfold executeHandoff.
  destruct (getRegisteredTool (targetAgentName handoffConfig)) as [[tool|a]|] eqn:Htarget;
    try reflexivity.
  destruct (Hmissing a eq_refl).
Qed.

Lemma prefix_append (p s : string) : String.prefix p (p +:+ s) = true.
Proof.
  induction p as [|c p IH]; [destruct s; reflexivity|].
  change (String c p +:+ s) with (String c (p +:+ s)).
  change (String.prefix (String c p) (String c (p +:+ s)))
    with (if ascii_dec c c then String.prefix p (p +:+ s) else false).
  destruct (ascii_dec c c); [exact IH|congruence].
Qed.

Section Iteration.

Context `{World}.
Variable run_rec : RunFn.
Variable args : JSValue.
Variable config : AgentRunnerConfig W.
Variable hooks : AgentRunnerHooks.
Variable executingAgent : option (ConfigurableAgentTool W).

Local Abbreviation toolSchemas := (fst (runSetup config executingAgent)).
Local Abbreviation toolMap := (snd (runSetup config executingAgent)).
Local Abbreviation body :=
  (iterationBody run_rec config hooks executingAgent toolSchemas toolMap).

(** X5.  When the model asks for a tool whose name is not among the
    schemas offered, the iteration records the call, adds one system
    error, and the run returns the error result [Agent loop error: Agent
    requested unknown tool: ...]: no tool is executed, and the world is
    the one left by drawing the identifier of the call. *)
Theorem unknown_tool_ends_run (iteration : nat) (messages : list ChatMessage)
    (w w1 w2 w3 : W) (currentSystemPrompt : string) (llmResponse : UnifiedLLMResponse)
    (toolName : string) (toolArgs : JSValue) (toolCallId : string) :
  enhancePromptWithPageContext
    (systemPrompt config +:+ iterationInfo iteration (maxIterations config)) w
  = (currentSystemPrompt, w1) ->
  llm_call (llmRequest config toolSchemas currentSystemPrompt messages) w1
  = (Normal llmResponse, w2) ->
  llm_parseResponse llmResponse = tool_call (JString toolName) toolArgs ->
  randomUUID w2 = (toolCallId, w3) ->
  (forall s, In s toolSchemas -> fn_name s <> toolName) ->
  let errorMsg := "Agent loop error: Agent requested unknown tool: " +:+ toolName in
  let log :=
    messages ++ [newToolMessage llmResponse (JString toolName) toolArgs toolCallId;
                 systemErrorMessage errorMsg] in
  body iteration messages w
  = Some (Normal (Return (createErrorResult hooks errorMsg log reason_error) log
                    EndLoopError), w3).
Proof.
  intros Hprompt Hcall Hparse Huuid Hnot errorMsg log.
  assert (Hlookup : toolMap !! toolName = None).
  { apply eq_None_not_Some. intros Hsome.
    apply (runSetup_names_agree config executingAgent) in Hsome as (s & Hin & Hname).
    exact (Hnot s Hin Hname). }
  unfold iterationBody; unfold_run. rewrite Hprompt, Hcall, Hparse. cbn [processAction].
  unfold processToolCall; unfold_run. rewrite Huuid, Hlookup.
  subst log errorMsg. cbn [thrown_text new_Error nonempty negb String.eqb String.append].
  rewrite <- app_assoc. reflexivity.
Qed.

(** X6.  When the model calls the handoff tool of a rule of the
    executing agent whose target is registered under its own name, the
    handoff replaces the rest of the run: the iteration records the call
    and returns what [executeHandoff] returns for the first rule of that
    target, called with the log and with the arguments of the call.
    When [executeHandoff] rejects, the handler of the loop takes over:
    the run returns the error result [Agent loop error: ...], or rejects
    when the value thrown is [null] or [undefined]. *)
Theorem handoff_call_replaces_run (iteration : nat) (messages : list ChatMessage)
    (w w1 w2 w3 : W) (currentSystemPrompt : string) (llmResponse : UnifiedLLMResponse)
    (handoffConfig : HandoffConfig) (agent targetAgentTool : ConfigurableAgentTool W)
    (toolArgs : JSValue) (toolCallId : string) :
  executingAgent = Some agent ->
  In handoffConfig (agentHandoffs executingAgent) ->
  is_llm_trigger handoffConfig = true ->
  getRegisteredTool (targetAgentName handoffConfig) = Some (AgentTool targetAgentTool) ->
  name (agent_tool targetAgentTool) = targetAgentName handoffConfig ->
  enhancePromptWithPageContext
    (systemPrompt config +:+ iterationInfo iteration (maxIterations config)) w
  = (currentSystemPrompt, w1) ->
  llm_call (llmRequest config toolSchemas currentSystemPrompt messages) w1
  = (Normal llmResponse, w2) ->
  llm_parseResponse llmResponse
  = tool_call (JString (handoffToolName (targetAgentName handoffConfig))) toolArgs ->
  randomUUID w2 = (toolCallId, w3) ->
  let log :=
    messages ++ [newToolMessage llmResponse
                   (JString (handoffToolName (targetAgentName handoffConfig)))
                   toolArgs toolCallId] in
  exists firstConfig,
    List.find
      (fun h => String.eqb (targetAgentName h) (targetAgentName handoffConfig)
                && is_llm_trigger h)
      (agentHandoffs executingAgent) = Some firstConfig
    /\ body iteration messages w
       = match
           executeHandoff run_rec log toolArgs firstConfig agent
             (apiKey config) (modelName config) (maxIterations config)
             (default 0%Q (temperature config))
             (createSuccessResult hooks) (createErrorResult hooks) toolArgs w3
         with
         | Some (Normal handoffResult, w4) =>
             Some (Normal (Return handoffResult log EndToolHandoff), w4)
         | Some (Throw error, w4) =>
             match thrown_text error with
             | Some text =>
                 let errorMsg := "Agent loop error: " +:+ text in
                 Some (Normal
                         (Return
                            (createErrorResult hooks errorMsg
                               (log ++ [systemErrorMessage errorMsg]) reason_error)
                            (log ++ [systemErrorMessage errorMsg]) EndLoopError), w4)
             | None => Some (Throw (type_error (reading_message error)), w4)
             end
         | None => None
         end.
Proof.
  intros Hagent Hin Htrigger Htarget Hname Hprompt Hcall Hparse Huuid log.
  assert (Hlookup : toolMap !! handoffToolName (targetAgentName handoffConfig)
                    = Some (AgentTool targetAgentTool)).
  { unfold runSetup. apply addHandoffTools_adds; assumption. }
  destruct (List.find
              (fun h => String.eqb (targetAgentName h) (targetAgentName handoffConfig)
                        && is_llm_trigger h)
              (agentHandoffs executingAgent)) as [firstConfig|] eqn:Hfind.
  2: { exfalso. apply (find_none _ _ Hfind) in Hin.
       rewrite String.eqb_refl, Htrigger in Hin. discriminate. }
  exists firstConfig. split; [reflexivity|].
  unfold iterationBody; unfold_run. rewrite Hprompt, Hcall, Hparse. cbn [processAction].
  unfold processToolCall; unfold_run. rewrite Huuid, Hlookup.
  unfold handoffTarget, startsWith, handoffToolName.
  rewrite prefix_append.
  cbn [asConfigurableAgentTool]. unfold toolCallHandoff; unfold_run.
  rewrite Hname, Hfind, Hagent. fold log.
  destruct (executeHandoff _ _ _ _ _ _ _ _ _ _ _ _ w3) as [[[handoffResult|error] w4]|];
    try reflexivity.
  destruct (thrown_text error); reflexivity.
Qed.

(** X7.  The handoff tool is named after the target of the rule, but
    its call is matched against the [name] of the agent found.  When the
    agent registered under the target name has a [name] that no rule
    names, the handoff tool is offered to the model, and calling it ends
    the run with the internal error [No matching 'llm_tool_call' handoff
    config found]. *)
Theorem handoff_tool_of_renamed_agent (iteration : nat) (messages : list ChatMessage)
    (w w1 w2 w3 : W) (currentSystemPrompt : string) (llmResponse : UnifiedLLMResponse)
    (handoffConfig : HandoffConfig) (targetAgentTool : ConfigurableAgentTool W)
    (toolArgs : JSValue) (toolCallId : string) :
  In handoffConfig (agentHandoffs executingAgent) ->
  is_llm_trigger handoffConfig = true ->
  getRegisteredTool (targetAgentName handoffConfig) = Some (AgentTool targetAgentTool) ->
  (forall h, In h (agentHandoffs executingAgent) -> is_llm_trigger h = true ->
             targetAgentName h <> name (agent_tool targetAgentTool)) ->
  enhancePromptWithPageContext
    (systemPrompt config +:+ iterationInfo iteration (maxIterations config)) w
  = (currentSystemPrompt, w1) ->
  llm_call (llmRequest config toolSchemas currentSystemPrompt messages) w1
  = (Normal llmResponse, w2) ->
  llm_parseResponse llmResponse
  = tool_call (JString (handoffToolName (targetAgentName handoffConfig))) toolArgs ->
  randomUUID w2 = (toolCallId, w3) ->
  let toolName := handoffToolName (targetAgentName handoffConfig) in
  let errorMsg :=
    "Agent loop error: Internal error: No matching 'llm_tool_call' handoff config found for "
      +:+ toolName in
  let log :=
    messages ++ [newToolMessage llmResponse (JString toolName) toolArgs toolCallId;
                 systemErrorMessage errorMsg] in
  (exists s, In s toolSchemas /\ fn_name s = toolName)
  /\ body iteration messages w
     = Some (Normal (Return (createErrorResult hooks errorMsg log reason_error) log
                       EndLoopError), w3).
Proof.
  intros Hin Htrigger Htarget Hrenamed Hprompt Hcall Hparse Huuid toolName errorMsg log.
  assert (Hlookup : toolMap !! toolName = Some (AgentTool targetAgentTool)).
  { unfold runSetup. apply addHandoffTools_adds; assumption. }
  split.
  { apply (runSetup_names_agree config executingAgent). rewrite Hlookup. eauto. }
  assert (Hfind : List.find
                    (fun h => String.eqb (targetAgentName h)
                                (name (agent_tool targetAgentTool))
                              && is_llm_trigger h)
                    (agentHandoffs executingAgent) = None).
  { destruct (List.find _ _) as [h|] eqn:Hfound; [|reflexivity].
    apply find_some in Hfound as [Hh Hmatch].
    apply andb_true_iff in Hmatch as [Heq Hllm]. apply String.eqb_eq in Heq.
    destruct (Hrenamed h Hh Hllm Heq). }
  subst log errorMsg toolName.
  unfold iterationBody; unfold_run. rewrite Hprompt, Hcall, Hparse. cbn [processAction].
  unfold processToolCall; unfold_run. rewrite Huuid, Hlookup.
  unfold handoffTarget, startsWith, handoffToolName.
  rewrite prefix_append.
  cbn [asConfigurableAgentTool]. unfold toolCallHandoff; unfold_run.
  rewrite Hfind. cbn [thrown_text new_Error nonempty negb String.eqb String.append].
  rewrite <- app_assoc. reflexivity.
Qed.

End Iteration.

(** ** A response without content *)

(** X8.  With [UnifiedLLMClient.parseResponse] as the parser, a
    response that has no function call and no text, or the empty text,
    ends the run: the iteration adds one system error to the log and
    returns the error result [Agent loop error: No valid response from
    LLM]. *)
Theorem empty_response_ends_run `{World} (parse : string -> option JSValue)
    (run_rec : RunFn) (config : AgentRunnerConfig W) (hooks : AgentRunnerHooks)
    (executingAgent : option (ConfigurableAgentTool W)) (toolSchemas : list ToolSchema)
    (toolMap : gmap string (RegisteredTool W)) (iteration : nat)
    (messages : list ChatMessage) (w w1 w2 : W) (currentSystemPrompt : string)
    (llmResponse : UnifiedLLMResponse) :
  llm_parseResponse = parseResponse parse ->
  enhancePromptWithPageContext
    (systemPrompt config +:+ iterationInfo iteration (maxIterations config)) w
  = (currentSystemPrompt, w1) ->
  llm_call (llmRequest config toolSchemas currentSystemPrompt messages) w1
  = (Normal llmResponse, w2) ->
  functionCall llmResponse = None ->
  text llmResponse = None \/ text llmResponse = Some "" ->
  let errorMsg := "Agent loop error: No valid response from LLM" in
  let log := messages ++ [systemErrorMessage errorMsg] in
  iterationBody run_rec config hooks executingAgent toolSchemas toolMap iteration messages w
  = Some (Normal (Return (createErrorResult hooks errorMsg log reason_error) log
                    EndLoopError), w2).
Proof.
  intros Hparser Hprompt Hcall Hfc Htext errorMsg log. subst errorMsg log.
  unfold iterationBody; unfold_run. rewrite Hprompt, Hcall, Hparser.
  unfold parseResponse. rewrite Hfc.
  destruct Htext as [-> | ->]; reflexivity.
Qed.

Lemma empty_response_witness :
  iterationBody (H := plainWorld) (run 0) (runnerConfig [] 3) stepHooks None [] ∅ 0
    [UserMessage "hi"] (start [Normal silentResponse])
  = Some (Normal
            (Return
               (errorWithSteps "Agent loop error: No valid response from LLM"
                  [UserMessage "hi";
                   systemErrorMessage "Agent loop error: No valid response from LLM"]
                  reason_error)
               [UserMessage "hi";
                systemErrorMessage "Agent loop error: No valid response from LLM"]
               EndLoopError), start []).
Proof.
  exact (empty_response_ends_run (H := plainWorld) JSON_parse (run 0) (runnerConfig [] 3)
           stepHooks None [] ∅ 0 [UserMessage "hi"] (start [Normal silentResponse])
           (start [Normal silentResponse]) (start []) _ silentResponse
           eq_refl eq_refl eq_refl eq_refl (or_introl eq_refl)).
Defined.

(** X21.  With [UnifiedLLMClient.parseResponse] as the parser, a
    response without function call whose text is not empty and, once
    trimmed, does not begin with an opening brace ends the run with
    success: the answer is the text as it came, not trimmed, and the log
    gains the final message of the model. *)
Theorem text_answer_ends_run `{World} (parse : string -> option JSValue)
    (run_rec : RunFn) (config : AgentRunnerConfig W) (hooks : AgentRunnerHooks)
    (executingAgent : option (ConfigurableAgentTool W)) (toolSchemas : list ToolSchema)
    (toolMap : gmap string (RegisteredTool W)) (iteration : nat)
    (messages : list ChatMessage) (w w1 w2 : W) (currentSystemPrompt : string)
    (llmResponse : UnifiedLLMResponse) (rawContent : string) :
  llm_parseResponse = parseResponse parse ->
  enhancePromptWithPageContext
    (systemPrompt config +:+ iterationInfo iteration (maxIterations config)) w
  = (currentSystemPrompt, w1) ->
  llm_call (llmRequest config toolSchemas currentSystemPrompt messages) w1
  = (Normal llmResponse, w2) ->
  functionCall llmResponse = None ->
  text llmResponse = Some rawContent ->
  rawContent <> "" ->
  startsWith (trim rawContent) "{" = false ->
  let log := messages ++ [newFinalMessage llmResponse rawContent] in
  iterationBody run_rec config hooks executingAgent toolSchemas toolMap iteration messages w
  = Some (Normal (Return (createSuccessResult hooks rawContent log reason_final_answer)
                    log EndFinalAnswer), w2).
Proof.
  intros Hparser Hprompt Hcall Hfc Htext Hne Hbrace log. subst log.
  unfold iterationBody; unfold_run. rewrite Hprompt, Hcall, Hparser.
  unfold parseResponse. rewrite Hfc, Htext, Hbrace.
  apply String.eqb_neq in Hne. rewrite Hne. reflexivity.
Qed.

(** ** Runs that return, and runs that do not *)

Section Returns.

Context `{World}.
Variable args : JSValue.
Variable config : AgentRunnerConfig W.
Variable hooks : AgentRunnerHooks.
Variable executingAgent : option (ConfigurableAgentTool W).
Variable toolSchemas : list ToolSchema.
Variable toolMap : gmap string (RegisteredTool W).

Hypothesis no_target :
  forall h, In h (agentHandoffs executingAgent) ->
            forall a, getRegisteredTool (targetAgentName h) <> Some (AgentTool a).

Lemma iterationBody_returns (iteration : nat) (messages : list ChatMessage) (w : W) :
  exists outcome w',
    handler_fault outcome
    /\ forall run_rec,
        iterationBody run_rec config hooks executingAgent toolSchemas toolMap
          iteration messages w = Some (outcome, w').
Proof.
  unfold iterationBody; unfold_run.
  destruct (enhancePromptWithPageContext _ w) as [prompt w0].
  destruct (llm_call _ w0) as [[llmResponse|error] w2]; cbn [fst snd].
  2: { destruct error as [| |message text];
         (eexists _, _; split; [|intros; reflexivity]); cbn; eauto. }
  destruct (llm_parseResponse llmResponse) as [toolName toolArgs|answer|error];
    cbn [processAction];
    try (eexists _, _; split; [|intros; reflexivity]; exact I).
  unfold processToolCall; unfold_run.
  destruct (randomUUID w2) as [callId w3].
  destruct toolName as [| |b|n|name|items|props];
    try (eexists _, _; split; [|intros; reflexivity]; exact I).
  destruct (toolMap !! name) as [toolToExecute|];
    [|eexists _, _; split; [|intros; reflexivity]; exact I].
  destruct (handoffTarget name toolToExecute) as [targetAgentTool|].
  - unfold toolCallHandoff; unfold_run.
    destruct (List.find _ (agentHandoffs executingAgent)) as [handoffConfig|] eqn:Hfind;
      [|eexists _, _; split; [|intros; reflexivity]; exact I].
    destruct executingAgent as [agent|] eqn:Hagent;
      [|eexists _, _; split; [|intros; reflexivity]; exact I].
    apply find_some in Hfind as [Hin _].
    eexists _, _. split; [|intros run_rec;
      rewrite (executeHandoff_not_agent handoffConfig (no_target handoffConfig Hin));
      reflexivity].
    exact I.
  - unfold regularTool; unfold_run.
    destruct (execute (tool_of toolToExecute) toolArgs w3) as [toolOutcome w4].
    destruct (executedToolMessage name callId toolOutcome) as [toolResult|e] eqn:Hmessage.
    + eexists _, _. split; [|intros; reflexivity]. exact I.
    + assert (Hfault : exists f, e = type_error f).
      { unfold executedToolMessage, toolExecutionResult, toolExecutionFailure in Hmessage.
        destruct toolOutcome as [v|err].
        - destruct (readToolResult v) as [[text isErr]|]; discriminate.
        - destruct err; try discriminate; injection Hmessage as <-; eauto. }
      destruct Hfault as [f ->].
      eexists _, _. split; [|intros; reflexivity]. exact I.
Qed.

Lemma afterLoop_returns (iteration : nat) (messages : list ChatMessage) (w : W) :
  exists trace w',
    forall run_rec,
      afterLoop run_rec args config hooks executingAgent iteration messages w
      = Some (Normal trace, w').
Proof.
  unfold afterLoop; unfold_run.
  destruct (List.find is_max_iterations_trigger (agentHandoffs executingAgent))
    as [handoffConfig|] eqn:Hfind; [|eexists _, _; intros; reflexivity].
  destruct executingAgent as [agent|] eqn:Hagent; [|eexists _, _; intros; reflexivity].
  apply find_some in Hfind as [Hin _].
  eexists _, _. intros run_rec.
  rewrite (executeHandoff_not_agent handoffConfig (no_target handoffConfig Hin)).
  reflexivity.
Qed.

Lemma loop_returns (bound : nat) :
  iteration_bound (maxIterations config) = Some bound ->
  forall (fuel iteration : nat) (messages : list ChatMessage) (w : W),
    bound <= iteration + fuel ->
    exists outcome w',
      handler_fault outcome
      /\ forall run_rec,
          loop run_rec args config hooks executingAgent toolSchemas toolMap
            fuel iteration messages w = Some (outcome, w').
Proof.
  intros Hbound.
  pose proof (below_iteration_bound _ _ Hbound) as Hbelow.
  assert (Hafter : forall fuel iteration messages w,
             below iteration (maxIterations config) = false ->
             exists outcome w',
               handler_fault outcome
               /\ forall run_rec,
                   loop run_rec args config hooks executingAgent toolSchemas toolMap
                     fuel iteration messages w = Some (outcome, w')).
  { intros fuel iteration messages w Htest.
    destruct (afterLoop_returns iteration messages w) as (trace & w' & Hafter).
    exists (Normal trace), w'. split; [exact I|]. intros run_rec.
    rewrite (loop_leaves _ _ _ _ _ _ _ _ _ _ Htest). apply Hafter. }
  induction fuel as [|fuel IH]; intros iteration messages w Hfuel;
    destruct (below iteration (maxIterations config)) eqn:Htest;
    try (apply Hafter; exact Htest).
  - apply Hbelow in Htest. lia.
  - destruct (iterationBody_returns iteration messages w)
      as (outcome & w1 & Hfault & Hbody).
    destruct outcome as [[r log e|log]|error].
    + eexists _, _. split; [|intros run_rec].
      2: { rewrite (loop_enters _ _ _ _ _ _ _ _ _ _ Htest). unfold bind.
           rewrite Hbody. reflexivity. }
      exact I.
    + destruct (IH (S iteration) log w1 ltac:(lia)) as (trace & w' & Htrace & Hloop).
      exists trace, w'. split; [exact Htrace|]. intros run_rec.
      rewrite (loop_enters _ _ _ _ _ _ _ _ _ _ Htest). unfold bind.
      rewrite Hbody. apply Hloop.
    + exists (Throw error), w1. split; [exact Hfault|]. intros run_rec.
      rewrite (loop_enters _ _ _ _ _ _ _ _ _ _ Htest). unfold bind.
      rewrite Hbody. reflexivity.
Qed.

End Returns.

(** X9.  A run whose executing agent has no handoff rule for a
    registered agent (so every run without executing agent) and whose
    [maxIterations] is not [Infinity] settles, and in the same way
    whatever the bound on the depth of handoffs: it returns a result, or
    it rejects, which it does only with the [TypeError] of the handler
    that read [message] of a [null] or [undefined] thrown by the call of
    the model.  The test of the loop ends the iterations.  As in the
    whole model, the call of the model and the tools return or throw,
    and the page context, [randomUUID], the parser and the result hooks
    return. *)
Theorem run_without_handoff_target_settles `{World}
    (initialMessages : list ChatMessage) (args : JSValue)
    (config : AgentRunnerConfig W) (hooks : AgentRunnerHooks)
    (executingAgent : option (ConfigurableAgentTool W)) (w : W) :
  (forall h, In h (agentHandoffs executingAgent) ->
             forall a, getRegisteredTool (targetAgentName h) <> Some (AgentTool a)) ->
  maxIterations config <> PosInfinity ->
  exists outcome w',
    (forall depth,
        run depth initialMessages args config hooks executingAgent w = Some (outcome, w'))
    /\ match outcome with
       | Normal _ => True
       | Throw e =>
           exists error,
             (error = thrown_null \/ error = thrown_undefined)
             /\ e = type_error (reading_message error)
       end.
Proof.
  intros Hno Hfinite.
  destruct (iteration_bound (maxIterations config)) as [bound|] eqn:Hbound.
  2: { destruct (maxIterations config); try discriminate. congruence. }
  destruct (loop_returns args config hooks executingAgent
              (fst (runSetup config executingAgent)) (snd (runSetup config executingAgent))
              Hno bound Hbound bound 0 (preparedMessages hooks initialMessages) w
              ltac:(lia))
    as (outcome & w' & Hfault & Hloop).
  destruct outcome as [trace|e].
  - exists (Normal (result trace)), w'. split; [|exact I]. intros depth.
    rewrite run_is_traced. unfold run_traced, run_trace. rewrite Hbound.
    change (default depth (Some bound)) with bound. rewrite Hloop. reflexivity.
  - exists (Throw e), w'. split; [|exact Hfault]. intros depth.
    rewrite run_is_traced. unfold run_traced, run_trace. rewrite Hbound.
    change (default depth (Some bound)) with bound. rewrite Hloop. reflexivity.
Qed.

(** *** An agent that hands off to itself *)

Section Cycle.

Context `{World}.
Variable agentName toolName : string.
Variable selfAgent : ConfigurableAgentTool W.
Variable rule : HandoffConfig.
Variable theTool : RegisteredTool W.

Hypothesis agent_registered : getRegisteredTool agentName = Some (AgentTool selfAgent).
Hypothesis rule_found :
  List.find is_max_iterations_trigger (agentHandoffs (Some selfAgent)) = Some rule.
Hypothesis rule_target : targetAgentName rule = agentName.
Hypothesis tool_registered : getRegisteredTool toolName = Some theTool.
Hypothesis tool_name : name (tool_of theTool) = toolName.
Hypothesis tool_listed : In toolName (cfg_tools (config selfAgent)).
Hypothesis tool_ordinary : startsWith toolName "handoff_to_" = false.
Hypothesis model_calls_tool :
  forall request w,
  exists llmResponse toolArgs w',
    llm_call request w = (Normal llmResponse, w')
    /\ llm_parseResponse llmResponse = tool_call (JString toolName) toolArgs.
Hypothesis registered_tools_recorded :
  forall registered tool, getRegisteredTool registered = Some tool -> outcomes_recorded tool.

Lemma addHandoffTools_schemas (handoffs : list HandoffConfig) :
  forall acc s, In s (fst acc) -> In s (fst (addHandoffTools handoffs acc)).
Proof.
  unfold addHandoffTools.
  induction handoffs as [|h handoffs IH]; intros [schemas m] s Hin; cbn [fold_left];
    [exact Hin|].
  apply IH.
  destruct (is_llm_trigger h); [|exact Hin].
  destruct (getRegisteredTool (targetAgentName h)) as [[t|a]|]; try exact Hin.
  cbn [fst] in *. apply in_or_app. left. exact Hin.
Qed.

Lemma listed_tool_resolves (config : AgentRunnerConfig W)
    (executingAgent : option (ConfigurableAgentTool W)) (tool : RegisteredTool W) :
  In tool (tools config) ->
  is_Some (snd (runSetup config executingAgent) !! name (tool_of tool)).
Proof.
  intros Hin. apply runSetup_names_agree.
  exists (toolSchemaOf tool). split; [|reflexivity].
  unfold runSetup. apply addHandoffTools_schemas. cbn [fst].
  apply in_map. exact Hin.
Qed.

Lemma initialToolMap_origin (tools : list (RegisteredTool W)) (key : string)
    (tool : RegisteredTool W) :
  forall acc : gmap string (RegisteredTool W),
    fold_left (fun toolMap tool => <[name (tool_of tool) := tool]> toolMap) tools acc
      !! key = Some tool ->
    In tool tools \/ acc !! key = Some tool.
Proof.
  induction tools as [|first tools IH]; intros acc; cbn [fold_left]; [auto|].
  intros Hlookup. destruct (IH _ Hlookup) as [Hin|Hacc]; [left; right; exact Hin|].
  destruct (decide (name (tool_of first) = key)) as [Heq|Hne].
  - rewrite Heq, lookup_insert_eq in Hacc. injection Hacc as ->. left. left. reflexivity.
  - rewrite lookup_insert_ne in Hacc by exact Hne. right. exact Hacc.
Qed.

Lemma addHandoffTools_origin (handoffs : list HandoffConfig) (key : string)
    (tool : RegisteredTool W) :
  forall acc,
    snd (addHandoffTools handoffs acc) !! key = Some tool ->
    snd acc !! key = Some tool \/ startsWith key "handoff_to_" = true.
Proof.
  unfold addHandoffTools.
  induction handoffs as [|h handoffs IH]; intros [schemas m]; cbn [fold_left]; [auto|].
  intros Hlookup. destruct (IH _ Hlookup) as [Hacc|Hhandoff]; [|right; exact Hhandoff].
  destruct (is_llm_trigger h); [|left; exact Hacc].
  destruct (getRegisteredTool (targetAgentName h)) as [[t|a]|]; try (left; exact Hacc).
  cbn [snd] in *.
  destruct (decide (handoffToolName (targetAgentName h) = key)) as [Heq|Hne].
  - right. rewrite <- Heq. unfold startsWith, handoffToolName. apply prefix_append.
  - rewrite lookup_insert_ne in Hacc by exact Hne. left. exact Hacc.
Qed.

Lemma listed_tool_recorded (config : AgentRunnerConfig W)
    (executingAgent : option (ConfigurableAgentTool W)) (tool : RegisteredTool W) :
  (forall t, In t (tools config) -> outcomes_recorded t) ->
  snd (runSetup config executingAgent) !! toolName = Some tool ->
  outcomes_recorded tool.
Proof.
  intros Hrecorded Hlookup. unfold runSetup in Hlookup.
  apply addHandoffTools_origin in Hlookup as [Hinitial|Hhandoff];
    [|rewrite tool_ordinary in Hhandoff; discriminate].
  cbn [snd] in Hinitial. unfold initialToolMap in Hinitial.
  apply initialToolMap_origin in Hinitial as [Hin|Hempty];
    [exact (Hrecorded tool Hin)|].
  rewrite lookup_empty in Hempty. discriminate.
Qed.

Lemma model_keeps_calling (run_rec : RunFn) (args : JSValue)
    (config : AgentRunnerConfig W) (hooks : AgentRunnerHooks)
    (executingAgent : option (ConfigurableAgentTool W))
    (toolSchemas : list ToolSchema) (toolMap : gmap string (RegisteredTool W))
    (toolToExecute : RegisteredTool W) :
  toolMap !! toolName = Some toolToExecute ->
  outcomes_recorded toolToExecute ->
  forall fuel iteration messages w,
    loop run_rec args config hooks executingAgent toolSchemas toolMap
      fuel iteration messages w = None
    \/ exists left log w',
        loop run_rec args config hooks executingAgent toolSchemas toolMap
          fuel iteration messages w
        = afterLoop run_rec args config hooks executingAgent left log w'.
Proof.
  intros Hlookup tool_outcome_recorded.
  induction fuel as [|fuel IH]; intros iteration messages w;
    destruct (below iteration (maxIterations config)) eqn:Htest;
    try (right; exists iteration, messages, w;
         rewrite (loop_leaves _ _ _ _ _ _ _ _ _ _ Htest); reflexivity).
  - left. cbn [loop]. rewrite Htest. reflexivity.
  - destruct (enhancePromptWithPageContext
                (systemPrompt config +:+ iterationInfo iteration (maxIterations config)) w)
      as [prompt w1] eqn:Hprompt.
    destruct (model_calls_tool (llmRequest config toolSchemas prompt messages) w1)
      as (llmResponse & toolArgs & w2 & Hcall & Hparse).
    destruct (randomUUID w2) as [callId w3] eqn:Huuid.
    destruct (execute (tool_of toolToExecute) toolArgs w3) as [outcome w4] eqn:Hexec.
    assert (Hordinary : handoffTarget toolName toolToExecute = None).
    { unfold handoffTarget. rewrite tool_ordinary. reflexivity. }
    destruct (tool_outcome_recorded toolArgs w3) as [Hnull Hundefined].
    rewrite Hexec in Hnull, Hundefined. cbn [fst] in Hnull, Hundefined.
    destruct (executedToolMessage_recorded toolName callId outcome Hnull Hundefined)
      as (toolResultText & toolIsError & toolResultData & Hrecorded & _).
    rewrite (loop_enters _ _ _ _ _ _ _ _ _ _ Htest). unfold bind.
    rewrite (ordinary_tool_continues run_rec config hooks executingAgent toolSchemas
               toolMap iteration messages w w1 w2 w3 w4 _ _ _ _ _ _ _ _
               Hprompt Hcall Hparse Huuid Hlookup Hordinary Hexec Hrecorded).
    apply IH.
Qed.

(** X10.  Nothing guards a cycle of handoffs.  An agent whose
    [max_iterations] rule names the agent itself, run with a model that
    asks at every call for an ordinary tool whose outcomes are recorded
    (the tool does not throw [null] or [undefined]), does not return:
    every run ends in a handoff to a new run of the same agent, so no
    bound on the depth of handoffs is enough. *)
Theorem self_handoff_never_returns (depth : nat) :
  forall (initialMessages : list ChatMessage) (args : JSValue)
         (config : AgentRunnerConfig W) (hooks : AgentRunnerHooks) (w : W),
    In theTool (tools config) ->
    (forall tool, In tool (tools config) -> outcomes_recorded tool) ->
    run depth initialMessages args config hooks (Some selfAgent) w = None.
Proof.
  induction depth as [|depth IH];
    intros initialMessages args config hooks w Hin Hrecorded.
  all: rewrite run_is_traced; unfold run_traced, run_trace.
  all: destruct (listed_tool_resolves config (Some selfAgent) theTool Hin)
         as [toolToExecute Hresolves];
    rewrite tool_name in Hresolves.
  all: pose proof (listed_tool_recorded config (Some selfAgent) toolToExecute
                     Hrecorded Hresolves) as Htool.
  all: match goal with
       | |- context [loop ?rec _ _ _ _ ?s ?m ?n 0 ?msgs ?w0] =>
           destruct (model_keeps_calling rec args config hooks (Some selfAgent) s m
                       toolToExecute Hresolves Htool n 0 msgs w0)
             as [Hloop|(left & log & w' & Hloop)];
           rewrite Hloop; [reflexivity|]
       end.
  all: unfold afterLoop; rewrite rule_found; unfold bind at 1.
  all: unfold executeHandoff; rewrite rule_target, agent_registered; unfold_run.
  all: destruct (enhancePromptWithPageContext _ w') as [enhanced w1]; cbn [fst snd].
  - reflexivity.
  - cbn [run_below]. rewrite IH; [reflexivity| |].
    + cbn [tools]. apply list_elem_of_In, list_elem_of_omap.
      exists toolName. split; [apply list_elem_of_In, tool_listed|exact tool_registered].
    + cbn [tools]. intros tool Htool'.
      apply list_elem_of_In, list_elem_of_omap in Htool' as (registered & _ & Hregistered).
      exact (registered_tools_recorded registered tool Hregistered).
Qed.

End Cycle.

(** ** The sanitization helpers *)

Lemma assoc_get_delete (props : list (string * JSValue)) (removed k : string) :
  assoc_get (assoc_delete props removed) k
  = if String.eqb removed k then None else assoc_get props k.
Proof.
  induction props as [|[k' v] props IH]; cbn [assoc_delete assoc_get].
  - destruct (String.eqb removed k); reflexivity.
  - destruct (String.eqb k' removed) eqn:Hremoved.
    + rewrite IH. apply String.eqb_eq in Hremoved. subst k'.
      destruct (String.eqb removed k); reflexivity.
    + cbn [assoc_get]. rewrite IH.
      destruct (String.eqb k' k) eqn:Hk; [|reflexivity].
      apply String.eqb_eq in Hk. subst k'.
      rewrite String.eqb_sym, Hremoved. reflexivity.
Qed.

Lemma assoc_delete_absent (props : list (string * JSValue)) (removed : string) :
  assoc_get props removed = None -> assoc_delete props removed = props.
Proof.
  induction props as [|[k' v] props IH]; cbn [assoc_delete assoc_get]; [reflexivity|].
  destruct (String.eqb k' removed); [discriminate|].
  intros Hget. rewrite IH by exact Hget. reflexivity.
Qed.

Lemma assoc_delete_idempotent (props : list (string * JSValue)) (removed : string) :
  assoc_delete (assoc_delete props removed) removed = assoc_delete props removed.
Proof.
  apply assoc_delete_absent. rewrite assoc_get_delete, String.eqb_refl. reflexivity.
Qed.

Lemma assoc_delete_comm (props : list (string * JSValue)) (a b : string) :
  assoc_delete (assoc_delete props a) b = assoc_delete (assoc_delete props b) a.
Proof.
  induction props as [|[k v] props IH]; cbn [assoc_delete]; [reflexivity|].
  destruct (String.eqb k a) eqn:Ha, (String.eqb k b) eqn:Hb; cbn [assoc_delete];
    rewrite ?Ha, ?Hb, IH; reflexivity.
Qed.

Lemma pretty_N_char_digit (x : N) : is_digit (pretty_N_char x) = true.
Proof.
  destruct x as [|p]; [reflexivity|].
  do 4 (try destruct p as [p|p|]); reflexivity.
Qed.

Lemma pretty_N_go_digit (x : N) :
  forall s, (x <> 0)%N \/ starts_with_digit s -> starts_with_digit (pretty_N_go x s).
Proof.
  induction (N.lt_wf_0 x) as [x _ IH]; intros s Hs.
  destruct (decide (x = 0)%N) as [->|Hpos].
  - rewrite pretty_N_go_0. destruct Hs as [|Hs]; [congruence|exact Hs].
  - rewrite pretty_N_go_step by lia.
    apply IH; [apply N.div_lt; lia|]. right. apply pretty_N_char_digit.
Qed.

Lemma pretty_nat_digit (i : nat) : starts_with_digit (pretty i).
Proof.
  change (starts_with_digit (pretty_N (N.of_nat i))). unfold pretty_N.
  destruct (decide (N.of_nat i = 0)%N) as [_|Hpos]; [reflexivity|].
  apply pretty_N_go_digit. left. exact Hpos.
Qed.

Lemma index_keys_get (items : list JSValue) (k : string) :
  ~ starts_with_digit k ->
  assoc_get (spread (JArray items)) k = None.
Proof.
  intros Hk. cbn [spread].
  assert (Hgen : forall f : nat -> nat,
             assoc_get (imap (fun i x => (pretty (f i), x)) items) k = None).
  { induction items as [|x items IH]; intros f; cbn [imap assoc_get]; [reflexivity|].
    destruct (String.eqb (pretty (f 0)) k) eqn:Heq.
    - apply String.eqb_eq in Heq. subst k. destruct Hk. apply pretty_nat_digit.
    - apply (IH (fun i => f (S i))). }
  apply (Hgen (fun i => i)).
Qed.

Lemma has_own_property_spread (v : JSValue) (k : string) :
  is_object v = true ->
  ~ starts_with_digit k ->
  has_own_property (JObject (spread v)) k = has_own_property v k.
Proof.
  intros Hobject Hk. destruct v as [| | | | |items|props]; try discriminate.
  - cbn [has_own_property]. rewrite index_keys_get by exact Hk.
    apply bool_decide_false. intros [x Hx]. discriminate.
  - reflexivity.
Qed.

Lemma delete_if_present (props : list (string * JSValue)) (k : string) :
  (if has_own_property (JObject props) k then assoc_delete props k else props)
  = assoc_delete props k.
Proof.
  cbn [has_own_property].
  destruct (bool_decide (is_Some (assoc_get props k))) eqn:Hhas; [reflexivity|].
  symmetry. apply assoc_delete_absent.
  apply bool_decide_eq_false in Hhas.
  destruct (assoc_get props k); [destruct Hhas; eauto|reflexivity].
Qed.

Lemma sanitizeToolResultForText_spread (v : JSValue) :
  is_object v = true ->
  sanitizeToolResultForText v
  = if has_own_property v "hasOwnProperty" then None
    else Some (JObject (assoc_delete (spread v) "imageData")).
Proof.
  intros Hobject. unfold sanitizeToolResultForText, hasOwnProperty. rewrite Hobject.
  rewrite (has_own_property_spread v "hasOwnProperty" Hobject)
    by (cbn; discriminate).
  destruct (has_own_property v "hasOwnProperty"); [reflexivity|].
  cbn [mbind option_bind]. rewrite delete_if_present. reflexivity.
Qed.

Lemma removeFields_deletes (fields : list string) :
  forall props,
    EnhancedSanitization.removeFields fields props
    = if has_own_property (JObject props) "hasOwnProperty" && negb (bool_decide (fields = []))
      then None
      else Some (fold_left assoc_delete fields props).
Proof.
  induction fields as [|field fields IH]; intros props;
    cbn [EnhancedSanitization.removeFields fold_left].
  - rewrite andb_false_r. reflexivity.
  - unfold hasOwnProperty.
    destruct (has_own_property (JObject props) "hasOwnProperty") eqn:Hhidden;
      [reflexivity|].
    cbn [mbind option_bind andb]. rewrite delete_if_present, IH.
    destruct (String.eqb field "hasOwnProperty") eqn:Hfield.
    + apply String.eqb_eq in Hfield. subst field.
      cbn [has_own_property]. rewrite assoc_get_delete, String.eqb_refl.
      rewrite bool_decide_false by (intros [x Hx]; discriminate). reflexivity.
    + cbn [has_own_property] in *. rewrite assoc_get_delete, Hfield.
      rewrite Hhidden. reflexivity.
Qed.

Lemma enhanced_sanitizer_spread (v : JSValue) :
  is_object v = true ->
  EnhancedSanitization.sanitizeToolResultForText v
  = if has_own_property v "hasOwnProperty" then None
    else Some (JObject (assoc_delete
                          (assoc_delete (assoc_delete (spread v) "imageData") "success")
                          "dataUrl")).
Proof.
  intros Hobject. unfold EnhancedSanitization.sanitizeToolResultForText.
  rewrite Hobject, removeFields_deletes.
  rewrite (has_own_property_spread v "hasOwnProperty" Hobject)
    by (cbn; discriminate).
  destruct (has_own_property v "hasOwnProperty"); reflexivity.
Qed.

Lemma member_spread (v : JSValue) (k : string) :
  is_object v = true ->
  ~ starts_with_digit k ->
  default JUndefined (assoc_get (spread v) k) = member v k.
Proof.
  intros Hobject Hk. destruct v as [| | | | |items|props]; try discriminate.
  - rewrite index_keys_get by exact Hk. reflexivity.
  - reflexivity.
Qed.

Lemma failure_value_spread (v : JSValue) (props : list (string * JSValue)) :
  is_object v = true ->
  assoc_get props "error" = assoc_get (spread v) "error" ->
  assoc_get props "success" = assoc_get (spread v) "success" ->
  failure_value (JObject props) = failure_value v.
Proof.
  intros Hobject Herror Hsuccess. unfold failure_value. rewrite Hobject.
  cbn [is_object member andb]. rewrite Herror, Hsuccess.
  rewrite !member_spread by (auto; cbn; discriminate). reflexivity.
Qed.

(** [toolIsError] of a value that a tool returned. *)
Lemma readToolResult_isError (v : JSValue) :
  snd <$> readToolResult v
  = if is_object v && has_own_property v "hasOwnProperty" then None
    else Some (failure_value v).
Proof.
  pose proof (readToolResult_reading v) as Hread.
  destruct (readToolResult v) as [[text isErr]|].
  - destruct Hread as [-> ->]. rewrite andb_false_r. reflexivity.
  - destruct Hread as [-> ->]. reflexivity.
Qed.

(** X11.  [sanitizeToolResultForText] of [test_sanitization.js] throws
    on an object with an own property [hasOwnProperty], which hides the
    method that it calls, and on no other value.  Otherwise the result
    has no [imageData] property; every other property of an object is
    kept with its value; sanitizing the result again changes nothing;
    and the runner reads the sanitized value as an error ([toolIsError])
    exactly when it reads the value itself as one. *)
Theorem sanitizeToolResultForText_removes_imageData_only (toolResultData : JSValue) :
  match sanitizeToolResultForText toolResultData with
  | None =>
      is_object toolResultData = true
      /\ has_own_property toolResultData "hasOwnProperty" = true
  | Some sanitized =>
      (is_object toolResultData = true ->
       has_own_property toolResultData "hasOwnProperty" = false)
      /\ has_own_property sanitized "imageData" = false
      /\ (is_object toolResultData = true ->
          forall k, k <> "imageData" ->
            member sanitized k = default JUndefined (assoc_get (spread toolResultData) k))
      /\ sanitizeToolResultForText sanitized = Some sanitized
      /\ snd <$> readToolResult sanitized = snd <$> readToolResult toolResultData
  end.
Proof.
  destruct (is_object toolResultData) eqn:Hobject.
  - rewrite (sanitizeToolResultForText_spread _ Hobject).
    destruct (has_own_property toolResultData "hasOwnProperty") eqn:Hhidden;
      [split; reflexivity|].
    assert (Hkept : has_own_property
                      (JObject (assoc_delete (spread toolResultData) "imageData"))
                      "hasOwnProperty" = false).
    { rewrite <- (has_own_property_spread toolResultData "hasOwnProperty" Hobject)
        in Hhidden by (cbn; discriminate).
      cbn [has_own_property] in *. rewrite assoc_get_delete. exact Hhidden. }
    split; [reflexivity|]. split; [|split; [|split]].
    + cbn [has_own_property]. rewrite assoc_get_delete, String.eqb_refl.
      apply bool_decide_false. intros [x Hx]. discriminate.
    + intros _ k Hk. cbn [member]. rewrite assoc_get_delete.
      destruct (String.eqb "imageData" k) eqn:Heq; [|reflexivity].
      apply String.eqb_eq in Heq. congruence.
    + rewrite sanitizeToolResultForText_spread by reflexivity.
      rewrite Hkept. cbn [spread]. rewrite assoc_delete_idempotent. reflexivity.
    + rewrite !readToolResult_isError. rewrite Hobject, Hhidden, Hkept.
      cbn [is_object andb]. f_equal.
      apply failure_value_spread; [exact Hobject| |]; rewrite assoc_get_delete; reflexivity.
  - destruct toolResultData; try discriminate; cbn; repeat split; auto; discriminate.
Qed.

(** X12.  The later [sanitizeToolResultForText] throws on an object
    with an own property [hasOwnProperty], and on no other value.
    Otherwise none of [imageData], [success] and [dataUrl] remains and
    the other properties are kept; the runner reads the sanitized value
    as an error exactly when the value is an object with a truthy
    [error], so a failure stated by [success: false] alone is not read as
    one any more; and the later helper absorbs the first one, in both
    orders. *)
Theorem enhanced_sanitizer_drops_success (toolResultData : JSValue) :
  match EnhancedSanitization.sanitizeToolResultForText toolResultData with
  | None =>
      is_object toolResultData = true
      /\ has_own_property toolResultData "hasOwnProperty" = true
  | Some sanitized =>
      (is_object toolResultData = true ->
       has_own_property toolResultData "hasOwnProperty" = false)
      /\ (forall field, In field EnhancedSanitization.fieldsToRemove ->
            has_own_property sanitized field = false)
      /\ (is_object toolResultData = true ->
          forall k, ~ In k EnhancedSanitization.fieldsToRemove ->
            member sanitized k = default JUndefined (assoc_get (spread toolResultData) k))
      /\ snd <$> readToolResult sanitized
         = Some (is_object toolResultData && truthy (member toolResultData "error"))
      /\ (first ← sanitizeToolResultForText toolResultData;
          EnhancedSanitization.sanitizeToolResultForText first) = Some sanitized
      /\ sanitizeToolResultForText sanitized = Some sanitized
  end.
Proof.
  destruct (is_object toolResultData) eqn:Hobject.
  - rewrite (enhanced_sanitizer_spread _ Hobject),
      (sanitizeToolResultForText_spread _ Hobject).
    destruct (has_own_property toolResultData "hasOwnProperty") eqn:Hhidden;
      [split; reflexivity|].
    assert (Hspread : assoc_get (spread toolResultData) "hasOwnProperty" = None).
    { rewrite <- (has_own_property_spread toolResultData "hasOwnProperty" Hobject)
        in Hhidden by (cbn; discriminate).
      cbn [has_own_property] in Hhidden. apply bool_decide_eq_false in Hhidden.
      destruct (assoc_get (spread toolResultData) "hasOwnProperty");
        [destruct Hhidden; eauto|reflexivity]. }
    assert (Hfirst : has_own_property
                       (JObject (assoc_delete (spread toolResultData) "imageData"))
                       "hasOwnProperty" = false).
    { cbn [has_own_property]. rewrite assoc_get_delete, Hspread.
      apply bool_decide_false. intros [x Hx]. discriminate. }
    assert (Hkept : has_own_property
                      (JObject
                         (assoc_delete
                            (assoc_delete
                               (assoc_delete (spread toolResultData) "imageData")
                               "success") "dataUrl"))
                      "hasOwnProperty" = false).
    { cbn [has_own_property]. rewrite !assoc_get_delete, Hspread.
      apply bool_decide_false. intros [x Hx]. discriminate. }
    split; [reflexivity|]. split; [|split; [|split; [|split]]].
    + intros field Hfield. cbn [has_own_property].
      apply bool_decide_false. intros [x Hx]. revert Hx.
      rewrite !assoc_get_delete.
      destruct Hfield as [<-|[<-|[<-|[]]]]; cbn; discriminate.
    + intros _ k Hk. cbn [member]. rewrite !assoc_get_delete.
      destruct (String.eqb "dataUrl" k) eqn:H1;
        [apply String.eqb_eq in H1; destruct Hk; cbn; auto|].
      destruct (String.eqb "success" k) eqn:H2;
        [apply String.eqb_eq in H2; destruct Hk; cbn; auto|].
      destruct (String.eqb "imageData" k) eqn:H3;
        [apply String.eqb_eq in H3; destruct Hk; cbn; auto|].
      reflexivity.
    + rewrite readToolResult_isError, Hkept. cbn [is_object andb]. f_equal.
      unfold failure_value. cbn [is_object member andb].
      rewrite !assoc_get_delete. cbn [String.eqb Ascii.eqb Bool.eqb default].
      rewrite member_spread by (auto; cbn; discriminate).
      rewrite orb_false_r. reflexivity.
    + cbn [mbind option_bind]. rewrite enhanced_sanitizer_spread by reflexivity.
      rewrite Hfirst. cbn [spread]. rewrite assoc_delete_idempotent. reflexivity.
    + rewrite sanitizeToolResultForText_spread by reflexivity. rewrite Hkept.
      cbn [spread].
      rewrite (assoc_delete_comm _ "dataUrl" "imageData").
      rewrite (assoc_delete_comm _ "success" "imageData").
      rewrite assoc_delete_idempotent. reflexivity.
  - destruct toolResultData; try discriminate; cbn; repeat split; auto; discriminate.
Qed.

(** ** The client of the providers *)

Section StoredModelFacts.

Context `{Providers}.
Variable parse : string -> option JSValue.

Lemma strict_eq_string_true (v : JSValue) (s : string) :
  strict_eq_string v s = true <-> v = JString s.
Proof.
  destruct v; cbn; try (split; [discriminate|congruence]).
  rewrite String.eqb_eq. split; congruence.
Qed.

Lemma getProp_member (v : JSValue) (k : string) (x : JSValue) :
  getProp v k = Some x -> member v k = x.
Proof. destruct v; cbn; congruence. Qed.

Lemma member_getProp (v : JSValue) (k s : string) :
  member v k = JString s -> getProp v k = Some (JString s).
Proof. destruct v; cbn; congruence. Qed.

Lemma find_model_found (modelName : string) (modelOptions : list JSValue) (entry : JSValue) :
  find_model modelOptions modelName = Some (Some entry) <->
  exists before after,
    modelOptions = before ++ entry :: after
    /\ (forall opt, In opt before ->
          exists v, getProp opt "value" = Some v /\ strict_eq_string v modelName = false)
    /\ member entry "value" = JString modelName.
Proof.
  induction modelOptions as [|opt rest IH]; cbn [find_model].
  - split; [discriminate|]. intros (before & after & Heq & _). destruct before; discriminate.
  - destruct (getProp opt "value") as [v|] eqn:Hvalue.
    + destruct (strict_eq_string v modelName) eqn:Hv.
      * apply strict_eq_string_true in Hv. subst v. split.
        -- intros [= <-]. exists [], rest. split; [reflexivity|]. split; [intros ? []|].
           apply getProp_member. exact Hvalue.
        -- intros (before & after & Heq & Hbefore & Hentry).
           destruct before as [|b before]; cbn in Heq; injection Heq as <- Hrest.
           ++ reflexivity.
           ++ destruct (Hbefore opt (or_introl eq_refl)) as (v' & Hv' & Hne).
              rewrite Hvalue in Hv'. injection Hv' as <-.
              cbn in Hne. rewrite String.eqb_refl in Hne. discriminate.
      * rewrite IH. split.
        -- intros (before & after & -> & Hbefore & Hentry).
           exists (opt :: before), after. split; [reflexivity|]. split; [|exact Hentry].
           intros o [<-|Hin]; [exists v; auto|auto].
        -- intros (before & after & Heq & Hbefore & Hentry).
           destruct before as [|b before]; cbn in Heq; injection Heq as <- Hrest.
           ++ exfalso. apply member_getProp in Hentry. rewrite Hvalue in Hentry.
              injection Hentry as ->. cbn in Hv. rewrite String.eqb_refl in Hv.
              discriminate.
           ++ exists before, after. split; [exact Hrest|]. split; [|exact Hentry].
              intros o Hin. apply Hbefore. right. exact Hin.
    + split; [discriminate|].
      intros (before & after & Heq & Hbefore & Hentry).
      destruct before as [|b before]; cbn in Heq; injection Heq as <- Hrest.
      * apply member_getProp in Hentry. congruence.
      * destruct (Hbefore opt (or_introl eq_refl)) as (v' & Hv' & _). congruence.
Qed.

Lemma getConfiguredModels_entries (st : ClientState) (before after : list JSValue)
    (entry : JSValue) :
  getConfiguredModels parse st = JArray (before ++ entry :: after) <->
  parse (stored_or st MODEL_OPTIONS_KEY "[]") = Some (JArray (before ++ entry :: after)).
Proof.
  unfold getConfiguredModels.
  destruct (parse _) as [modelOptions|]; split; try congruence.
  intros [= Hnil]. destruct before; discriminate.
Qed.

(** X13.  [getModelType] answers ['litellm'] exactly when, in the
    array that [getConfiguredModels] returns, the first entry for the
    model, with no [null] entry before it, has the [type] ['litellm']. *)
Theorem getModelType_litellm_iff (st : ClientState) (modelName : string) :
  getModelType parse st modelName = JString "litellm" <->
  exists before entry after,
    getConfiguredModels parse st = JArray (before ++ entry :: after)
    /\ (forall opt, In opt before ->
          exists v, getProp opt "value" = Some v /\ strict_eq_string v modelName = false)
    /\ member entry "value" = JString modelName
    /\ member entry "type" = JString "litellm".
Proof.
  split.
  - unfold getModelType.
    destruct (parse _) as [[| | | | |modelOptions|]|] eqn:Hparse; try discriminate.
    destruct (find_model modelOptions modelName) as [[entry|]|] eqn:Hfind; try discriminate.
    intros Htype.
    apply find_model_found in Hfind as (before & after & -> & Hbefore & Hentry).
    exists before, entry, after.
    split; [apply getConfiguredModels_entries; exact Hparse|].
    repeat split; try assumption.
    unfold js_or in Htype. destruct (truthy (member entry "type")); [exact Htype|discriminate].
  - intros (before & entry & after & Hstored & Hbefore & Hentry & Htype).
    apply getConfiguredModels_entries in Hstored.
    assert (Hfind : find_model (before ++ entry :: after) modelName = Some (Some entry))
      by (apply find_model_found; eauto).
    unfold getModelType. rewrite Hstored, Hfind, Htype. reflexivity.
Qed.

(** X14.  [getModelType] never returns a falsy value, and it returns
    ['openai'] when nothing is stored (the parser reading ['[]'] as the
    empty array), when the stored text does not parse, and when a [null]
    entry comes before any entry for the model, whatever follows it. *)
Theorem getModelType_falls_back_to_openai (st : ClientState) (modelName : string) :
  truthy (getModelType parse st modelName) = true /\
  (localStorage_getItem st MODEL_OPTIONS_KEY = None ->
   parse "[]" = Some (JArray []) ->
   getModelType parse st modelName = JString "openai") /\
  (parse (stored_or st MODEL_OPTIONS_KEY "[]") = None ->
   getModelType parse st modelName = JString "openai") /\
  (forall before after,
     parse (stored_or st MODEL_OPTIONS_KEY "[]") = Some (JArray (before ++ JNull :: after)) ->
     (forall opt, In opt before ->
        exists v, getProp opt "value" = Some v /\ strict_eq_string v modelName = false) ->
     getModelType parse st modelName = JString "openai").
Proof.
  unfold getModelType. repeat split.
  - destruct (parse _) as [[| | | | |modelOptions|]|]; try reflexivity.
    destruct (find_model modelOptions modelName) as [[entry|]|]; try reflexivity.
    unfold js_or. destruct (truthy (member entry "type")) eqn:Htype; [exact Htype|reflexivity].
  - intros Hnone Hparse. unfold stored_or. rewrite Hnone, Hparse. reflexivity.
  - intros ->. reflexivity.
  - intros before after -> Hbefore.
    destruct (find_model (before ++ JNull :: after) modelName) as [[entry|]|] eqn:Hfind;
      try reflexivity.
    exfalso. clear -Hfind Hbefore.
    induction before as [|b before IH]; cbn in Hfind; [discriminate|].
    destruct (Hbefore b (or_introl eq_refl)) as (v & Hv & Hne).
    rewrite Hv, Hne in Hfind. apply IH; [|exact Hfind].
    intros o Hin. apply Hbefore. right. exact Hin.
Qed.

End StoredModelFacts.

Section CallFacts.

Context `{Providers}.
Variable parse : string -> option JSValue.

Lemma callOpenAIWithMessages_failure (apiKey modelName : string)
    (openaiMessages : list OpenAIMessage) (options : JSValue) (st st' : ClientState)
    (e : Raised) :
  callOpenAIWithMessages apiKey modelName openaiMessages options st = (Raises e, st') ->
  provider_failure modelName e.
Proof.
  unfold callOpenAIWithMessages.
  destruct (OpenAIClient_callOpenAIWithMessages _ _ _ _ _) as [[response|error] st1];
    intros [= <- <-].
  exists (raised_message error). left. reflexivity.
Qed.

Lemma callLiteLLMWithMessages_failure (apiKey modelName : string)
    (openaiMessages : list OpenAIMessage) (options : JSValue) (st st' : ClientState)
    (e : Raised) :
  callLiteLLMWithMessages apiKey modelName openaiMessages options st = (Raises e, st') ->
  provider_failure modelName e.
Proof.
  unfold callLiteLLMWithMessages.
  destruct (getLiteLLMConfig st) as [[endpoint liteLLMApiKey]|error].
  - destruct (convertToLiteLLMOptions options (JString endpoint)) as [liteLLMOptions|error].
    + destruct (LiteLLMClient_callLiteLLMWithMessages _ _ _ _ _) as [[response|error] st1];
        intros [= <- <-].
      exists (raised_message error). right. reflexivity.
    + intros [= <- <-]. exists (raised_message error). right. reflexivity.
  - intros [= <- <-]. exists (raised_message error). right. reflexivity.
Qed.

Lemma member_assoc_set (props : list (string * JSValue)) (k : string) (v : JSValue) :
  member (JObject (assoc_set props k v)) k = v.
Proof.
  cbn. induction props as [|[k' v'] props IH]; cbn.
  - rewrite String.eqb_refl. reflexivity.
  - destruct (String.eqb k' k) eqn:Hk; cbn; rewrite Hk; [reflexivity|exact IH].
Qed.

Lemma callLLM_failure (apiKey modelName userPrompt : string) (options : JSValue)
    (st st' : ClientState) (e : Raised) :
  callLLM parse apiKey modelName userPrompt options st = (Raises e, st') ->
  provider_failure modelName e.
Proof.
  unfold callLLM, callLLMWithMessages.
  cbn [optional_member]. rewrite member_assoc_set.
  assert (Hprompt : truthy (js_or (optional_member options "systemPrompt")
                              (JString "You are a helpful AI assistant.")) = true).
  { unfold js_or. destruct (truthy (optional_member options "systemPrompt")) eqn:Hp;
      [exact Hp|reflexivity]. }
  rewrite Hprompt.
  destruct (convertToOpenAIMessages _ _ st) as [openaiMessages st1].
  destruct (strict_eq_string _ "litellm").
  - destruct (callLiteLLMWithMessages _ _ _ _ _) as [[response|error] st2] eqn:Hcall;
      intros [= <- <-].
    eapply callLiteLLMWithMessages_failure, Hcall.
  - destruct (callOpenAIWithMessages _ _ _ _ _) as [[response|error] st2] eqn:Hcall;
      intros [= <- <-].
    eapply callOpenAIWithMessages_failure, Hcall.
Qed.

(** X15.  [callLLM] always hands a truthy system prompt on: it
    returns, or it throws an [Error] whose message names the provider
    call that failed and the model; the error [systemPrompt is required
    when calling LLM with messages] is never thrown through it. *)
Theorem callLLM_supplies_systemPrompt (apiKey modelName userPrompt : string)
    (options : JSValue) (st : ClientState) :
  (exists answer st', callLLM parse apiKey modelName userPrompt options st
                      = (Returns answer, st'))
  \/ (exists e st', callLLM parse apiKey modelName userPrompt options st = (Raises e, st')
                    /\ provider_failure modelName e
                    /\ e <> ErrorInstance
                              "systemPrompt is required when calling LLM with messages").
Proof.
  destruct (callLLM parse apiKey modelName userPrompt options st) as [[answer|e] st']
    eqn:Hcall.
  - left. eauto.
  - right. exists e, st'. split; [reflexivity|].
    pose proof (callLLM_failure _ _ _ _ _ _ _ Hcall) as Hfailure.
    split; [exact Hfailure|].
    destruct Hfailure as [reason [-> | ->]]; intros [= Heq]; discriminate.
Qed.

(** X16.  [testModel] reports success, or the failure of a provider
    call with the name of the model: every value thrown reaches its
    handler wrapped in an [Error], so the text ['Unknown error occurred']
    is never returned. *)
Theorem testModel_names_the_failure (modelName : string) (apiKey : option string)
    (st : ClientState) :
  exists st',
    testModel parse modelName apiKey st = (JObject [("success", JBool true)], st')
    \/ exists reason,
         (testModel parse modelName apiKey st
          = (JObject [("success", JBool false);
                      ("error", JString ("OpenAI call failed for model " +:+ modelName
                                           +:+ ": " +:+ reason))], st')
          \/ testModel parse modelName apiKey st
             = (JObject [("success", JBool false);
                         ("error", JString ("LiteLLM call failed for model " +:+ modelName
                                              +:+ ": " +:+ reason))], st')).
Proof.
  unfold testModel.
  destruct (callLLM parse _ modelName _ _ st) as [[answer|e] st'] eqn:Hcall; exists st'.
  - left. reflexivity.
  - right. destruct (callLLM_failure _ _ _ _ _ _ _ Hcall) as [reason [-> | ->]];
      exists reason; [left|right]; reflexivity.
Qed.

Lemma stored_or_empty (st : ClientState) (key : string) :
  stored_or st key "" = "" <->
  localStorage_getItem st key = None \/ localStorage_getItem st key = Some "".
Proof.
  unfold stored_or. destruct (localStorage_getItem st key) as [s|].
  - destruct s as [|c s]; cbn; split; auto.
    + discriminate.
    + intros [|]; discriminate.
  - split; auto.
Qed.

(** X17.  For a model stored as a LiteLLM model, when no endpoint is
    stored (or the empty one): [callLiteLLMWithMessages] throws [LiteLLM
    endpoint not configured] without calling a provider, also when the
    options carry an [endpoint] of their own, and [testModel] returns
    that failure and leaves the world as it is. *)
Theorem litellm_needs_stored_endpoint (modelName : string) (st : ClientState) :
  getModelType parse st modelName = JString "litellm" ->
  localStorage_getItem st LITELLM_ENDPOINT_KEY = None
  \/ localStorage_getItem st LITELLM_ENDPOINT_KEY = Some "" ->
  (forall apiKey openaiMessages options,
      callLiteLLMWithMessages apiKey modelName openaiMessages options st
      = (Raises (ErrorInstance
                   ("LiteLLM call failed for model " +:+ modelName
                      +:+ ": LiteLLM endpoint not configured. "
                      +:+ "Please configure in AI Chat settings.")), st)) /\
  (forall apiKey,
      testModel parse modelName apiKey st
      = (JObject [("success", JBool false);
                  ("error", JString ("LiteLLM call failed for model " +:+ modelName
                                       +:+ ": LiteLLM endpoint not configured. "
                                       +:+ "Please configure in AI Chat settings."))],
         st)).
Proof.
  intros Htype Hendpoint. apply stored_or_empty in Hendpoint.
  assert (Hcall : forall apiKey openaiMessages options,
             callLiteLLMWithMessages apiKey modelName openaiMessages options st
             = (Raises (ErrorInstance
                          ("LiteLLM call failed for model " +:+ modelName
                             +:+ ": LiteLLM endpoint not configured. "
                             +:+ "Please configure in AI Chat settings.")), st)).
  { intros. unfold callLiteLLMWithMessages, getLiteLLMConfig. rewrite Hendpoint.
    reflexivity. }
  split; [exact Hcall|].
  intros apiKey. unfold testModel, callLLM, callLLMWithMessages.
  cbn [optional_member spread]. rewrite member_assoc_set.
  cbn [js_or truthy member assoc_get default String.eqb Ascii.eqb Bool.eqb negb].
  rewrite Htype. cbn [strict_eq_string String.eqb Ascii.eqb Bool.eqb].
  cbn [convertToOpenAIMessages convertMessages convertMessage app].
  rewrite Hcall. reflexivity.
Qed.

End CallFacts.

Section ConversionFacts.

Context `{Providers}.

Lemma transformTool_fixed (tool t : JSValue) :
  transformTool tool = Returns t ->
  is_object t = true
  /\ (strict_eq_string (member t "type") "function" = true ->
      has_own_property t "function" = true)
  /\ transformTool t = Returns t.
Proof.
  unfold transformTool.
  destruct tool as [| | | | |items|props]; try discriminate.
  - cbn. intros [= <-]. cbn. repeat split; discriminate.
  - destruct (has_own_property (JObject props) "function") eqn:Hhas.
    + intros [= <-]. rewrite Hhas. auto.
    + destruct (strict_eq_string (member (JObject props) "type") "function") eqn:Htype.
      * intros [= <-]. cbn. auto.
      * intros [= <-]. rewrite Hhas, Htype. repeat split. discriminate.
Qed.

(** X18.  [convertToLiteLLMOptions] maps the tools one to one; when the
    mapping returns, every tool is an object, every tool of type
    ['function'] has a [function] property, and mapping the mapped tools
    again changes nothing. *)
Theorem transformTools_wraps_function_tools (tools transformed : list JSValue) :
  transformTools tools = Returns transformed ->
  length transformed = length tools
  /\ Forall (fun t => is_object t = true
                      /\ (strict_eq_string (member t "type") "function" = true ->
                          has_own_property t "function" = true)) transformed
  /\ transformTools transformed = Returns transformed.
Proof.
  revert transformed.
  induction tools as [|tool tools IH]; intros transformed; cbn [transformTools].
  - intros [= <-]. repeat split. constructor.
  - destruct (transformTool tool) as [t|e] eqn:Htool; [|discriminate].
    destruct (transformTools tools) as [ts|e]; [|discriminate].
    intros [= <-].
    destruct (IH ts eq_refl) as (Hlength & Hall & Hfixed).
    destruct (transformTool_fixed tool t Htool) as (Hobject & Hwrapped & Ht).
    cbn [length transformTools]. rewrite Ht, Hfixed, Hlength.
    repeat split. constructor; auto.
Qed.

Lemma nonempty_neq (s : string) : nonempty s = true -> s <> "".
Proof. intros Hs ->. discriminate. Qed.

Lemma convertMessage_ok (msg : ChatMessage) (st : ClientState) :
  length (fst (convertMessage msg st)) <= 1
  /\ Forall openai_wire_ok (fst (convertMessage msg st))
  /\ (lacks_callId msg = false -> snd (convertMessage msg st) = st).
Proof.
  destruct msg as [text|m|r]; cbn [convertMessage lacks_callId].
  - cbn. repeat split; auto. constructor; [|constructor]. cbn. auto.
  - destruct (action m).
    + destruct (truthy (toolName m)) eqn:Hname; [|cbn; auto].
      destruct (toolCallId m) as [callId|]; [destruct (nonempty callId)|].
      all: try destruct (crypto_randomUUID st) as [fresh st'].
      all: cbn; repeat split; auto; try discriminate.
      all: constructor; [|constructor]; cbn; split; eauto.
    + destruct (answer m) as [a|]; [destruct (nonempty a)|]; cbn; repeat split; auto.
      constructor; [|constructor]. cbn. auto.
  - destruct (tr_toolCallId r) as [callId|]; [destruct (nonempty callId) eqn:Hid|];
      cbn; repeat split; auto.
    constructor; [|constructor]. cbn. split; [reflexivity|].
    exists callId. split; [reflexivity|]. apply nonempty_neq, Hid.
Qed.

(** X19.  [convertToOpenAIMessages] puts the system prompt first and
    nowhere else, adds at most one message for each message of the log,
    each of them well formed (a tool message answers an identifier that is
    not empty; an assistant message has no tool call or one, of a truthy
    name), and draws no identifier from [crypto.randomUUID] when every
    tool call of the log carries its own. *)
Theorem convertToOpenAIMessages_shape (messages : list ChatMessage)
    (systemPrompt : JSValue) (st : ClientState) :
  exists converted,
    fst (convertToOpenAIMessages messages systemPrompt st)
    = {| oa_role := system_role; oa_content := systemPrompt; oa_tool_calls := [];
         oa_tool_call_id := None; oa_name := None |} :: converted
    /\ length converted <= length messages
    /\ Forall openai_wire_ok converted
    /\ (forallb (fun msg => negb (lacks_callId msg)) messages = true ->
        snd (convertToOpenAIMessages messages systemPrompt st) = st).
Proof.
  unfold convertToOpenAIMessages.
  assert (Hall : length (fst (convertMessages messages st)) <= length messages
                 /\ Forall openai_wire_ok (fst (convertMessages messages st))
                 /\ (forallb (fun msg => negb (lacks_callId msg)) messages = true ->
                     snd (convertMessages messages st) = st)).
  { revert st. induction messages as [|msg messages IH]; intros st; cbn [convertMessages].
    - cbn. repeat split; auto.
    - destruct (convertMessage_ok msg st) as (Hlen & Hok & Hst).
      destruct (convertMessage msg st) as [converted st1]. cbn [fst snd] in *.
      destruct (IH st1) as (Hlen' & Hok' & Hst').
      destruct (convertMessages messages st1) as [others st2]. cbn [fst snd] in *.
      split; [rewrite length_app; cbn [length]; lia|].
      split; [apply Forall_app; auto|].
      cbn [forallb]. intros [Hmsg Hrest]%andb_prop.
      rewrite Hst' by exact Hrest. apply Hst.
      destruct (lacks_callId msg); [discriminate|reflexivity]. }
  destruct (convertMessages messages st) as [converted st']. cbn [fst snd] in *.
  exists converted. split; [reflexivity|exact Hall].
Qed.

End ConversionFacts.

(** ** The thinking tool in a run *)

Section ThinkingFacts.

Context `{Page}.
Variable parse : string -> option JSValue.

Ltac unfold_thrower := unfold try_catch, and_then, value, throw.

Lemma captureVisualContext_value (w : W) :
  (exists msg, fst (captureVisualContext w) = error_result msg)
  \/ (exists props, fst (captureVisualContext w) = JObject props
                    /\ assoc_get props "error" = None).
Proof.
  unfold captureVisualContext; unfold_thrower.
  destruct (TakeScreenshotTool_execute _ w) as [[screenshotResult|e] w1];
    [|left; eexists; reflexivity].
  unfold has_property; unfold_thrower.
  destruct screenshotResult as [| | | | |items|props]; try (left; eexists; reflexivity).
  - destruct (primaryPageTarget w1) as [url|]; [|left; eexists; reflexivity].
    destruct (invoke_evaluate _ w1) as [[titleResult|e] w2]; [|left; eexists; reflexivity].
    unfold property; unfold_thrower.
    destruct (getProp titleResult "result"); [|left; eexists; reflexivity].
    right. eexists. split; reflexivity.
  - destruct (has_own_property (JObject props) "error"); [left; eexists; reflexivity|].
    destruct (primaryPageTarget w1) as [url|]; [|left; eexists; reflexivity].
    destruct (invoke_evaluate _ w1) as [[titleResult|e] w2]; [|left; eexists; reflexivity].
    unfold property; unfold_thrower.
    destruct (getProp titleResult "result"); [|left; eexists; reflexivity].
    right. eexists. split; reflexivity.
Qed.

Lemma getThinkingAnalysis_value (prompt : ThinkingPrompt) (w : W) :
  (exists msg, fst (getThinkingAnalysis parse prompt w) = error_result msg)
  \/ (exists props items,
        fst (getThinkingAnalysis parse prompt w) = JObject props
        /\ truthy (member (JObject props) "visualSummary") = true
        /\ member (JObject props) "thingsToDoList" = JArray items).
Proof.
  unfold getThinkingAnalysis; unfold_thrower.
  destruct (LLMClient_call _ w) as [[response|e] w1]; [|left; eexists; reflexivity].
  destruct (text response) as [responseText|]; [|left; eexists; reflexivity].
  destruct (nonempty responseText); [|left; eexists; reflexivity].
  cbn [fst].
  destruct (parse responseText) as [result|]; [|left; eexists; reflexivity].
  unfold property; unfold_thrower.
  destruct (getProp result "visualSummary") as [visualSummary|] eqn:Hsummary;
    [|left; eexists; reflexivity].
  destruct (getProp result "thingsToDoList") as [thingsToDoList|] eqn:Hlist;
    [|left; eexists; reflexivity].
  destruct (truthy visualSummary) eqn:Htruthy; [|left; eexists; reflexivity].
  destruct (truthy thingsToDoList); [|left; eexists; reflexivity].
  destruct thingsToDoList as [| | | | |items|]; try (left; eexists; reflexivity).
  apply getProp_member in Hsummary, Hlist.
  destruct result as [| | | | | |props]; try discriminate;
    try (cbn in Hsummary; subst; discriminate).
  right. exists props, items. cbn [fst negb orb isArray].
  split; [reflexivity|]. split; [congruence|exact Hlist].
Qed.

(** X20.  [ThinkingTool.execute] returns either [{error: msg}] with a
    text that is not empty, which the runner records as an error tool
    result with that text, or the object parsed from the answer of the
    model, which has a truthy [visualSummary], an array [thingsToDoList]
    and no [error] property, and which the runner records as an error
    exactly when it holds [success: false] or has an own property
    [hasOwnProperty]: that property hides the method that the runner
    calls, and the text recorded is then the one of the [TypeError]. *)
Theorem thinking_result_in_log (args : JSValue) (toolCallId : string) (w : W) :
  (exists msg,
      msg <> ""
      /\ fst (execute (ThinkingTool parse) args w) = Normal (error_result msg)
      /\ executedToolMessage "thinking" toolCallId (fst (execute (ThinkingTool parse) args w))
         = Normal (ToolResult {| tr_toolName := "thinking";
                                 resultText := JString msg;
                                 isError := true;
                                 tr_toolCallId := Some toolCallId;
                                 tr_error := Some (JString msg);
                                 resultData := Some (error_result msg) |}))
  \/ (exists props items r,
        fst (execute (ThinkingTool parse) args w) = Normal (JObject props)
        /\ assoc_get props "error" = None
        /\ truthy (member (JObject props) "visualSummary") = true
        /\ member (JObject props) "thingsToDoList" = JArray items
        /\ executedToolMessage "thinking" toolCallId (Normal (JObject props))
           = Normal (ToolResult r)
        /\ tr_toolName r = "thinking"
        /\ tr_toolCallId r = Some toolCallId
        /\ isError r
           = has_own_property (JObject props) "hasOwnProperty"
             || match member (JObject props) "success" with
                | JBool false => true
                | _ => false
                end
        /\ if has_own_property (JObject props) "hasOwnProperty"
           then
             let fault := fault_message (hasOwnProperty_not_a_function (JObject props)) in
             resultText r
             = JString ("Error during tool execution: "
                          +:+ (if nonempty fault then fault else "TypeError"))
             /\ resultData r = Some (JObject [("error", resultText r)])
           else resultData r = Some (JObject props)).
Proof.
  assert (Hfailure : forall msg outcome,
             msg <> "" ->
             outcome = Normal (error_result msg) ->
             exists msg,
               msg <> ""
               /\ outcome = Normal (error_result msg)
               /\ executedToolMessage "thinking" toolCallId outcome
                  = Normal (ToolResult {| tr_toolName := "thinking";
                                          resultText := JString msg;
                                          isError := true;
                                          tr_toolCallId := Some toolCallId;
                                          tr_error := Some (JString msg);
                                          resultData := Some (error_result msg) |})).
  { intros msg outcome Hmsg ->. exists msg. split; [exact Hmsg|]. split; [reflexivity|].
    unfold executedToolMessage, toolExecutionResult, readToolResult, hasOwnProperty,
      error_result, toolResultMessage.
    cbn -[stringifiedResult String.eqb].
    destruct msg as [|c msg]; [congruence|]. reflexivity. }
  cbn [execute ThinkingTool].
  unfold ThinkingTool_execute, property, try_catch, and_then.
  destruct (getProp args "userRequest") as [userRequest|]; unfold value, throw.
  2: { left. cbn [fst]. eapply Hfailure; [|reflexivity]. discriminate. }
  destruct (captureVisualContext_value w) as [[msg Hcapture]|(ctx & Hcapture & Hctx)];
    destruct (captureVisualContext w) as [visualContext w1]; cbn [fst] in Hcapture;
    subst visualContext.
  { left. cbn [fst]. eapply Hfailure; [|reflexivity]. discriminate. }
  change (has_property "error" (JObject ctx))
    with (value (bool_decide (is_Some (assoc_get ctx "error")))).
  rewrite Hctx, bool_decide_false by (intros [x Hx]; discriminate).
  cbv beta iota delta [value].
  destruct (getThinkingAnalysis_value
              (buildThinkingPrompt userRequest (member args "context") (JObject ctx)) w1)
    as [[msg Hanalysis]|(props & items & Hanalysis & Hsummary & Hlist)];
    destruct (getThinkingAnalysis parse _ w1) as [analysis w2]; cbn [fst] in Hanalysis;
    subst analysis.
  { left. cbn [fst]. eapply Hfailure; [|reflexivity]. discriminate. }
  change (has_property "error" (JObject props))
    with (value (bool_decide (is_Some (assoc_get props "error")))).
  destruct (assoc_get props "error") as [e|] eqn:Herror.
  - rewrite bool_decide_true by eauto. cbv beta iota delta [value].
    left. cbn [fst]. eapply Hfailure; [|reflexivity]. discriminate.
  - rewrite bool_decide_false by (intros [x Hx]; discriminate).
    cbv beta iota delta [value].
    right. exists props, items. cbn [fst].
    unfold executedToolMessage, toolExecutionResult.
    pose proof (readToolResult_reading (JObject props)) as Hread.
    destruct (readToolResult (JObject props)) as [[toolResultText toolIsError]|].
    + destruct Hread as [-> Hhidden]. eexists.
      split; [reflexivity|]. split; [exact Herror|]. split; [exact Hsummary|].
      split; [exact Hlist|]. split; [reflexivity|].
      cbn [tr_toolName tr_toolCallId resultData isError resultText truthy].
      split; [reflexivity|]. split; [reflexivity|].
      rewrite Hhidden. split; [|reflexivity].
      unfold failure_value. cbn [is_object andb member orb]. rewrite Herror.
      reflexivity.
    + destruct Hread as [_ Hhidden]. unfold toolExecutionFailure, type_error, thrown_text.
      eexists.
      split; [reflexivity|]. split; [exact Herror|]. split; [exact Hsummary|].
      split; [exact Hlist|]. split; [reflexivity|].
      cbn [tr_toolName tr_toolCallId resultData isError resultText truthy].
      split; [reflexivity|]. split; [reflexivity|].
      rewrite Hhidden. split; [reflexivity|]. cbv zeta.
      destruct (nonempty (fault_message _)); split; reflexivity.
Qed.

(** X22.  Without a screenshot the thinking tool does not call the
    model.  When the screenshot tool throws, or returns an object with an
    [error] property, [ThinkingTool.execute] returns the failure with the
    prefix [Failed to capture visual context:] put before the text that
    [captureVisualContext] made (which, for a throw, begins with the
    same prefix), and the world is the one that the screenshot tool
    left. *)
Theorem thinking_needs_the_screenshot (args userRequest : JSValue) (w w1 : W) :
  getProp args "userRequest" = Some userRequest ->
  (forall e,
      TakeScreenshotTool_execute (JObject [("fullPage", JBool false)]) w = (Throw e, w1) ->
      ThinkingTool_execute parse args w
      = (error_result ("Failed to capture visual context: "
                         +:+ "Failed to capture visual context: " +:+ as_string e), w1))
  /\ (forall props reason,
        TakeScreenshotTool_execute (JObject [("fullPage", JBool false)]) w
        = (Normal (JObject props), w1) ->
        assoc_get props "error" = Some reason ->
        ThinkingTool_execute parse args w
        = (error_result ("Failed to capture visual context: "
                           +:+ "Screenshot failed: " +:+ js_String reason), w1)).
Proof.
  intros Hargs. split.
  - intros e Hshot.
    unfold ThinkingTool_execute, property, try_catch, and_then. rewrite Hargs.
    cbv beta iota delta [value].
    unfold captureVisualContext, try_catch, and_then. rewrite Hshot.
    reflexivity.
  - intros props reason Hshot Hreason.
    unfold ThinkingTool_execute, property, try_catch, and_then. rewrite Hargs.
    cbv beta iota delta [value].
    unfold captureVisualContext, try_catch, and_then. rewrite Hshot.
    change (has_property "error" (JObject props))
      with (value (bool_decide (is_Some (assoc_get props "error")))).
    rewrite Hreason, bool_decide_true by eauto.
    cbv beta iota delta [value]. cbn [member]. rewrite Hreason. reflexivity.
Qed.

End ThinkingFacts.

(** ** Concrete instances *)

(** A round of the tool [calc], as sent to the model. *)
Lemma tool_round_witness :
  convertToLLMMessages
    [toolCallMessage "calc" "call-0";
     returnedMessage "calc" "call-0" (JObject [("result", JNumber 4)])]
  = [{| role := role_assistant; content := JUndefined;
        tool_calls := [{| call_id := "call-0"; call_name := JString "calc";
                          arguments := Some "{}" |}];
        tool_call_id := None |};
     {| role := role_tool;
        content := stringifiedResult (JObject [("result", JNumber 4)]);
        tool_calls := []; tool_call_id := Some "call-0" |}].
Proof.
  pose proof (tool_round_on_the_wire (H := plainWorld) (call_response "calc" (JObject []))
                "calc" (JObject []) "call-0" (Normal (JObject [("result", JNumber 4)]))
                ltac:(discriminate)) as Hround.
  cbv in Hround. destruct Hround as [_ Hwire]. exact Hwire.
Defined.

(** The model asks for [ghost], which no schema names. *)
Lemma unknown_tool_witness :
  iterationBody (H := plainWorld) (run 0) (runnerConfig [PlainTool calc] 3) stepHooks None
    (fst (runSetup (H := plainWorld) (runnerConfig [PlainTool calc] 3) None))
    (snd (runSetup (H := plainWorld) (runnerConfig [PlainTool calc] 3) None))
    0 [UserMessage "hi"] (start [Normal (call_response "ghost" (JObject []))])
  = Some (Normal
            (Return
               (errorWithSteps "Agent loop error: Agent requested unknown tool: ghost"
                  [UserMessage "hi"; toolCallMessage "ghost" "call-0";
                   systemErrorMessage
                     "Agent loop error: Agent requested unknown tool: ghost"]
                  reason_error)
               [UserMessage "hi"; toolCallMessage "ghost" "call-0";
                systemErrorMessage "Agent loop error: Agent requested unknown tool: ghost"]
               EndLoopError), {| responses := []; uuids := 1 |}).
Proof.
  eapply (unknown_tool_ends_run (H := plainWorld) (run 0)
           (runnerConfig [PlainTool calc] 3) stepHooks None 0 [UserMessage "hi"]
           (start [Normal (call_response "ghost" (JObject []))])
           (start [Normal (call_response "ghost" (JObject []))])
           (start []) {| responses := []; uuids := 1 |}
           _ (call_response "ghost" (JObject [])) "ghost" (JObject [])
           "call-0");
    try reflexivity.
  intros s [<-|[]]. discriminate.
Defined.

(** The agent [A] hands off to the registered agent [B]. *)
Lemma handoff_call_witness :
  exists firstConfig,
    List.find
      (fun h => String.eqb (targetAgentName h) "B" && is_llm_trigger h)
      (agentHandoffs (H := worldB None) (Some (agentA "B" None))) = Some firstConfig
    /\ iterationBody (H := worldB None) (run 1) (runnerConfig [] 3) stepHooks
         (Some (agentA "B" None))
         (fst (runSetup (H := worldB None) (runnerConfig [] 3) (Some (agentA "B" None))))
         (snd (runSetup (H := worldB None) (runnerConfig [] 3) (Some (agentA "B" None))))
         0 [UserMessage "hi"] (start [Normal handoffCall; Normal (text_response "done")])
       = match
           executeHandoff (H := worldB None) (run 1) handedOffLog (JObject []) firstConfig
             (agentA "B" None) "key" "gpt" (integer 3) 0%Q successWithSteps
             errorWithSteps (JObject [])
             {| responses := [Normal (text_response "done")]; uuids := 1 |}
         with
         | Some (Normal handoffResult, w4) =>
             Some (Normal (Return handoffResult handedOffLog EndToolHandoff), w4)
         | Some (Throw error, w4) =>
             match thrown_text error with
             | Some text =>
                 let errorMsg := "Agent loop error: " +:+ text in
                 Some (Normal
                         (Return
                            (errorWithSteps errorMsg
                               (handedOffLog ++ [systemErrorMessage errorMsg])
                               reason_error)
                            (handedOffLog ++ [systemErrorMessage errorMsg])
                            EndLoopError), w4)
             | None =>
                 Some (Throw (type_error (H := worldB None) (reading_message error)), w4)
             end
         | None => None
         end.
Proof.
  eapply (handoff_call_replaces_run (H := worldB None) (run 1) (runnerConfig [] 3)
           stepHooks (Some (agentA "B" None)) 0 [UserMessage "hi"]
           (start [Normal handoffCall; Normal (text_response "done")])
           (start [Normal handoffCall; Normal (text_response "done")])
           (start [Normal (text_response "done")])
           {| responses := [Normal (text_response "done")]; uuids := 1 |}
           _ handoffCall (handoffTo "B" None) (agentA "B" None)
           (agent "B" [] None) (JObject []) "call-0");
    try reflexivity.
  left. reflexivity.
Defined.

(** The agent registered as [B] names itself [Bee]. *)
Lemma renamed_agent_witness :
  (exists s,
      In s (fst (runSetup (H := worldRenamed) (runnerConfig [] 3) (Some (agentA "B" None))))
      /\ fn_name s = "handoff_to_B")
  /\ iterationBody (H := worldRenamed) (run 1) (runnerConfig [] 3) stepHooks
       (Some (agentA "B" None))
       (fst (runSetup (H := worldRenamed) (runnerConfig [] 3) (Some (agentA "B" None))))
       (snd (runSetup (H := worldRenamed) (runnerConfig [] 3) (Some (agentA "B" None))))
       0 [UserMessage "hi"] (start [Normal handoffCall])
     = Some (Normal
               (Return
                  (errorWithSteps
                     "Agent loop error: Internal error: No matching 'llm_tool_call' handoff config found for handoff_to_B"
                     [UserMessage "hi"; toolCallMessage "handoff_to_B" "call-0";
                      systemErrorMessage
                        "Agent loop error: Internal error: No matching 'llm_tool_call' handoff config found for handoff_to_B"]
                     reason_error)
                  [UserMessage "hi"; toolCallMessage "handoff_to_B" "call-0";
                   systemErrorMessage
                     "Agent loop error: Internal error: No matching 'llm_tool_call' handoff config found for handoff_to_B"]
                  EndLoopError), {| responses := []; uuids := 1 |}).
Proof.
  eapply (handoff_tool_of_renamed_agent (H := worldRenamed) (run 1) (runnerConfig [] 3)
           stepHooks (Some (agentA "B" None)) 0 [UserMessage "hi"]
           (start [Normal handoffCall]) (start [Normal handoffCall]) (start [])
           {| responses := []; uuids := 1 |}
           _ handoffCall (handoffTo "B" None) (agent "Bee" [] None)
           (JObject []) "call-0");
    try reflexivity.
  - left. reflexivity.
  - intros h [<-|[]] _. discriminate.
Defined.

(** A [max_iterations] rule for an agent that is not registered. *)
Lemma run_settles_witness :
  exists outcome w',
    (forall depth,
        run (H := plainWorld) depth [UserMessage "hi"] JNull (runnerConfig [] 3) stepHooks
          (Some (agentA "ghost" (Some max_iterations))) (start [])
        = Some (outcome, w'))
    /\ match outcome with
       | Normal _ => True
       | Throw e =>
           exists error,
             (error = thrown_null \/ error = thrown_undefined)
             /\ e = type_error (H := plainWorld) (reading_message error)
       end.
Proof.
  apply (run_without_handoff_target_settles (H := plainWorld) [UserMessage "hi"] JNull
           (runnerConfig [] 3) stepHooks (Some (agentA "ghost" (Some max_iterations)))
           (start [])).
  - intros h _ a. discriminate.
  - discriminate.
Defined.

(** The agent [loop] hands off to itself. *)
Lemma self_handoff_witness :
  run (H := tirelessWorld) 5 [UserMessage "go"] JNull loopConfig stepHooks (Some loopAgent) 0
  = None.
Proof.
  apply (self_handoff_never_returns (H := tirelessWorld) "loop" "noop" loopAgent
           (handoffTo "loop" (Some max_iterations)) (PlainTool tick)
           eq_refl eq_refl eq_refl eq_refl eq_refl (or_introl eq_refl) eq_refl).
  - intros request w. eexists _, _, _. split; reflexivity.
  - intros registered tool Hregistered toolArgs w. cbn in Hregistered.
    destruct (String.eqb registered "loop");
      [injection Hregistered as <-; split; discriminate|].
    destruct (String.eqb registered "noop");
      [injection Hregistered as <-; split; discriminate|discriminate].
  - left. reflexivity.
  - intros tool [<-|[]] toolArgs w. split; discriminate.
Defined.

(** [claude] is stored as a LiteLLM model, and no endpoint is stored. *)
Lemma litellm_endpoint_witness :
  testModel (H := offline) JSON_parse "claude" None tt
  = (JObject [("success", JBool false);
              ("error",
               JString "LiteLLM call failed for model claude: LiteLLM endpoint not configured. Please configure in AI Chat settings.")],
     tt).
Proof.
  refine (proj2 (litellm_needs_stored_endpoint (H := offline) JSON_parse "claude" tt
                   _ (or_introl eq_refl)) None).
  vm_compute. reflexivity.
Defined.

(** A tool in the flat format is wrapped. *)
Lemma transformTools_witness :
  transformTools (H := offline) [wrappedTool] = Returns [wrappedTool].
Proof.
  refine (proj2 (proj2 (transformTools_wraps_function_tools (H := offline)
                          [flatTool] [wrappedTool] _))).
  reflexivity.
Defined.

(** The model answers with a text. *)
Lemma text_answer_witness :
  iterationBody (H := plainWorld) (run 0) (runnerConfig [] 3) stepHooks None [] ∅ 0
    [UserMessage "2+2?"] (start [Normal (text_response "4")])
  = Some (Normal
            (Return
               (successWithSteps "4" [UserMessage "2+2?"; finalMessage "4"]
                  reason_final_answer)
               [UserMessage "2+2?"; finalMessage "4"] EndFinalAnswer), start []).
Proof.
  refine (text_answer_ends_run (H := plainWorld) JSON_parse (run 0) (runnerConfig [] 3)
            stepHooks None [] ∅ 0 [UserMessage "2+2?"] (start [Normal (text_response "4")])
            (start [Normal (text_response "4")]) (start []) _ (text_response "4") "4"
            eq_refl eq_refl eq_refl eq_refl eq_refl _ eq_refl).
  discriminate.
Defined.

(** The screenshot tool throws. *)
Lemma thinking_screenshot_witness :
  ThinkingTool_execute (H0 := blindPage) JSON_parse thinkingArgs (start [])
  = (error_result
       "Failed to capture visual context: Failed to capture visual context: Error: no page",
     start []).
Proof.
  exact (proj1 (thinking_needs_the_screenshot (H0 := blindPage) JSON_parse thinkingArgs
                  (JString "book a flight") (start []) (start []) eq_refl)
           (new_Error "no page") eq_refl).
Defined.
